(** * plasmacleaner: a moving bar that removes image retention

    A shallow embedding of the two versions of [plasmacleaner.c] found in the
    repository, and the properties of the animation state that its
    description states.

    - [White] is the version with the pure white bar: the gradient pattern is
      rebuilt in [on_draw] whenever the width changes, the draw timer only
      increments [x], and [on_draw] reduces [x] modulo the width.
    - [Blue] is the version with the blue-tinted bar: one unit-width pattern
      is built in [main], the draw timer increments and wraps [x], and
      [on_draw] rescales [x] when the width changes.

    GLib, GTK, cairo and Xlib are modelled by a small environment: the live
    timeout sources, the live cairo patterns, fresh handles, and the trace of
    the library calls the program makes.  C's [guint] is a [Z] with the
    wrap-around modulo [2^32] written out; [gint] is a [Z]; [double]
    constants are rationals. *)

From Stdlib Require Import ZArith List Lia Bool QArith.
Import ListNotations.
Local Open Scope Z_scope.

(** ** Machine integers *)

Definition GUINT_MODULUS : Z := 2 ^ 32.
Definition GINT_MAX : Z := 2 ^ 31 - 1.

(** Conversion of a [gint] operand to [guint] (the usual arithmetic
    conversions of C when the other operand is a [guint]). *)
Definition to_guint (z : Z) : Z := z mod GUINT_MODULUS.

(** ** Constants shared by the two versions *)

(* Number of milliseconds for the bar to move across the screen. *)
Definition PERIOD_MS : Z := 4000.
(* Bar's width as a fraction of the screen width. *)
Definition BAR_FRACTION : Q := 3 # 8.
(* How often to simulate mouse movement to suppress screensaver. *)
Definition SCREENSAVER_SUPPRESSION_PERIOD_MS : Z := 1000.

(** ** The library environment *)

Inductive callback : Type :=
| cb_on_draw_timer
| cb_on_screensaver_suppression_timer.

Record source : Type := mk_source {
  source_id : Z;
  source_interval : Z;
  source_callback : callback
}.

Record rgb : Type := mk_rgb { red : Q; green : Q; blue : Q }.

Record color_stop : Type := mk_stop { stop_offset : Q; stop_color : rgb }.

Inductive extend_t : Type := CAIRO_EXTEND_PAD | CAIRO_EXTEND_REPEAT.

(** A linear gradient from [(pat_x0, 0)] to [(pat_x1, 0)]. *)
Record pattern_t : Type := mk_pattern {
  pat_x0 : Q;
  pat_x1 : Q;
  pat_stops : list color_stop;
  pat_extend : extend_t
}.

(** The library calls that the program makes, as they appear in the trace. *)
Inductive call : Type :=
| c_timeout_add (interval : Z) (cb : callback) (id : Z)
| c_source_remove (id : Z)
| c_pattern_create_linear (x0 x1 : Q) (p : Z)
| c_pattern_add_color_stop_rgb (p : Z) (offset : Q) (c : rgb)
| c_pattern_set_extend (p : Z) (e : extend_t)
| c_pattern_destroy (p : Z)
| c_widget_queue_draw (w : Z)
| c_widget_destroy (w : Z)
| c_main_quit
| c_translate (tx : Z)
| c_scale (sx : Z)
| c_set_source (p : Z)
| c_paint
| c_warp_pointer (display : Z).

(** [trace] lists the calls newest first. *)
Record glib : Type := mk_glib {
  next_source_id : Z;
  sources : list source;
  next_pattern : Z;
  patterns : list (Z * pattern_t);
  trace : list call
}.

Definition glib_init : glib :=
  {| next_source_id := 1; sources := []; next_pattern := 1; patterns := [];
     trace := [] |}.

(** ** Outcomes: a state and error monad over the environment *)

Inductive outcome (A : Type) : Type :=
| Done (a : A)
| AssertionFailed
| UndefinedBehaviour.
Arguments Done {A} a.
Arguments AssertionFailed {A}.
Arguments UndefinedBehaviour {A}.

Definition M (A : Type) : Type := glib -> outcome (A * glib).

Definition ret {A : Type} (a : A) : M A := fun g => Done (a, g).

Definition bind {A B : Type} (m : M A) (k : A -> M B) : M B :=
  fun g =>
    match m g with
    | Done (a, g') => k a g'
    | AssertionFailed => AssertionFailed
    | UndefinedBehaviour => UndefinedBehaviour
    end.

Notation "x <- m ;; k" := (bind m (fun x => k))
  (at level 61, m at next level, right associativity).
Notation "m ;;; k" := (bind m (fun _ => k))
  (at level 61, right associativity).

(** [assert(b)] of <assert.h>: the program is compiled without NDEBUG. *)
Definition assert (b : bool) : M unit :=
  fun g => if b then Done (tt, g) else AssertionFailed.

Definition undefined {A : Type} : M A := fun _ => UndefinedBehaviour.

(** The environment after the program made the call [c]. *)
Definition push (c : call) (g : glib) : glib :=
  {| next_source_id := next_source_id g; sources := sources g;
     next_pattern := next_pattern g; patterns := patterns g;
     trace := c :: trace g |}.

Definition log (c : call) : M unit := fun g => Done (tt, push c g).

(** *** GLib timeout sources *)

(** A new source gets the next identifier; identifiers start at 1. *)
Definition source_added (interval : Z) (cb : callback) (g : glib) : glib :=
  {| next_source_id := next_source_id g + 1;
     sources := mk_source (next_source_id g) interval cb :: sources g;
     next_pattern := next_pattern g; patterns := patterns g;
     trace := c_timeout_add interval cb (next_source_id g) :: trace g |}.

Definition g_timeout_add (interval : Z) (cb : callback) : M Z :=
  fun g => Done (next_source_id g, source_added interval cb g).

Definition drop_source (id : Z) (l : list source) : list source :=
  filter (fun s => negb (source_id s =? id)) l.

Definition source_removed (id : Z) (g : glib) : glib :=
  {| next_source_id := next_source_id g;
     sources := drop_source id (sources g);
     next_pattern := next_pattern g; patterns := patterns g;
     trace := c_source_remove id :: trace g |}.

Definition g_source_remove (id : Z) : M unit :=
  fun g => Done (tt, source_removed id g).

Definition find_source (id : Z) (g : glib) : option source :=
  find (fun s => source_id s =? id) (sources g).

(** *** cairo patterns *)

Fixpoint lookup_pattern (p : Z) (ps : list (Z * pattern_t)) : option pattern_t :=
  match ps with
  | [] => None
  | (q, v) :: rest => if q =? p then Some v else lookup_pattern p rest
  end.

Fixpoint update_pattern (p : Z) (f : pattern_t -> pattern_t)
    (ps : list (Z * pattern_t)) : list (Z * pattern_t) :=
  match ps with
  | [] => []
  | (q, v) :: rest =>
      if q =? p then (q, f v) :: rest else (q, v) :: update_pattern p f rest
  end.

Definition pattern_created (x0 x1 : Q) (g : glib) : glib :=
  {| next_source_id := next_source_id g; sources := sources g;
     next_pattern := next_pattern g + 1;
     patterns := (next_pattern g, mk_pattern x0 x1 [] CAIRO_EXTEND_PAD)
                   :: patterns g;
     trace := c_pattern_create_linear x0 x1 (next_pattern g) :: trace g |}.

Definition cairo_pattern_create_linear (x0 x1 : Q) : M Z :=
  fun g => Done (next_pattern g, pattern_created x0 x1 g).

(** cairo keeps the stops ordered by offset; a new stop goes after the stops
    whose offset is not greater than its own. *)
Fixpoint insert_stop (s : color_stop) (l : list color_stop) : list color_stop :=
  match l with
  | [] => [s]
  | t :: rest =>
      if Qle_bool (stop_offset t) (stop_offset s)
      then t :: insert_stop s rest
      else s :: t :: rest
  end.

Definition add_stop (s : color_stop) (v : pattern_t) : pattern_t :=
  mk_pattern (pat_x0 v) (pat_x1 v) (insert_stop s (pat_stops v)) (pat_extend v).

Definition set_extend (e : extend_t) (v : pattern_t) : pattern_t :=
  mk_pattern (pat_x0 v) (pat_x1 v) (pat_stops v) e.

(** The pattern [p] is changed by [f]; [c] is the call that did it. *)
Definition pattern_changed (p : Z) (f : pattern_t -> pattern_t) (c : call)
    (g : glib) : glib :=
  {| next_source_id := next_source_id g; sources := sources g;
     next_pattern := next_pattern g;
     patterns := update_pattern p f (patterns g);
     trace := c :: trace g |}.

Definition cairo_pattern_add_color_stop_rgb (p : Z) (offset r gr b : Q) : M unit :=
  fun g =>
    Done (tt, pattern_changed p (add_stop (mk_stop offset (mk_rgb r gr b)))
                (c_pattern_add_color_stop_rgb p offset (mk_rgb r gr b)) g).

Definition cairo_pattern_set_extend (p : Z) (e : extend_t) : M unit :=
  fun g => Done (tt, pattern_changed p (set_extend e) (c_pattern_set_extend p e) g).

Definition drop_pattern (p : Z) (l : list (Z * pattern_t)) : list (Z * pattern_t) :=
  filter (fun e => negb (fst e =? p)) l.

Definition pattern_destroyed (p : Z) (g : glib) : glib :=
  {| next_source_id := next_source_id g; sources := sources g;
     next_pattern := next_pattern g;
     patterns := drop_pattern p (patterns g);
     trace := c_pattern_destroy p :: trace g |}.

Definition cairo_pattern_destroy (p : Z) : M unit :=
  fun g => Done (tt, pattern_destroyed p g).

(** *** What the trace says about releases *)

Fixpoint removed_sources (t : list call) : list Z :=
  match t with
  | [] => []
  | c_source_remove id :: rest => id :: removed_sources rest
  | _ :: rest => removed_sources rest
  end.

Fixpoint destroyed_patterns (t : list call) : list Z :=
  match t with
  | [] => []
  | c_pattern_destroy p :: rest => p :: destroyed_patterns rest
  | _ :: rest => destroyed_patterns rest
  end.

(** A call that only draws or asks for a redraw: it touches no timer and no
    pattern. *)
Definition drawing_call (c : call) : bool :=
  match c with
  | c_widget_queue_draw _ | c_translate _ | c_scale _ | c_set_source _
  | c_paint => true
  | _ => false
  end.

(** ** Leaving the main loop

    [gtk_main_quit] asks the running [gtk_main] to return; the loop does so
    once the callback that made the call has returned.  The request is read
    off the trace: the loop leaves after a dispatch during which
    [gtk_main_quit] was called. *)
Definition gtk_main_quit : M unit := log c_main_quit.

Definition is_main_quit (c : call) : bool :=
  match c with
  | c_main_quit => true
  | _ => false
  end.

Definition quit_calls (g : glib) : nat :=
  length (filter is_main_quit (trace g)).

Definition quit_requested (before after : glib) : bool :=
  (quit_calls before <? quit_calls after)%nat.

(** ** Events delivered by the GTK main loop

    An event carries what the callback reads from the environment: the
    allocated width of the window for a draw, the X display behind
    [gdk_display_get_default()] for a timeout dispatch. *)
Inductive event : Type :=
| Draw (allocated_width : Z)
| Timeout (id : Z) (display : Z)
| Press.

Inductive status : Type :=
| Running
| Exited (code : Z).

(** ** The idle-suppression callback (the same in both versions)

    [display] is what [gdk_x11_display_get_xdisplay(gdk_display_get_default())]
    returned, [0] for a null pointer.  The result is the [gboolean] that
    tells GLib whether to keep the source. *)
Definition on_screensaver_suppression_timer (display : Z) : M bool :=
  assert (negb (display =? 0)) ;;;
  log (c_warp_pointer display) ;;;
  ret true.

(** GLib drops a source whose callback returned [FALSE]; that is not a call
    of the program and leaves no entry in the trace. *)
Definition source_dropped (id : Z) (g : glib) : glib :=
  {| next_source_id := next_source_id g;
     sources := drop_source id (sources g);
     next_pattern := next_pattern g; patterns := patterns g;
     trace := trace g |}.

Definition keep_source (id : Z) (keep : bool) : M unit :=
  fun g => if keep then Done (tt, g) else Done (tt, source_dropped id g).

(** ** The version with the white bar: src/plasmacleaner.c *)
Module White.

Record data_t : Type := mk_data {
  window : Z;
  pattern : Z;
  draw_timeout_id : Z;
  x : Z;
  last_width : Z
}.

Definition with_pattern (d : data_t) (p : Z) : data_t :=
  mk_data (window d) p (draw_timeout_id d) (x d) (last_width d).
Definition with_draw_timeout_id (d : data_t) (id : Z) : data_t :=
  mk_data (window d) (pattern d) id (x d) (last_width d).
Definition with_x (d : data_t) (v : Z) : data_t :=
  mk_data (window d) (pattern d) (draw_timeout_id d) v (last_width d).
Definition with_last_width (d : data_t) (w : Z) : data_t :=
  mk_data (window d) (pattern d) (draw_timeout_id d) (x d) w.

Definition free_draw_timeout_and_pattern (data : data_t) : M data_t :=
  data <- (if draw_timeout_id data =? 0 then ret data
           else g_source_remove (draw_timeout_id data) ;;;
                ret (with_draw_timeout_id data 0)) ;;
  if pattern data =? 0 then ret data
  else cairo_pattern_destroy (pattern data) ;;;
       ret (with_pattern data 0).

Definition on_draw_timer (data : data_t) : M (data_t * bool) :=
  let data := with_x data ((x data + 1) mod GUINT_MODULUS) in
  log (c_widget_queue_draw (window data)) ;;;
  ret (data, true).

(** [PERIOD_MS / (double)width] passed as the [guint] interval of
    [g_timeout_add]: the quotient truncated toward zero.  The quotient of
    4000 by an integer, when it is not an integer, is at least [1/width]
    away from the next one, far more than the rounding of a [double], so the
    truncation of the [double] quotient is the truncated integer quotient.
    The conversion is undefined when the quotient is infinite ([width = 0])
    or at most [-1]. *)
Definition draw_interval (width : Z) : option Z :=
  if width =? 0 then None
  else if Z.quot PERIOD_MS width <? 0 then None
  else Some (Z.quot PERIOD_MS width).

(** The body of [if (data->last_width != width)] in [on_draw]: a new timer
    and a new pattern for the new width. *)
Definition rebuild (width : Z) (data : data_t) : M data_t :=
  data <- free_draw_timeout_and_pattern data ;;
  interval <- match draw_interval width with
              | Some i => ret i
              | None => undefined
              end ;;
  id <- g_timeout_add interval cb_on_draw_timer ;;
  let data := with_draw_timeout_id data id in
  p <- cairo_pattern_create_linear 0 (inject_Z width) ;;
  cairo_pattern_add_color_stop_rgb p 0 1 1 1 ;;;
  cairo_pattern_add_color_stop_rgb p BAR_FRACTION 1 1 1 ;;;
  cairo_pattern_add_color_stop_rgb p BAR_FRACTION 0 0 0 ;;;
  cairo_pattern_add_color_stop_rgb p 1 0 0 0 ;;;
  cairo_pattern_set_extend p CAIRO_EXTEND_REPEAT ;;;
  ret (with_pattern data p).

Definition on_draw (allocated_width : Z) (data : data_t) : M (data_t * bool) :=
  let width := allocated_width in
  data <- (if last_width data =? to_guint width then ret data
           else rebuild width data) ;;
  let data := with_last_width data (to_guint width) in
  (* data->x %= width; *)
  if to_guint width =? 0 then undefined
  else
    let data := with_x data (x data mod to_guint width) in
    log (c_translate (x data)) ;;;
    log (c_set_source (pattern data)) ;;;
    log c_paint ;;;
    ret (data, true).

Definition on_destroy (data : data_t) : M data_t :=
  data <- free_draw_timeout_and_pattern data ;;
  gtk_main_quit ;;;
  ret data.

(** [gtk_widget_destroy] emits "destroy", to which [main] connected
    [on_destroy]. *)
Definition gtk_widget_destroy (data : data_t) : M data_t :=
  log (c_widget_destroy (window data)) ;;;
  on_destroy data.

Definition on_button_or_key_press (data : data_t) : M (data_t * bool) :=
  data <- gtk_widget_destroy data ;;
  ret (data, true).

(** The callback that the main loop runs for an event.  A timeout is
    dispatched only while its source is alive. *)
Definition handler (ev : event) (data : data_t) : M data_t :=
  match ev with
  | Draw w =>
      r <- on_draw w data ;;
      ret (fst r)
  | Timeout id display =>
      fun g =>
        match find_source id g with
        | None => Done (data, g)
        | Some s =>
            match source_callback s with
            | cb_on_draw_timer =>
                (r <- on_draw_timer data ;;
                 keep_source id (snd r) ;;;
                 ret (fst r)) g
            | cb_on_screensaver_suppression_timer =>
                (keep <- on_screensaver_suppression_timer display ;;
                 keep_source id keep ;;;
                 ret data) g
            end
        end
  | Press =>
      r <- on_button_or_key_press data ;;
      ret (fst r)
  end.

(** One iteration of the main loop: the callback of the event runs, and the
    boolean tells whether [gtk_main_quit] was called while it ran. *)
Definition dispatch (ev : event) (data : data_t) : M (data_t * bool) :=
  fun g =>
    match handler ev data g with
    | Done (data', g') => Done ((data', quit_requested g g'), g')
    | AssertionFailed => AssertionFailed
    | UndefinedBehaviour => UndefinedBehaviour
    end.

(** [gtk_main] dispatches the events until [gtk_main_quit] has been called;
    the boolean tells whether it returned, or is still waiting for events. *)
Fixpoint gtk_main (events : list event) (data : data_t) : M (data_t * bool) :=
  match events with
  | [] => ret (data, false)
  | ev :: rest =>
      r <- dispatch ev data ;;
      if snd r then ret (fst r, true) else gtk_main rest (fst r)
  end.

(** [window] and [cursor] are what [gtk_window_new] and [gdk_cursor_new]
    returned.  With the events of a run that has not ended yet the result is
    [Running]. *)
Definition main (window cursor : Z) (events : list event) : M (data_t * status) :=
  let data := mk_data window 0 0 0 0 in
  assert (negb (window =? 0)) ;;;
  assert (negb (cursor =? 0)) ;;;
  screensaver_suppression_timeout_id <-
    g_timeout_add SCREENSAVER_SUPPRESSION_PERIOD_MS
      cb_on_screensaver_suppression_timer ;;
  r <- gtk_main events data ;;
  if snd r
  then g_source_remove screensaver_suppression_timeout_id ;;;
       ret (fst r, Exited 0)
  else ret (fst r, Running).

(** The timer fires and the window is redrawn at width [w]: one step of the
    animation as it is seen on the screen. *)
Definition tick (w : Z) (data : data_t) : M data_t :=
  r <- on_draw_timer data ;;
  r' <- on_draw w (fst r) ;;
  ret (fst r').

Fixpoint ticks (n : nat) (w : Z) (data : data_t) : M data_t :=
  match n with
  | O => ret data
  | S k => data' <- tick w data ;; ticks k w data'
  end.

Definition offset_after (w : Z) (data : data_t) (g : glib) (n : nat) : option Z :=
  match ticks n w data g with
  | Done (data', _) => Some (x data')
  | _ => None
  end.

(** The gradient that [on_draw] builds for a window of width [w]. *)
Definition gradient (w : Z) : pattern_t :=
  mk_pattern 0 (inject_Z w)
    [mk_stop 0 (mk_rgb 1 1 1); mk_stop BAR_FRACTION (mk_rgb 1 1 1);
     mk_stop BAR_FRACTION (mk_rgb 0 0 0); mk_stop 1 (mk_rgb 0 0 0)]
    CAIRO_EXTEND_REPEAT.

End White.

(** ** The version with the blue-tinted bar: the plasmacleaner.c of
       src/unnamed/part_000 *)
Module Blue.

(* Colour of the bar (slightly blue tint). *)
Definition BAR_COLOUR_R : Q := 9 # 10.
Definition BAR_COLOUR_G : Q := 9 # 10.
Definition BAR_COLOUR_B : Q := 1.

Record data_t : Type := mk_data {
  window : Z;
  pattern : Z;
  draw_timeout_id : Z;
  draw_timeout_interval : Z;
  x : Z;
  width : Z
}.

Definition with_pattern (d : data_t) (p : Z) : data_t :=
  mk_data (window d) p (draw_timeout_id d) (draw_timeout_interval d) (x d) (width d).
Definition with_draw_timeout_id (d : data_t) (id : Z) : data_t :=
  mk_data (window d) (pattern d) id (draw_timeout_interval d) (x d) (width d).
Definition with_draw_timeout_interval (d : data_t) (i : Z) : data_t :=
  mk_data (window d) (pattern d) (draw_timeout_id d) i (x d) (width d).
Definition with_x (d : data_t) (v : Z) : data_t :=
  mk_data (window d) (pattern d) (draw_timeout_id d) (draw_timeout_interval d) v (width d).
Definition with_width (d : data_t) (w : Z) : data_t :=
  mk_data (window d) (pattern d) (draw_timeout_id d) (draw_timeout_interval d) (x d) w.

Definition free_draw_timeout (data : data_t) : M data_t :=
  if draw_timeout_id data =? 0 then ret data
  else g_source_remove (draw_timeout_id data) ;;;
       ret (with_draw_timeout_id data 0).

Definition on_draw_timer (data : data_t) : M (data_t * bool) :=
  assert (negb (width data =? 0)) ;;;
  let data :=
    with_x data (((x data + 1) mod GUINT_MODULUS) mod to_guint (width data)) in
  log (c_widget_queue_draw (window data)) ;;;
  ret (data, true).

(** (Re-)register draw timeout if interval has changed. *)
Definition register_draw_timeout (interval : Z) (data : data_t) : M data_t :=
  if draw_timeout_interval data =? interval then ret data
  else
    data <- free_draw_timeout data ;;
    id <- g_timeout_add interval cb_on_draw_timer ;;
    ret (with_draw_timeout_interval (with_draw_timeout_id data id) interval).

(** Scale x if width changed. *)
Definition scale_x (width_ : Z) (data : data_t) : data_t :=
  if width data =? width_ then data
  else
    with_width
      (if width data =? 0 then data
       else with_x data
              ((x data * to_guint width_) mod GUINT_MODULUS / to_guint (width data)))
      width_.

Definition on_draw (allocated_width : Z) (data : data_t) : M (data_t * bool) :=
  let width_ := allocated_width in
  assert (negb (width_ =? 0)) ;;;
  data <- register_draw_timeout (PERIOD_MS / to_guint width_) data ;;
  let data := scale_x width_ data in
  (* Draw. *)
  log (c_translate (x data)) ;;;
  log (c_scale width_) ;;;
  log (c_set_source (pattern data)) ;;;
  log c_paint ;;;
  ret (data, true).

Definition on_destroy (data : data_t) : M data_t :=
  data <- free_draw_timeout data ;;
  gtk_main_quit ;;;
  ret data.

Definition gtk_widget_destroy (data : data_t) : M data_t :=
  log (c_widget_destroy (window data)) ;;;
  on_destroy data.

Definition on_button_or_key_press (data : data_t) : M (data_t * bool) :=
  data <- gtk_widget_destroy data ;;
  ret (data, true).

Definition handler (ev : event) (data : data_t) : M data_t :=
  match ev with
  | Draw w =>
      r <- on_draw w data ;;
      ret (fst r)
  | Timeout id display =>
      fun g =>
        match find_source id g with
        | None => Done (data, g)
        | Some s =>
            match source_callback s with
            | cb_on_draw_timer =>
                (r <- on_draw_timer data ;;
                 keep_source id (snd r) ;;;
                 ret (fst r)) g
            | cb_on_screensaver_suppression_timer =>
                (keep <- on_screensaver_suppression_timer display ;;
                 keep_source id keep ;;;
                 ret data) g
            end
        end
  | Press =>
      r <- on_button_or_key_press data ;;
      ret (fst r)
  end.

(** One iteration of the main loop: the callback of the event runs, and the
    boolean tells whether [gtk_main_quit] was called while it ran. *)
Definition dispatch (ev : event) (data : data_t) : M (data_t * bool) :=
  fun g =>
    match handler ev data g with
    | Done (data', g') => Done ((data', quit_requested g g'), g')
    | AssertionFailed => AssertionFailed
    | UndefinedBehaviour => UndefinedBehaviour
    end.

(** [gtk_main] dispatches the events until [gtk_main_quit] has been called;
    the boolean tells whether it returned, or is still waiting for events. *)
Fixpoint gtk_main (events : list event) (data : data_t) : M (data_t * bool) :=
  match events with
  | [] => ret (data, false)
  | ev :: rest =>
      r <- dispatch ev data ;;
      if snd r then ret (fst r, true) else gtk_main rest (fst r)
  end.

(** The pattern that [main] builds: one period of unit width, scaled to the
    window by [on_draw]. *)
Definition create_pattern : M Z :=
  p <- cairo_pattern_create_linear 0 1 ;;
  cairo_pattern_add_color_stop_rgb p 0 BAR_COLOUR_R BAR_COLOUR_G BAR_COLOUR_B ;;;
  cairo_pattern_add_color_stop_rgb p BAR_FRACTION BAR_COLOUR_R BAR_COLOUR_G
    BAR_COLOUR_B ;;;
  cairo_pattern_add_color_stop_rgb p BAR_FRACTION 0 0 0 ;;;
  cairo_pattern_add_color_stop_rgb p 1 0 0 0 ;;;
  cairo_pattern_set_extend p CAIRO_EXTEND_REPEAT ;;;
  ret p.

Definition main (window cursor : Z) (events : list event) : M (data_t * status) :=
  let data := mk_data window 0 0 0 0 0 in
  assert (negb (window =? 0)) ;;;
  assert (negb (cursor =? 0)) ;;;
  p <- create_pattern ;;
  let data := with_pattern data p in
  screensaver_suppression_timeout_id <-
    g_timeout_add SCREENSAVER_SUPPRESSION_PERIOD_MS
      cb_on_screensaver_suppression_timer ;;
  r <- gtk_main events data ;;
  if snd r
  then g_source_remove screensaver_suppression_timeout_id ;;;
       cairo_pattern_destroy (pattern (fst r)) ;;;
       ret (fst r, Exited 0)
  else ret (fst r, Running).

(** The draw timer fires [n] times in a row. *)
Fixpoint fire_draw_timer (n : nat) (data : data_t) : M data_t :=
  match n with
  | O => ret data
  | S k => r <- on_draw_timer data ;; fire_draw_timer k (fst r)
  end.

Definition offset_after (data : data_t) (g : glib) (n : nat) : option Z :=
  match fire_draw_timer n data g with
  | Done (data', _) => Some (x data')
  | _ => None
  end.

(** The gradient that [main] builds. *)
Definition gradient : pattern_t :=
  mk_pattern 0 1
    [mk_stop 0 (mk_rgb BAR_COLOUR_R BAR_COLOUR_G BAR_COLOUR_B);
     mk_stop BAR_FRACTION (mk_rgb BAR_COLOUR_R BAR_COLOUR_G BAR_COLOUR_B);
     mk_stop BAR_FRACTION (mk_rgb 0 0 0); mk_stop 1 (mk_rgb 0 0 0)]
    CAIRO_EXTEND_REPEAT.

End Blue.

(** ** Notions used by the statements *)

(** What GTK and GDK deliver while the window exists: a positive allocated
    width that fits a [gint], and a non-null X display. *)
Definition plausible_event (ev : event) : Prop :=
  match ev with
  | Draw w => 0 < w <= GINT_MAX
  | Timeout _ display => display <> 0
  | Press => True
  end.

(** A sequence of offsets, one per step from step 1 on, goes through
    [0 .. w-1] with period exactly [w]: every offset is in range, every value
    is met within the first [w] steps, no value comes back in fewer than [w]
    steps, and after [w] steps the sequence repeats. *)
Definition cycles_through (w : Z) (off : nat -> option Z) : Prop :=
  (forall n, (1 <= n)%nat -> exists v, off n = Some v /\ 0 <= v < w) /\
  (forall v, 0 <= v < w ->
     exists n, (1 <= n <= Z.to_nat w)%nat /\ off n = Some v) /\
  (forall n k, (1 <= n)%nat -> (0 < k < Z.to_nat w)%nat ->
     off (n + k)%nat <> off n) /\
  (forall n, (1 <= n)%nat -> off (n + Z.to_nat w)%nat = off n).

Fixpoint added_sources (t : list call) : list Z :=
  match t with
  | [] => []
  | c_timeout_add _ _ id :: rest => id :: added_sources rest
  | _ :: rest => added_sources rest
  end.

Fixpoint created_patterns (t : list call) : list Z :=
  match t with
  | [] => []
  | c_pattern_create_linear _ _ p :: rest => p :: created_patterns rest
  | _ :: rest => created_patterns rest
  end.

(** *** Handles: what was acquired, what is alive, what was released *)

Record ledger : Type := mk_ledger {
  l_next : Z;
  l_live : list Z;
  l_released : list Z;
  l_acquired : list Z
}.

(** Handles are positive and below the next one; a live handle was not
    released; no handle was released twice; every handle acquired is alive
    or released. *)
Definition ledger_ok (l : ledger) : Prop :=
  0 < l_next l /\
  (forall h, In h (l_live l) -> 0 < h < l_next l) /\
  NoDup (l_live l) /\
  (forall h, In h (l_released l) -> 0 < h < l_next l /\ ~ In h (l_live l)) /\
  NoDup (l_released l) /\
  (forall h, In h (l_acquired l) -> In h (l_released l) \/ In h (l_live l)).

Definition acquire (l : ledger) : ledger :=
  mk_ledger (l_next l + 1) (l_next l :: l_live l) (l_released l)
    (l_next l :: l_acquired l).

Definition release (h : Z) (l : ledger) : ledger :=
  mk_ledger (l_next l) (filter (fun k => negb (k =? h)) (l_live l))
    (h :: l_released l) (l_acquired l).

Definition source_ids (g : glib) : list Z := map source_id (sources g).
Definition pattern_ids (g : glib) : list Z := map fst (patterns g).

Definition source_ledger (g : glib) : ledger :=
  mk_ledger (next_source_id g) (source_ids g) (removed_sources (trace g))
    (added_sources (trace g)).

Definition pattern_ledger (g : glib) : ledger :=
  mk_ledger (next_pattern g) (pattern_ids g) (destroyed_patterns (trace g))
    (created_patterns (trace g)).

Definition wf (g : glib) : Prop :=
  ledger_ok (source_ledger g) /\ ledger_ok (pattern_ledger g).

(** A call that is neither an acquisition nor a release leaves the ledgers
    as they are. *)
Definition neutral_call (c : call) : bool :=
  match c with
  | c_timeout_add _ _ _ | c_source_remove _ | c_pattern_create_linear _ _ _
  | c_pattern_destroy _ => false
  | _ => true
  end.

(** *** Invariants of a run *)

Definition is_press (ev : event) : bool :=
  match ev with
  | Press => true
  | _ => false
  end.

(** The live sources are the idle-suppression source [supp] and, when
    [draw] is not 0, the draw source [draw]; each has its own callback. *)
Definition owned_sources (supp draw : Z) (g : glib) : Prop :=
  In supp (source_ids g) /\
  supp <> 0 /\
  supp <> draw /\
  (draw <> 0 -> In draw (source_ids g)) /\
  (forall s, In s (sources g) ->
     (source_id s = supp /\
      source_callback s = cb_on_screensaver_suppression_timer) \/
     (source_id s = draw /\ draw <> 0 /\
      source_callback s = cb_on_draw_timer)).

(** The numbers of the blue version: before the first draw everything is 0;
    afterwards the offset is below the width and the stored interval is the
    one of the stored width. *)
Definition Blue_num (d : Blue.data_t) : Prop :=
  0 <= Blue.width d <= GINT_MAX /\
  (Blue.width d = 0 ->
     Blue.x d = 0 /\ Blue.draw_timeout_interval d = 0 /\
     Blue.draw_timeout_id d = 0) /\
  (0 < Blue.width d ->
     0 <= Blue.x d < Blue.width d /\
     Blue.draw_timeout_interval d = PERIOD_MS / Blue.width d).

Definition Blue_inv (supp : Z) (d : Blue.data_t) (g : glib) : Prop :=
  wf g /\
  Blue_num d /\
  owned_sources supp (Blue.draw_timeout_id d) g /\
  patterns g = [(Blue.pattern d, Blue.gradient)].

Definition White_inv (supp : Z) (d : White.data_t) (g : glib) : Prop :=
  wf g /\
  owned_sources supp (White.draw_timeout_id d) g /\
  patterns g =
    (if White.pattern d =? 0 then []
     else [(White.pattern d, White.gradient (White.last_width d))]).

(** *** Notions of the further properties *)

(** The draw timer of the white version fires [n] times in a row, with no
    redraw in between. *)
Fixpoint White_fire_draw_timer (n : nat) (data : White.data_t) : M White.data_t :=
  match n with
  | O => ret data
  | S k => r <- White.on_draw_timer data ;; White_fire_draw_timer k (fst r)
  end.

Definition is_warp (c : call) : bool :=
  match c with
  | c_warp_pointer _ => true
  | _ => false
  end.

(** The event is a dispatch of the timeout source [id]. *)
Definition fires (id : Z) (ev : event) : bool :=
  match ev with
  | Timeout i _ => i =? id
  | _ => false
  end.

(** The source that [main] adds first. *)
Definition suppression_source : source :=
  mk_source 1 SCREENSAVER_SUPPRESSION_PERIOD_MS
    cb_on_screensaver_suppression_timer.

(** The sources that should be alive for the data [d]: the draw timer of the
    stored width, if there is one, and the idle-suppression timer. *)
Definition Blue_sources (d : Blue.data_t) : list source :=
  (if Blue.draw_timeout_id d =? 0 then []
   else [mk_source (Blue.draw_timeout_id d) (PERIOD_MS / Blue.width d)
           cb_on_draw_timer])
  ++ [suppression_source].

Definition White_sources (d : White.data_t) : list source :=
  (if White.draw_timeout_id d =? 0 then []
   else [mk_source (White.draw_timeout_id d) (PERIOD_MS / White.last_width d)
           cb_on_draw_timer])
  ++ [suppression_source].

(** The white version has drawn: it holds a timer and a pattern for a
    positive stored width. *)
Definition White_drawn (d : White.data_t) : Prop :=
  0 <= White.last_width d <= GINT_MAX /\
  (White.last_width d <> 0 ->
   White.pattern d <> 0 /\ White.draw_timeout_id d <> 0).

(** Events of a run on a window wider than [PERIOD_MS] pixels, before any
    press. *)
Definition wide_event (ev : event) : Prop :=
  match ev with
  | Draw w => PERIOD_MS < w <= GINT_MAX
  | Timeout _ display => display <> 0
  | Press => False
  end.

(** * Lemmas *)

(** ** Arithmetic of the offset *)

Lemma to_guint_small (z : Z) : 0 <= z <= GINT_MAX -> to_guint z = z.
Proof.
  intros H. unfold to_guint, GUINT_MODULUS, GINT_MAX in *.
  apply Z.mod_small. lia.
Qed.

(** One increment with wrap, started below [w], is the successor modulo
    [w]: the wrap-around of the [guint] increment never shows. *)
Lemma incr_wrap_small (w v : Z) :
  0 < w <= GINT_MAX -> 0 <= v < w ->
  ((v + 1) mod GUINT_MODULUS) mod w = (v + 1) mod w.
Proof.
  intros Hw Hv. unfold GUINT_MODULUS, GINT_MAX in *.
  rewrite (Z.mod_small (v + 1)) by lia. reflexivity.
Qed.

(** A sequence with the closed form [(y + n) mod w] from step 1 on cycles
    through [0 .. w-1]. *)
Lemma closed_form_cycles (w y : Z) (off : nat -> option Z) :
  0 < w ->
  (forall n, off (S n) = Some ((y + Z.of_nat n) mod w)) ->
  cycles_through w off.
Proof.
  intros Hw Hoff. unfold cycles_through. repeat split.
  - intros [|n] Hn; [lia|]. eexists. split; [apply Hoff|].
    apply Z.mod_pos_bound; lia.
  - intros v Hv.
    exists (S (Z.to_nat ((v - y) mod w))).
    assert (Hb : 0 <= (v - y) mod w < w) by (apply Z.mod_pos_bound; lia).
    split; [lia|]. rewrite Hoff. f_equal.
    rewrite Z2Nat.id by lia.
    rewrite Z.add_mod_idemp_r by lia.
    replace (y + (v - y)) with v by lia. apply Z.mod_small; lia.
  - intros [|n] k Hn Hk; [lia|]. cbn [Nat.add]. rewrite !Hoff.
    intros Heq. injection Heq as Heq.
    assert (Hd : ((y + Z.of_nat (n + k)) - (y + Z.of_nat n)) mod w = 0).
    { rewrite Zminus_mod, Heq, Z.sub_diag. apply Z.mod_0_l. lia. }
    replace (y + Z.of_nat (n + k) - (y + Z.of_nat n)) with (Z.of_nat k) in Hd by lia.
    rewrite Z.mod_small in Hd by lia. lia.
  - intros [|n] Hn; [lia|]. cbn [Nat.add]. rewrite !Hoff. f_equal.
    rewrite Nat2Z.inj_add, Z2Nat.id by lia.
    replace (y + (Z.of_nat n + w)) with (y + Z.of_nat n + 1 * w) by lia.
    apply Z.mod_add. lia.
Qed.

(** ** Handles *)

Lemma ledger_acquire (l : ledger) : ledger_ok l -> ledger_ok (acquire l).
Proof.
  intros (Hn & Hlive & Hnd & Hrel & Hrnd & Hacq).
  unfold ledger_ok, acquire; cbn. repeat split.
  - lia.
  - destruct H as [<-|H]; [lia | apply Hlive in H; lia].
  - destruct H as [<-|H]; [lia | apply Hlive in H; lia].
  - constructor; [|assumption]. intros H. apply Hlive in H. lia.
  - apply Hrel in H. lia.
  - apply Hrel in H. lia.
  - intros [Heq|Hin].
    + apply Hrel in H. lia.
    + apply Hrel in H. tauto.
  - assumption.
  - intros h [<-|H]; [right; now left|].
    destruct (Hacq h H); [now left | right; now right].
Qed.

Lemma ledger_release (h : Z) (l : ledger) :
  ledger_ok l -> In h (l_live l) -> ledger_ok (release h l).
Proof.
  intros (Hn & Hlive & Hnd & Hrel & Hrnd & Hacq) Hh.
  unfold ledger_ok, release; cbn. repeat split.
  - assumption.
  - apply filter_In in H. apply Hlive, H.
  - apply filter_In in H. apply Hlive, H.
  - now apply NoDup_filter.
  - destruct H as [<-|H]; [apply Hlive, Hh | apply Hrel, H].
  - destruct H as [<-|H]; [apply Hlive, Hh | apply Hrel, H].
  - intros Hf. apply filter_In in Hf. destruct Hf as [Hin Hne].
    destruct H as [<-|H].
    + rewrite Z.eqb_refl in Hne. discriminate.
    + apply Hrel in H. tauto.
  - constructor; [|assumption]. intros H. apply Hrel in H. tauto.
  - intros k Hk. destruct (Hacq k Hk) as [H|H]; [left; now right|].
    destruct (Z.eq_dec k h) as [->|Hne]; [left; now left|].
    right. apply filter_In. split; [assumption|].
    apply Z.eqb_neq in Hne. now rewrite Hne.
Qed.

Lemma source_ids_drop (id : Z) (l : list source) :
  map source_id (drop_source id l) =
  filter (fun k => negb (k =? id)) (map source_id l).
Proof.
  induction l as [|s l IH]; cbn; [reflexivity|].
  destruct (source_id s =? id); cbn; [exact IH | f_equal; exact IH].
Qed.

Lemma pattern_ids_drop (p : Z) (l : list (Z * pattern_t)) :
  map fst (drop_pattern p l) = filter (fun k => negb (k =? p)) (map fst l).
Proof.
  induction l as [|e l IH]; cbn; [reflexivity|].
  destruct (fst e =? p); cbn; [exact IH | f_equal; exact IH].
Qed.

Lemma pattern_ids_update (p : Z) (f : pattern_t -> pattern_t)
    (l : list (Z * pattern_t)) :
  map fst (update_pattern p f l) = map fst l.
Proof.
  induction l as [|[q v] l IH]; cbn; [reflexivity|].
  destruct (q =? p); cbn; [reflexivity | now rewrite IH].
Qed.

Lemma glib_init_wf : wf glib_init.
Proof.
  split; unfold ledger_ok; cbn; repeat split;
    try lia; try constructor; try contradiction.
Qed.

Lemma wf_source_added (interval : Z) (cb : callback) (g : glib) :
  wf g -> wf (source_added interval cb g).
Proof.
  intros [Hs Hp]. split; [|exact Hp].
  exact (ledger_acquire _ Hs).
Qed.

Lemma wf_source_removed (id : Z) (g : glib) :
  wf g -> In id (source_ids g) -> wf (source_removed id g).
Proof.
  intros [Hs Hp] Hin. split; [|exact Hp].
  pose proof (ledger_release id _ Hs Hin) as H.
  unfold source_ledger, source_removed, source_ids, release in *.
  cbn [next_source_id sources trace removed_sources added_sources
       l_next l_live l_released l_acquired] in *.
  now rewrite source_ids_drop.
Qed.

Lemma wf_pattern_created (x0 x1 : Q) (g : glib) :
  wf g -> wf (pattern_created x0 x1 g).
Proof.
  intros [Hs Hp]. split; [exact Hs|].
  exact (ledger_acquire _ Hp).
Qed.

Lemma wf_pattern_destroyed (p : Z) (g : glib) :
  wf g -> In p (pattern_ids g) -> wf (pattern_destroyed p g).
Proof.
  intros [Hs Hp] Hin. split; [exact Hs|].
  pose proof (ledger_release p _ Hp Hin) as H.
  unfold pattern_ledger, pattern_destroyed, pattern_ids, release in *.
  cbn [next_pattern patterns trace destroyed_patterns created_patterns
       l_next l_live l_released l_acquired] in *.
  now rewrite pattern_ids_drop.
Qed.

Lemma wf_add_color_stop (p : Z) (s : color_stop) (g : glib) :
  wf g ->
  wf (pattern_changed p (add_stop s)
        (c_pattern_add_color_stop_rgb p (stop_offset s) (stop_color s)) g).
Proof.
  intros [Hs Hp]. split; [exact Hs|].
  unfold pattern_ledger, pattern_changed, pattern_ids in *.
  cbn [next_pattern patterns trace destroyed_patterns created_patterns] in *.
  now rewrite pattern_ids_update.
Qed.

Lemma wf_set_extend (p : Z) (e : extend_t) (g : glib) :
  wf g -> wf (pattern_changed p (set_extend e) (c_pattern_set_extend p e) g).
Proof.
  intros [Hs Hp]. split; [exact Hs|].
  unfold pattern_ledger, pattern_changed, pattern_ids in *.
  cbn [next_pattern patterns trace destroyed_patterns created_patterns] in *.
  now rewrite pattern_ids_update.
Qed.

Lemma wf_push (c : call) (g : glib) :
  neutral_call c = true -> wf g -> wf (push c g).
Proof.
  intros Hc [Hs Hp].
  destruct c; try discriminate Hc; split; assumption.
Qed.

(** ** What each callback of the blue version computes *)

Lemma Blue_on_draw_timer_exec (d : Blue.data_t) (g : glib) :
  Blue.width d <> 0 ->
  Blue.on_draw_timer d g =
  Done ((Blue.with_x d
           (((Blue.x d + 1) mod GUINT_MODULUS) mod to_guint (Blue.width d)),
         true),
        push (c_widget_queue_draw (Blue.window d)) g).
Proof.
  intros Hw. unfold Blue.on_draw_timer, bind, assert.
  apply Z.eqb_neq in Hw. rewrite Hw. reflexivity.
Qed.

Lemma Blue_on_draw_timer_assert (d : Blue.data_t) (g : glib) :
  Blue.width d = 0 -> Blue.on_draw_timer d g = AssertionFailed.
Proof.
  intros Hw. unfold Blue.on_draw_timer, bind, assert.
  rewrite Hw. reflexivity.
Qed.

Lemma Blue_free_draw_timeout_exec (d : Blue.data_t) (g : glib) :
  Blue.free_draw_timeout d g =
  if Blue.draw_timeout_id d =? 0 then Done (d, g)
  else Done (Blue.with_draw_timeout_id d 0,
             source_removed (Blue.draw_timeout_id d) g).
Proof.
  unfold Blue.free_draw_timeout.
  destruct (Blue.draw_timeout_id d =? 0); reflexivity.
Qed.

Lemma Blue_register_same (i : Z) (d : Blue.data_t) (g : glib) :
  Blue.draw_timeout_interval d = i ->
  Blue.register_draw_timeout i d g = Done (d, g).
Proof.
  intros H. unfold Blue.register_draw_timeout.
  apply Z.eqb_eq in H. rewrite H. reflexivity.
Qed.

Lemma Blue_register_changed (i : Z) (d : Blue.data_t) (g : glib) :
  Blue.draw_timeout_interval d <> i ->
  Blue.register_draw_timeout i d g =
  Done (Blue.with_draw_timeout_interval
          (Blue.with_draw_timeout_id d (next_source_id g)) i,
        source_added i cb_on_draw_timer
          (if Blue.draw_timeout_id d =? 0 then g
           else source_removed (Blue.draw_timeout_id d) g)).
Proof.
  intros H. unfold Blue.register_draw_timeout.
  apply Z.eqb_neq in H. rewrite H.
  unfold bind. rewrite Blue_free_draw_timeout_exec.
  destruct (Blue.draw_timeout_id d =? 0); reflexivity.
Qed.

Lemma Blue_on_draw_exec (w : Z) (d : Blue.data_t) (g : glib) :
  w <> 0 ->
  Blue.on_draw w d g =
  match Blue.register_draw_timeout (PERIOD_MS / to_guint w) d g with
  | Done (d1, g1) =>
      Done ((Blue.scale_x w d1, true),
            push c_paint
              (push (c_set_source (Blue.pattern (Blue.scale_x w d1)))
                 (push (c_scale w)
                    (push (c_translate (Blue.x (Blue.scale_x w d1))) g1))))
  | AssertionFailed => AssertionFailed
  | UndefinedBehaviour => UndefinedBehaviour
  end.
Proof.
  intros Hw. unfold Blue.on_draw, bind, assert.
  apply Z.eqb_neq in Hw. rewrite Hw. cbn [negb].
  destruct (Blue.register_draw_timeout (PERIOD_MS / to_guint w) d g)
    as [[d1 g1]| |]; reflexivity.
Qed.

Lemma Blue_scale_x_width (w : Z) (d : Blue.data_t) :
  Blue.width (Blue.scale_x w d) = w.
Proof.
  unfold Blue.scale_x. destruct (Z.eqb_spec (Blue.width d) w); [assumption|].
  reflexivity.
Qed.

Lemma Blue_scale_x_fields (w : Z) (d : Blue.data_t) :
  Blue.window (Blue.scale_x w d) = Blue.window d /\
  Blue.pattern (Blue.scale_x w d) = Blue.pattern d /\
  Blue.draw_timeout_id (Blue.scale_x w d) = Blue.draw_timeout_id d /\
  Blue.draw_timeout_interval (Blue.scale_x w d) = Blue.draw_timeout_interval d.
Proof.
  unfold Blue.scale_x.
  destruct (Blue.width d =? w); [tauto|].
  destruct (Blue.width d =? 0); cbn; tauto.
Qed.

(** The rescaled offset: in range whatever the product does, and the floor
    of [x * w2 / w1] as long as the product fits a [guint]. *)
Lemma Blue_scale_x_offset (w1 w2 : Z) (d : Blue.data_t) :
  0 < w1 <= GINT_MAX -> 0 < w2 <= GINT_MAX ->
  Blue.width d = w1 -> 0 <= Blue.x d < w1 ->
  0 <= Blue.x (Blue.scale_x w2 d) < w2 /\
  (Blue.x d * w2 < GUINT_MODULUS ->
   Blue.x (Blue.scale_x w2 d) = Blue.x d * w2 / w1).
Proof.
  intros Hw1 Hw2 Hd Hx. unfold Blue.scale_x. rewrite Hd.
  destruct (Z.eqb_spec w1 w2) as [->|Hne].
  - split; [assumption|]. intros _. symmetry. apply Z.div_mul. lia.
  - destruct (Z.eqb_spec w1 0) as [->|_]; [lia|]. cbn [Blue.x Blue.with_width Blue.with_x].
    rewrite (to_guint_small w1), (to_guint_small w2) by lia.
    assert (Hm : 0 <= (Blue.x d * w2) mod GUINT_MODULUS <= Blue.x d * w2).
    { split; [apply Z.mod_pos_bound; unfold GUINT_MODULUS; lia|].
      apply Z.mod_le; [nia | unfold GUINT_MODULUS; lia]. }
    split.
    + split; [apply Z.div_pos; lia|].
      apply Z.div_lt_upper_bound; [lia|]. nia.
    + intros Hfit. rewrite Z.mod_small by nia. reflexivity.
Qed.

(** The timer fired [n] times from an offset below the width. *)
Lemma Blue_fire_closed (w : Z) :
  0 < w <= GINT_MAX ->
  forall (n : nat) (d : Blue.data_t) (g : glib),
    Blue.width d = w -> 0 <= Blue.x d < w ->
    exists d' g',
      Blue.fire_draw_timer n d g = Done (d', g') /\
      Blue.width d' = w /\
      Blue.x d' = (Blue.x d + Z.of_nat n) mod w.
Proof.
  intros Hw. induction n as [|n IH]; intros d g Hd Hx.
  - exists d, g. cbn. repeat split; [assumption|].
    rewrite Z.add_0_r. symmetry. apply Z.mod_small. assumption.
  - cbn [Blue.fire_draw_timer]. unfold bind.
    rewrite Blue_on_draw_timer_exec by lia. cbn [fst].
    rewrite Hd, (to_guint_small w) by lia.
    set (d1 := Blue.with_x d _).
    destruct (IH d1 (push (c_widget_queue_draw (Blue.window d)) g))
      as (d' & g' & Hrun & Hw' & Hx').
    + exact Hd.
    + subst d1. cbn. apply Z.mod_pos_bound. lia.
    + exists d', g'. repeat split; [assumption..|].
      rewrite Hx'. subst d1. cbn [Blue.x Blue.with_x].
      rewrite incr_wrap_small by assumption.
      rewrite Z.add_mod_idemp_l by lia. f_equal. lia.
Qed.

Lemma Blue_offset_closed (w : Z) (d : Blue.data_t) (g : glib) (n : nat) :
  0 < w <= GINT_MAX -> Blue.width d = w ->
  Blue.offset_after d g (S n) =
  Some ((((Blue.x d + 1) mod GUINT_MODULUS) mod w + Z.of_nat n) mod w).
Proof.
  intros Hw Hd. unfold Blue.offset_after.
  cbn [Blue.fire_draw_timer]. unfold bind.
  rewrite Blue_on_draw_timer_exec by lia. cbn [fst].
  rewrite Hd, (to_guint_small w) by lia.
  set (d1 := Blue.with_x d _).
  destruct (Blue_fire_closed w Hw n d1 (push (c_widget_queue_draw (Blue.window d)) g))
    as (d' & g' & Hrun & _ & Hx').
  - exact Hd.
  - subst d1. cbn. apply Z.mod_pos_bound. lia.
  - rewrite Hrun, Hx'. reflexivity.
Qed.

(** ** What each callback of the white version computes *)

Lemma White_on_draw_timer_exec (d : White.data_t) (g : glib) :
  White.on_draw_timer d g =
  Done ((White.with_x d ((White.x d + 1) mod GUINT_MODULUS), true),
        push (c_widget_queue_draw (White.window d)) g).
Proof. reflexivity. Qed.

Lemma White_free_exec (d : White.data_t) (g : glib) :
  White.free_draw_timeout_and_pattern d g =
  Done (White.with_pattern (White.with_draw_timeout_id d 0) 0,
        let g1 := if White.draw_timeout_id d =? 0 then g
                  else source_removed (White.draw_timeout_id d) g in
        if White.pattern d =? 0 then g1
        else pattern_destroyed (White.pattern d) g1).
Proof.
  destruct d as [win pat id x0 lw].
  unfold White.free_draw_timeout_and_pattern, bind; cbn.
  destruct (Z.eqb_spec id 0) as [->|Hid];
    destruct (Z.eqb_spec pat 0) as [->|Hpat]; cbn.
  - reflexivity.
  - apply Z.eqb_neq in Hpat. rewrite Hpat. reflexivity.
  - reflexivity.
  - apply Z.eqb_neq in Hpat. rewrite Hpat. reflexivity.
Qed.

Lemma White_draw_interval (w : Z) :
  0 < w -> White.draw_interval w = Some (PERIOD_MS / w).
Proof.
  intros Hw. unfold White.draw_interval.
  destruct (Z.eqb_spec w 0); [lia|].
  rewrite Z.quot_div_nonneg by (unfold PERIOD_MS; lia).
  destruct (Z.ltb_spec (PERIOD_MS / w) 0) as [Hneg|_]; [|reflexivity].
  pose proof (Z.div_pos PERIOD_MS w). unfold PERIOD_MS in *. lia.
Qed.

(** [rebuild] at a positive width, call by call. *)
Lemma White_rebuild_exec (w : Z) (d : White.data_t) (g : glib) :
  0 < w ->
  White.rebuild w d g =
  let g1 := if White.draw_timeout_id d =? 0 then g
            else source_removed (White.draw_timeout_id d) g in
  let g2 := if White.pattern d =? 0 then g1
            else pattern_destroyed (White.pattern d) g1 in
  let p := next_pattern g2 in
  Done (White.mk_data (White.window d) p (next_source_id g2) (White.x d)
          (White.last_width d),
        pattern_changed p (set_extend CAIRO_EXTEND_REPEAT)
          (c_pattern_set_extend p CAIRO_EXTEND_REPEAT)
          (pattern_changed p (add_stop (mk_stop 1 (mk_rgb 0 0 0)))
             (c_pattern_add_color_stop_rgb p 1 (mk_rgb 0 0 0))
             (pattern_changed p (add_stop (mk_stop BAR_FRACTION (mk_rgb 0 0 0)))
                (c_pattern_add_color_stop_rgb p BAR_FRACTION (mk_rgb 0 0 0))
                (pattern_changed p (add_stop (mk_stop BAR_FRACTION (mk_rgb 1 1 1)))
                   (c_pattern_add_color_stop_rgb p BAR_FRACTION (mk_rgb 1 1 1))
                   (pattern_changed p (add_stop (mk_stop 0 (mk_rgb 1 1 1)))
                      (c_pattern_add_color_stop_rgb p 0 (mk_rgb 1 1 1))
                      (pattern_created 0 (inject_Z w)
                         (source_added (PERIOD_MS / w) cb_on_draw_timer g2))))))).
Proof.
  intros Hw. unfold White.rebuild, bind.
  rewrite White_free_exec, (White_draw_interval w Hw). reflexivity.
Qed.

Lemma update_pattern_head (p : Z) (f : pattern_t -> pattern_t) (v : pattern_t)
    (rest : list (Z * pattern_t)) :
  update_pattern p f ((p, v) :: rest) = (p, f v) :: rest.
Proof. cbn. now rewrite Z.eqb_refl. Qed.

(** After [rebuild] the new pattern is the gradient of the new width, put in
    front of the patterns that were left. *)
Lemma White_rebuild_facts (w : Z) (d : White.data_t) (g : glib) :
  0 < w ->
  let g1 := if White.draw_timeout_id d =? 0 then g
            else source_removed (White.draw_timeout_id d) g in
  let g2 := if White.pattern d =? 0 then g1
            else pattern_destroyed (White.pattern d) g1 in
  exists d' g',
    White.rebuild w d g = Done (d', g') /\
    d' = White.mk_data (White.window d) (next_pattern g2) (next_source_id g2)
           (White.x d) (White.last_width d) /\
    sources g' =
      mk_source (next_source_id g2) (PERIOD_MS / w) cb_on_draw_timer :: sources g2 /\
    patterns g' = (next_pattern g2, White.gradient w) :: patterns g2 /\
    (wf g2 -> wf g') /\
    removed_sources (trace g') = removed_sources (trace g2) /\
    destroyed_patterns (trace g') = destroyed_patterns (trace g2).
Proof.
  intros Hw g1 g2. rewrite White_rebuild_exec by assumption.
  fold g1. fold g2. cbv zeta.
  eexists. eexists. split; [reflexivity|]. split; [reflexivity|].
  split; [reflexivity|]. split.
  - unfold pattern_changed at 1; cbn [patterns].
    unfold pattern_changed at 1; cbn [patterns].
    unfold pattern_changed at 1; cbn [patterns].
    unfold pattern_changed at 1; cbn [patterns].
    unfold pattern_changed at 1; cbn [patterns].
    unfold pattern_created; cbn [patterns].
    rewrite !update_pattern_head. reflexivity.
  - split; [|split; reflexivity].
    intros Hwf.
    apply wf_set_extend.
    apply (wf_add_color_stop _ (mk_stop 1 (mk_rgb 0 0 0))).
    apply (wf_add_color_stop _ (mk_stop BAR_FRACTION (mk_rgb 0 0 0))).
    apply (wf_add_color_stop _ (mk_stop BAR_FRACTION (mk_rgb 1 1 1))).
    apply (wf_add_color_stop _ (mk_stop 0 (mk_rgb 1 1 1))).
    apply wf_pattern_created, wf_source_added, Hwf.
Qed.

Lemma White_on_draw_same (w : Z) (d : White.data_t) (g : glib) :
  0 < w <= GINT_MAX -> White.last_width d = w ->
  White.on_draw w d g =
  Done ((White.with_x (White.with_last_width d w) (White.x d mod w), true),
        push c_paint
          (push (c_set_source (White.pattern d))
             (push (c_translate (White.x d mod w)) g))).
Proof.
  intros Hw Hd. unfold White.on_draw, bind.
  rewrite (to_guint_small w) by lia.
  apply Z.eqb_eq in Hd. rewrite Hd.
  destruct (Z.eqb_spec w 0); [lia|]. reflexivity.
Qed.

Lemma White_on_draw_changed (w : Z) (d : White.data_t) (g : glib) :
  0 < w <= GINT_MAX -> White.last_width d <> w ->
  White.on_draw w d g =
  match White.rebuild w d g with
  | Done (d1, g1) =>
      Done ((White.with_x (White.with_last_width d1 w) (White.x d1 mod w), true),
            push c_paint
              (push (c_set_source (White.pattern d1))
                 (push (c_translate (White.x d1 mod w)) g1)))
  | AssertionFailed => AssertionFailed
  | UndefinedBehaviour => UndefinedBehaviour
  end.
Proof.
  intros Hw Hd. unfold White.on_draw, bind.
  rewrite (to_guint_small w) by lia.
  apply Z.eqb_neq in Hd. rewrite Hd.
  destruct (White.rebuild w d g) as [[d1 g1]| |]; try reflexivity.
  destruct (Z.eqb_spec w 0); [lia|]. reflexivity.
Qed.

(** Whatever the stored width, [on_draw] at a positive width returns, and
    leaves the offset reduced modulo that width. *)
Lemma White_on_draw_offset (w : Z) (d : White.data_t) (g : glib) :
  0 < w <= GINT_MAX ->
  exists d' g',
    White.on_draw w d g = Done ((d', true), g') /\
    White.x d' = White.x d mod w /\
    White.last_width d' = w /\
    White.window d' = White.window d.
Proof.
  intros Hw. destruct (Z.eq_dec (White.last_width d) w) as [Heq|Hne].
  - rewrite White_on_draw_same by assumption.
    eexists. eexists. split; [reflexivity|]. cbn. tauto.
  - rewrite White_on_draw_changed by assumption.
    destruct (White_rebuild_facts w d g) as (d1 & g1 & Hrun & Hd1 & _); [lia|].
    rewrite Hrun. eexists. eexists. split; [reflexivity|].
    subst d1. cbn. tauto.
Qed.

Lemma White_ticks_closed (w : Z) :
  0 < w <= GINT_MAX ->
  forall (n : nat) (d : White.data_t) (g : glib),
    0 <= White.x d < w ->
    exists d' g',
      White.ticks n w d g = Done (d', g') /\
      White.x d' = (White.x d + Z.of_nat n) mod w.
Proof.
  intros Hw. induction n as [|n IH]; intros d g Hx.
  - exists d, g. cbn. split; [reflexivity|].
    rewrite Z.add_0_r. symmetry. apply Z.mod_small. assumption.
  - cbn [White.ticks]. unfold bind at 1. unfold White.tick, bind.
    rewrite White_on_draw_timer_exec. cbn [fst].
    set (d1 := White.with_x d _).
    destruct (White_on_draw_offset w d1 (push (c_widget_queue_draw (White.window d)) g) Hw)
      as (d2 & g2 & Hrun & Hx2 & _).
    rewrite Hrun. cbn [fst ret].
    subst d1. cbn [White.x White.with_x] in Hx2.
    rewrite incr_wrap_small in Hx2 by assumption.
    destruct (IH d2 g2) as (d' & g' & Hrun' & Hx').
    + rewrite Hx2. apply Z.mod_pos_bound. lia.
    + exists d', g'. split; [assumption|].
      rewrite Hx', Hx2. rewrite Z.add_mod_idemp_l by lia. f_equal. lia.
Qed.

Lemma White_offset_closed (w : Z) (d : White.data_t) (g : glib) (n : nat) :
  0 < w <= GINT_MAX ->
  White.offset_after w d g (S n) =
  Some ((((White.x d + 1) mod GUINT_MODULUS) mod w + Z.of_nat n) mod w).
Proof.
  intros Hw. unfold White.offset_after.
  cbn [White.ticks]. unfold bind at 1. unfold White.tick, bind.
  rewrite White_on_draw_timer_exec. cbn [fst].
  set (d1 := White.with_x d _).
  destruct (White_on_draw_offset w d1 (push (c_widget_queue_draw (White.window d)) g) Hw)
    as (d2 & g2 & Hrun & Hx2 & _).
  rewrite Hrun. cbn [fst ret].
  subst d1. cbn [White.x White.with_x] in Hx2.
  destruct (White_ticks_closed w Hw n d2 g2) as (d' & g' & Hrun' & Hx').
  - rewrite Hx2. apply Z.mod_pos_bound. lia.
  - rewrite Hrun', Hx', Hx2. reflexivity.
Qed.

(** ** Which callbacks ask the main loop to return *)

Lemma quit_requested_same (g g' : glib) :
  quit_calls g' = quit_calls g -> quit_requested g g' = false.
Proof.
  intros H. unfold quit_requested. rewrite H. apply Nat.ltb_irrefl.
Qed.

Lemma quit_requested_more (g g' : glib) :
  quit_calls g' = S (quit_calls g) -> quit_requested g g' = true.
Proof.
  intros H. unfold quit_requested. rewrite H. apply Nat.ltb_lt. lia.
Qed.

Lemma Blue_dispatch_handler (ev : event) (d d' : Blue.data_t) (g g' : glib) :
  Blue.handler ev d g = Done (d', g') ->
  Blue.dispatch ev d g = Done ((d', quit_requested g g'), g').
Proof. intros H. unfold Blue.dispatch. rewrite H. reflexivity. Qed.

Lemma White_dispatch_handler (ev : event) (d d' : White.data_t) (g g' : glib) :
  White.handler ev d g = Done (d', g') ->
  White.dispatch ev d g = Done ((d', quit_requested g g'), g').
Proof. intros H. unfold White.dispatch. rewrite H. reflexivity. Qed.

Lemma Blue_dispatch_quiet (ev : event) (d d' : Blue.data_t) (g g' : glib) :
  Blue.handler ev d g = Done (d', g') -> quit_calls g' = quit_calls g ->
  Blue.dispatch ev d g = Done ((d', false), g').
Proof.
  intros H Hq. rewrite (Blue_dispatch_handler _ _ _ _ _ H).
  now rewrite (quit_requested_same _ _ Hq).
Qed.

Lemma White_dispatch_quiet (ev : event) (d d' : White.data_t) (g g' : glib) :
  White.handler ev d g = Done (d', g') -> quit_calls g' = quit_calls g ->
  White.dispatch ev d g = Done ((d', false), g').
Proof.
  intros H Hq. rewrite (White_dispatch_handler _ _ _ _ _ H).
  now rewrite (quit_requested_same _ _ Hq).
Qed.

(** A redraw does not call [gtk_main_quit]. *)
Lemma Blue_on_draw_quit (w : Z) (d : Blue.data_t) (g : glib)
    (r : Blue.data_t * bool) (g' : glib) :
  Blue.on_draw w d g = Done (r, g') -> quit_calls g' = quit_calls g.
Proof.
  destruct (Z.eq_dec w 0) as [->|Hw].
  - unfold Blue.on_draw, bind, assert. cbn. discriminate.
  - rewrite Blue_on_draw_exec by assumption.
    destruct (Z.eq_dec (Blue.draw_timeout_interval d) (PERIOD_MS / to_guint w))
      as [Heq|Hne].
    + rewrite Blue_register_same by assumption.
      intros H. injection H as _ <-. reflexivity.
    + rewrite Blue_register_changed by assumption.
      intros H. injection H as _ <-.
      destruct (Blue.draw_timeout_id d =? 0); reflexivity.
Qed.

Lemma White_on_draw_quit (w : Z) (d : White.data_t) (g : glib)
    (r : White.data_t * bool) (g' : glib) :
  0 < w <= GINT_MAX ->
  White.on_draw w d g = Done (r, g') -> quit_calls g' = quit_calls g.
Proof.
  intros Hw. destruct (Z.eq_dec (White.last_width d) w) as [Heq|Hne].
  - rewrite White_on_draw_same by assumption.
    intros H. injection H as _ <-. reflexivity.
  - rewrite White_on_draw_changed by assumption.
    rewrite White_rebuild_exec by lia. cbv zeta.
    intros H. injection H as _ <-.
    destruct (White.draw_timeout_id d =? 0), (White.pattern d =? 0); reflexivity.
Qed.

(** Neither timer callback calls [gtk_main_quit]. *)
Lemma Blue_on_draw_timer_quit (d : Blue.data_t) (g : glib)
    (r : Blue.data_t * bool) (g' : glib) :
  Blue.on_draw_timer d g = Done (r, g') -> quit_calls g' = quit_calls g.
Proof.
  unfold Blue.on_draw_timer, bind, assert.
  destruct (negb (Blue.width d =? 0)); [|discriminate].
  intros H. injection H as _ <-. reflexivity.
Qed.

Lemma White_on_draw_timer_quit (d : White.data_t) (g : glib)
    (r : White.data_t * bool) (g' : glib) :
  White.on_draw_timer d g = Done (r, g') -> quit_calls g' = quit_calls g.
Proof.
  rewrite White_on_draw_timer_exec. intros H. injection H as _ <-. reflexivity.
Qed.

Lemma suppression_timer_quit (display : Z) (g : glib) (r : bool) (g' : glib) :
  on_screensaver_suppression_timer display g = Done (r, g') ->
  quit_calls g' = quit_calls g.
Proof.
  unfold on_screensaver_suppression_timer, bind, assert.
  destruct (negb (display =? 0)); [|discriminate].
  intros H. injection H as _ <-. reflexivity.
Qed.

(** A button or key press calls [gtk_main_quit] once, through the "destroy"
    signal of the window. *)
Lemma Blue_press_quit (d : Blue.data_t) (g : glib)
    (r : Blue.data_t * bool) (g' : glib) :
  Blue.on_button_or_key_press d g = Done (r, g') ->
  quit_calls g' = S (quit_calls g).
Proof.
  unfold Blue.on_button_or_key_press, Blue.gtk_widget_destroy, Blue.on_destroy,
    bind, gtk_main_quit, log.
  rewrite Blue_free_draw_timeout_exec.
  destruct (Blue.draw_timeout_id d =? 0);
    intros H; injection H as _ <-; reflexivity.
Qed.

Lemma White_press_quit (d : White.data_t) (g : glib)
    (r : White.data_t * bool) (g' : glib) :
  White.on_button_or_key_press d g = Done (r, g') ->
  quit_calls g' = S (quit_calls g).
Proof.
  unfold White.on_button_or_key_press, White.gtk_widget_destroy,
    White.on_destroy, bind, gtk_main_quit, log.
  rewrite White_free_exec. cbv zeta.
  intros H. injection H as _ <-.
  destruct (White.draw_timeout_id d =? 0), (White.pattern d =? 0); reflexivity.
Qed.

(** ** Which sources are alive *)

Lemma owned_sources_same (supp draw : Z) (g g' : glib) :
  sources g' = sources g ->
  owned_sources supp draw g -> owned_sources supp draw g'.
Proof.
  unfold owned_sources, source_ids. intros ->. tauto.
Qed.

Lemma In_source_ids_drop (id k : Z) (l : list source) :
  In k (map source_id (drop_source id l)) <->
  In k (map source_id l) /\ k <> id.
Proof.
  rewrite source_ids_drop, filter_In.
  split; intros [H1 H2]; (split; [assumption|]).
  - intros ->. rewrite Z.eqb_refl in H2. discriminate.
  - apply Z.eqb_neq in H2. now rewrite H2.
Qed.

Lemma owned_sources_removed (supp draw : Z) (g : glib) :
  owned_sources supp draw g ->
  owned_sources supp 0 (source_removed draw g).
Proof.
  intros (Hsupp & H0 & Hne & Hdraw & Hall).
  unfold owned_sources, source_ids, source_removed; cbn [sources].
  split; [|split; [|split; [|split]]].
  - apply In_source_ids_drop. split; assumption.
  - assumption.
  - assumption.
  - intros H. now contradiction H.
  - intros s Hs. unfold drop_source in Hs. apply filter_In in Hs.
    destruct Hs as [Hin Hk].
    destruct (Hall s Hin) as [H|[Hid _]]; [now left|].
    rewrite Hid, Z.eqb_refl in Hk. discriminate.
Qed.

Lemma owned_sources_added (supp interval : Z) (g : glib) :
  wf g ->
  owned_sources supp 0 g ->
  owned_sources supp (next_source_id g)
    (source_added interval cb_on_draw_timer g).
Proof.
  intros [(Hn & Hlive & _) _] (Hsupp & H0 & Hne & _ & Hall).
  pose proof (Hlive supp Hsupp) as Hb. cbn in Hb.
  unfold owned_sources, source_ids, source_added; cbn [sources map source_id].
  split; [|split; [|split; [|split]]].
  - now right.
  - assumption.
  - lia.
  - intros _. now left.
  - intros s [<-|Hs].
    + right. cbn. repeat split. cbn in Hn. lia.
    + destruct (Hall s Hs) as [H|[_ [Hz _]]]; [now left | now contradiction Hz].
Qed.

Lemma owned_sources_only_supp (supp : Z) (g : glib) :
  owned_sources supp 0 g -> drop_source supp (sources g) = [].
Proof.
  intros (_ & _ & _ & _ & Hall). unfold drop_source.
  induction (sources g) as [|s l IH]; [reflexivity|]. cbn.
  destruct (Hall s (or_introl eq_refl)) as [[Hid _]|[_ [Hz _]]];
    [|now contradiction Hz].
  rewrite Hid, Z.eqb_refl. cbn. apply IH.
  intros t Ht. apply Hall. now right.
Qed.

Lemma find_source_owned (supp draw id : Z) (g : glib) (s : source) :
  owned_sources supp draw g ->
  find_source id g = Some s ->
  (id = supp /\ source_callback s = cb_on_screensaver_suppression_timer) \/
  (id = draw /\ draw <> 0 /\ source_callback s = cb_on_draw_timer).
Proof.
  intros (_ & _ & _ & _ & Hall) Hf. unfold find_source in Hf.
  apply find_some in Hf. destruct Hf as [Hin Hid].
  apply Z.eqb_eq in Hid. subst id. apply Hall, Hin.
Qed.

(** The draw source, if there is one, is removed: what is left. *)
Lemma retire_draw_source (supp id : Z) (g : glib) :
  wf g -> owned_sources supp id g ->
  let g0 := if id =? 0 then g else source_removed id g in
  wf g0 /\ owned_sources supp 0 g0 /\
  next_source_id g0 = next_source_id g /\
  next_pattern g0 = next_pattern g /\
  patterns g0 = patterns g.
Proof.
  intros Hwf Hown. destruct (Z.eqb_spec id 0) as [->|Hid]; cbv beta iota zeta.
  - split; [exact Hwf|]. split; [exact Hown|]. repeat split.
  - split; [|split; [|repeat split]].
    + apply wf_source_removed; [assumption|].
      destruct Hown as (_ & _ & _ & Hdraw & _). now apply Hdraw.
    + now apply owned_sources_removed.
Qed.

(** The pattern, if there is one, is destroyed: what is left. *)
Lemma retire_pattern (p : Z) (v : pattern_t) (g : glib) :
  wf g -> patterns g = (if p =? 0 then [] else [(p, v)]) ->
  let g0 := if p =? 0 then g else pattern_destroyed p g in
  wf g0 /\ patterns g0 = [] /\
  sources g0 = sources g /\
  next_source_id g0 = next_source_id g /\
  next_pattern g0 = next_pattern g.
Proof.
  intros Hwf Hpat. destruct (Z.eqb_spec p 0) as [->|Hp]; cbv beta iota zeta.
  - split; [exact Hwf|]. split; [exact Hpat|]. repeat split.
  - split; [|split; [|repeat split]].
    + apply wf_pattern_destroyed; [assumption|].
      unfold pattern_ids. rewrite Hpat. now left.
    + unfold pattern_destroyed; cbn [patterns]. rewrite Hpat.
      unfold drop_pattern. cbn. now rewrite Z.eqb_refl.
Qed.

(** ** The blue version: every callback keeps the invariant *)

Lemma Blue_num_scale_x (w : Z) (d : Blue.data_t) :
  0 < w <= GINT_MAX ->
  0 <= Blue.width d <= GINT_MAX ->
  (Blue.width d = 0 -> Blue.x d = 0) ->
  (0 < Blue.width d -> 0 <= Blue.x d < Blue.width d) ->
  Blue.draw_timeout_interval d = PERIOD_MS / w ->
  Blue_num (Blue.scale_x w d).
Proof.
  intros Hw Hwd H0 Hpos Hint.
  destruct (Blue_scale_x_fields w d) as (_ & _ & _ & Hi).
  unfold Blue_num. rewrite Blue_scale_x_width, Hi.
  split; [lia|]. split; [lia|]. intros _. split; [|assumption].
  destruct (Z.eq_dec (Blue.width d) 0) as [Hz|Hnz].
  - unfold Blue.scale_x. rewrite Hz.
    destruct (Z.eqb_spec 0 w); [lia|]. cbn. rewrite (H0 Hz). lia.
  - apply (Blue_scale_x_offset (Blue.width d) w d); lia.
Qed.

Lemma Blue_on_draw_inv (supp w : Z) (d : Blue.data_t) (g : glib) :
  Blue_inv supp d g -> 0 < w <= GINT_MAX ->
  exists d' g',
    Blue.on_draw w d g = Done ((d', true), g') /\
    Blue_inv supp d' g' /\
    Blue.width d' = w /\
    Blue.pattern d' = Blue.pattern d.
Proof.
  intros (Hwf & (Hwd & Hz & Hpos) & Hown & Hpat) Hw.
  rewrite Blue_on_draw_exec by lia.
  rewrite (to_guint_small w) by lia.
  destruct (Z.eq_dec (Blue.draw_timeout_interval d) (PERIOD_MS / w)) as [Heq|Hne].
  - rewrite Blue_register_same by assumption.
    eexists. eexists. split; [reflexivity|].
    destruct (Blue_scale_x_fields w d) as (_ & Hp & Hid & _).
    split; [|split; [apply Blue_scale_x_width | exact Hp]].
    split; [|split; [|split]].
    + repeat apply wf_push; try reflexivity. assumption.
    + apply Blue_num_scale_x; try assumption.
      * intros H. apply Hz, H.
      * intros H. apply Hpos, H.
    + rewrite Hid. eapply owned_sources_same; [|exact Hown]. reflexivity.
    + rewrite Hp. exact Hpat.
  - rewrite Blue_register_changed by assumption.
    destruct (retire_draw_source supp _ g Hwf Hown)
      as (Hwf0 & Hown0 & Hnext & _ & Hpat0).
    set (g0 := if Blue.draw_timeout_id d =? 0 then g
               else source_removed (Blue.draw_timeout_id d) g) in *.
    set (d1 := Blue.with_draw_timeout_interval _ _).
    eexists. eexists. split; [reflexivity|].
    destruct (Blue_scale_x_fields w d1) as (_ & Hp & Hid & _).
    split; [|split; [apply Blue_scale_x_width | exact Hp]].
    split; [|split; [|split]].
    + repeat apply wf_push; try reflexivity.
      apply wf_source_added, Hwf0.
    + apply Blue_num_scale_x; try assumption.
      * intros H. apply Hz, H.
      * intros H. apply Hpos, H.
      * reflexivity.
    + rewrite Hid. subst d1. cbn [Blue.draw_timeout_id
        Blue.with_draw_timeout_interval Blue.with_draw_timeout_id].
      rewrite <- Hnext.
      eapply owned_sources_same;
        [|apply (owned_sources_added supp (PERIOD_MS / w) g0 Hwf0 Hown0)].
      reflexivity.
    + rewrite Hp. subst d1. cbn [Blue.pattern Blue.with_draw_timeout_interval
        Blue.with_draw_timeout_id]. rewrite <- Hpat, <- Hpat0. reflexivity.
Qed.

Lemma Blue_on_draw_timer_inv (supp : Z) (d : Blue.data_t) (g : glib) :
  Blue_inv supp d g -> Blue.draw_timeout_id d <> 0 ->
  exists d' g',
    Blue.on_draw_timer d g = Done ((d', true), g') /\
    Blue_inv supp d' g' /\
    Blue.pattern d' = Blue.pattern d.
Proof.
  intros (Hwf & (Hwd & Hz & Hpos) & Hown & Hpat) Hid.
  assert (Hw : 0 < Blue.width d).
  { destruct (Z.eq_dec (Blue.width d) 0) as [H|H]; [|lia].
    apply Hz in H. tauto. }
  rewrite Blue_on_draw_timer_exec by lia.
  rewrite (to_guint_small (Blue.width d)) by lia.
  eexists. eexists. split; [reflexivity|].
  split; [|reflexivity].
  split; [|split; [|split]].
  - apply wf_push; [reflexivity | assumption].
  - unfold Blue_num; cbn. split; [assumption|]. split; [lia|].
    intros _. split; [|apply Hpos, Hw].
    apply Z.mod_pos_bound. lia.
  - eapply owned_sources_same; [|exact Hown]. reflexivity.
  - exact Hpat.
Qed.

Lemma Blue_press_inv (supp : Z) (d : Blue.data_t) (g : glib) :
  Blue_inv supp d g ->
  exists d' g',
    Blue.on_button_or_key_press d g = Done ((d', true), g') /\
    Blue_inv supp d' g' /\
    Blue.draw_timeout_id d' = 0 /\
    Blue.pattern d' = Blue.pattern d.
Proof.
  intros (Hwf & (Hwd & Hz & Hpos) & Hown & Hpat).
  unfold Blue.on_button_or_key_press, Blue.gtk_widget_destroy, Blue.on_destroy,
    bind, log.
  rewrite Blue_free_draw_timeout_exec.
  assert (Hwf1 : wf (push (c_widget_destroy (Blue.window d)) g))
    by (apply wf_push; [reflexivity | assumption]).
  assert (Hown1 : owned_sources supp (Blue.draw_timeout_id d)
                    (push (c_widget_destroy (Blue.window d)) g))
    by (eapply owned_sources_same; [|exact Hown]; reflexivity).
  destruct (retire_draw_source supp _ _ Hwf1 Hown1)
    as (Hwf0 & Hown0 & _ & _ & Hpat0).
  destruct (Z.eqb_spec (Blue.draw_timeout_id d) 0) as [Hid|Hid];
    cbv beta iota zeta in Hwf0, Hown0, Hpat0.
  - eexists. eexists. split; [reflexivity|].
    split; [|split; [assumption | reflexivity]].
    split; [|split; [|split]].
    + apply wf_push; [reflexivity | assumption].
    + exact (conj Hwd (conj Hz Hpos)).
    + rewrite Hid. eapply owned_sources_same; [|exact Hown0]. reflexivity.
    + exact Hpat.
  - eexists. eexists. split; [reflexivity|].
    split; [|split; reflexivity].
    split; [|split; [|split]].
    + apply wf_push; [reflexivity | assumption].
    + unfold Blue_num; cbn. split; [assumption|]. split.
      * intros H. apply Hz in H. tauto.
      * assumption.
    + eapply owned_sources_same; [|exact Hown0]. reflexivity.
    + exact Hpat.
Qed.

Lemma suppression_timer_exec (display : Z) (g : glib) :
  on_screensaver_suppression_timer display g =
  if display =? 0 then AssertionFailed
  else Done (true, push (c_warp_pointer display) g).
Proof.
  unfold on_screensaver_suppression_timer, bind, assert.
  destruct (display =? 0); reflexivity.
Qed.

Lemma Blue_dispatch_inv (supp : Z) (ev : event) (d : Blue.data_t) (g : glib) :
  Blue_inv supp d g -> plausible_event ev ->
  exists d' g',
    Blue.dispatch ev d g = Done ((d', is_press ev), g') /\
    Blue_inv supp d' g' /\
    Blue.pattern d' = Blue.pattern d /\
    (is_press ev = true -> Blue.draw_timeout_id d' = 0).
Proof.
  intros Hinv Hev. destruct ev as [w|id display|]; cbn [plausible_event] in Hev.
  - destruct (Blue_on_draw_inv supp w d g Hinv Hev)
      as (d' & g' & Hrun & Hinv' & _ & Hp).
    exists d', g'. rewrite (Blue_dispatch_handler _ d d' g g')
      by (unfold Blue.handler, bind; rewrite Hrun; reflexivity).
    rewrite (quit_requested_same g g') by exact (Blue_on_draw_quit _ _ _ _ _ Hrun).
    split; [reflexivity|]. split; [assumption|]. split; [assumption|discriminate].
  - cbn [is_press].
    destruct (find_source id g) as [s|] eqn:Hf.
    + destruct Hinv as (Hwf & Hnum & Hown & Hpat).
      destruct (find_source_owned _ _ _ _ _ Hown Hf) as [[_ Hcb]|[_ [Hid Hcb]]].
      * apply Z.eqb_neq in Hev.
        exists d. eexists.
        rewrite (Blue_dispatch_handler _ d d g (push (c_warp_pointer display) g))
          by (unfold Blue.handler, bind; rewrite Hf, Hcb, suppression_timer_exec,
                Hev; reflexivity).
        rewrite quit_requested_same by reflexivity.
        split; [reflexivity|].
        split; [|split; [reflexivity | discriminate]].
        exact (conj Hwf (conj Hnum (conj Hown Hpat))).
      * destruct (Blue_on_draw_timer_inv supp d g) as (d' & g' & Hrun & Hinv' & Hp);
          [exact (conj Hwf (conj Hnum (conj Hown Hpat))) | assumption |].
        exists d', g'.
        rewrite (Blue_dispatch_handler _ d d' g g')
          by (unfold Blue.handler, bind; rewrite Hf, Hcb, Hrun; reflexivity).
        rewrite (quit_requested_same g g')
          by exact (Blue_on_draw_timer_quit _ _ _ _ Hrun).
        split; [reflexivity|].
        split; [assumption|]. split; [assumption | discriminate].
    + exists d, g.
      rewrite (Blue_dispatch_handler _ d d g g)
        by (unfold Blue.handler; rewrite Hf; reflexivity).
      rewrite quit_requested_same by reflexivity.
      split; [reflexivity|]. split; [assumption|].
      split; [reflexivity | discriminate].
  - destruct (Blue_press_inv supp d g Hinv) as (d' & g' & Hrun & Hinv' & Hid & Hp).
    exists d', g'. rewrite (Blue_dispatch_handler _ d d' g g')
      by (unfold Blue.handler, bind; rewrite Hrun; reflexivity).
    rewrite (quit_requested_more g g') by exact (Blue_press_quit _ _ _ _ Hrun).
    split; [reflexivity|]. split; [assumption|]. split; [assumption|].
    intros _. assumption.
Qed.

Lemma Blue_gtk_main_inv (supp : Z) (evs : list event) :
  Forall plausible_event evs ->
  forall (d : Blue.data_t) (g : glib),
    Blue_inv supp d g ->
    exists d' g',
      Blue.gtk_main evs d g = Done ((d', existsb is_press evs), g') /\
      Blue_inv supp d' g' /\
      Blue.pattern d' = Blue.pattern d /\
      (existsb is_press evs = true -> Blue.draw_timeout_id d' = 0).
Proof.
  induction 1 as [|ev evs Hev _ IH]; intros d g Hinv.
  - exists d, g. cbn. split; [reflexivity|]. split; [assumption|].
    split; [reflexivity | discriminate].
  - destruct (Blue_dispatch_inv supp ev d g Hinv Hev)
      as (d1 & g1 & Hrun & Hinv1 & Hp1 & Hq1).
    cbn [Blue.gtk_main existsb]. unfold bind. rewrite Hrun. cbn [fst snd].
    destruct (is_press ev) eqn:Hpress; cbn [orb].
    + exists d1, g1. split; [reflexivity|]. split; [assumption|].
      split; [assumption|]. intros _. now apply Hq1.
    + destruct (IH d1 g1 Hinv1) as (d' & g' & Hrun' & Hinv' & Hp' & Hq').
      exists d', g'. split; [assumption|]. split; [assumption|].
      split; [congruence | assumption].
Qed.

Lemma Blue_create_pattern_exec (g : glib) :
  Blue.create_pattern g =
  let p := next_pattern g in
  let light := mk_rgb Blue.BAR_COLOUR_R Blue.BAR_COLOUR_G Blue.BAR_COLOUR_B in
  Done (p,
        pattern_changed p (set_extend CAIRO_EXTEND_REPEAT)
          (c_pattern_set_extend p CAIRO_EXTEND_REPEAT)
          (pattern_changed p (add_stop (mk_stop 1 (mk_rgb 0 0 0)))
             (c_pattern_add_color_stop_rgb p 1 (mk_rgb 0 0 0))
             (pattern_changed p (add_stop (mk_stop BAR_FRACTION (mk_rgb 0 0 0)))
                (c_pattern_add_color_stop_rgb p BAR_FRACTION (mk_rgb 0 0 0))
                (pattern_changed p (add_stop (mk_stop BAR_FRACTION light))
                   (c_pattern_add_color_stop_rgb p BAR_FRACTION light)
                   (pattern_changed p (add_stop (mk_stop 0 light))
                      (c_pattern_add_color_stop_rgb p 0 light)
                      (pattern_created 0 1 g)))))).
Proof. reflexivity. Qed.

Lemma Blue_create_pattern_facts (g : glib) :
  exists g',
    Blue.create_pattern g = Done (next_pattern g, g') /\
    patterns g' = (next_pattern g, Blue.gradient) :: patterns g /\
    sources g' = sources g /\
    next_source_id g' = next_source_id g /\
    (wf g -> wf g').
Proof.
  rewrite Blue_create_pattern_exec. cbv zeta.
  eexists. split; [reflexivity|]. split; [|split; [|split]].
  - unfold pattern_changed at 1; cbn [patterns].
    unfold pattern_changed at 1; cbn [patterns].
    unfold pattern_changed at 1; cbn [patterns].
    unfold pattern_changed at 1; cbn [patterns].
    unfold pattern_changed at 1; cbn [patterns].
    unfold pattern_created; cbn [patterns].
    rewrite !update_pattern_head. reflexivity.
  - reflexivity.
  - reflexivity.
  - intros Hwf.
    apply wf_set_extend.
    apply (wf_add_color_stop _ (mk_stop 1 (mk_rgb 0 0 0))).
    apply (wf_add_color_stop _ (mk_stop BAR_FRACTION (mk_rgb 0 0 0))).
    apply (wf_add_color_stop _
             (mk_stop BAR_FRACTION
                (mk_rgb Blue.BAR_COLOUR_R Blue.BAR_COLOUR_G Blue.BAR_COLOUR_B))).
    apply (wf_add_color_stop _
             (mk_stop 0
                (mk_rgb Blue.BAR_COLOUR_R Blue.BAR_COLOUR_G Blue.BAR_COLOUR_B))).
    apply wf_pattern_created, Hwf.
Qed.

(** A run of the blue version on plausible events: it never fails; it has
    exited with status 0 and nothing alive when a press was among the
    events, and is running with the invariant otherwise. *)
Lemma Blue_main_run (window cursor : Z) (evs : list event) :
  window <> 0 -> cursor <> 0 -> Forall plausible_event evs ->
  exists d g,
    Blue.main window cursor evs glib_init =
      Done ((d, if existsb is_press evs then Exited 0 else Running), g) /\
    wf g /\ Blue_num d /\
    (if existsb is_press evs
     then sources g = [] /\ patterns g = [] /\
          exists g', g = pattern_destroyed 1 (source_removed 1 g')
     else Blue_inv 1 d g).
Proof.
  intros Hwin Hcur Hevs.
  unfold Blue.main, bind, assert.
  apply Z.eqb_neq in Hwin, Hcur. rewrite Hwin, Hcur. cbn [negb].
  destruct (Blue_create_pattern_facts glib_init)
    as (gp & Hcreate & Hpat & Hsrc & Hnext & Hwfp).
  rewrite Hcreate. unfold g_timeout_add. rewrite Hnext.
  unfold Blue.with_pattern.
  cbn [next_pattern next_source_id glib_init Blue.window
       Blue.draw_timeout_id Blue.draw_timeout_interval Blue.x Blue.width].
  set (d0 := Blue.mk_data window 1 0 0 0 0).
  set (g0 := source_added _ _ gp).
  assert (Hinv0 : Blue_inv 1 d0 g0).
  { split; [|split; [|split]].
    - apply wf_source_added, Hwfp, glib_init_wf.
    - unfold Blue_num, GINT_MAX; cbn. repeat split; lia.
    - unfold owned_sources, source_ids. subst g0.
      unfold source_added; cbn [sources]. rewrite Hsrc, Hnext. cbn.
      repeat split; try lia; try tauto.
      intros s [<-|[]]. left. now split.
    - exact Hpat. }
  destruct (Blue_gtk_main_inv 1 evs Hevs _ _ Hinv0)
    as (d' & g' & Hrun & Hinv' & Hp & Hq).
  rewrite Hrun. cbn [fst snd].
  destruct Hinv' as (Hwf' & Hnum' & Hown' & Hpat').
  destruct (existsb is_press evs).
  - unfold g_source_remove, cairo_pattern_destroy, ret.
    eexists. eexists. split; [reflexivity|].
    rewrite (Hq eq_refl) in Hown'.
    assert (Hwf1 : wf (source_removed 1 g')).
    { apply wf_source_removed; [assumption|]. apply Hown'. }
    split; [|split; [assumption|split]].
    + apply wf_pattern_destroyed; [assumption|].
      unfold pattern_ids, source_removed; cbn [patterns]. rewrite Hpat'. now left.
    + unfold pattern_destroyed, source_removed; cbn [sources].
      now apply owned_sources_only_supp.
    + split.
      * unfold pattern_destroyed, source_removed; cbn [patterns]. rewrite Hpat'.
        unfold drop_pattern. cbn. now rewrite Z.eqb_refl.
      * exists g'. rewrite Hp. reflexivity.
  - exists d', g'. split; [reflexivity|]. split; [assumption|].
    split; [assumption|]. exact (conj Hwf' (conj Hnum' (conj Hown' Hpat'))).
Qed.

(** ** The white version: every callback keeps the invariant *)

Lemma White_retire (supp : Z) (d : White.data_t) (g : glib) :
  White_inv supp d g ->
  let g1 := if White.draw_timeout_id d =? 0 then g
            else source_removed (White.draw_timeout_id d) g in
  let g2 := if White.pattern d =? 0 then g1
            else pattern_destroyed (White.pattern d) g1 in
  wf g2 /\ owned_sources supp 0 g2 /\ patterns g2 = [] /\
  next_source_id g2 = next_source_id g /\
  next_pattern g2 = next_pattern g.
Proof.
  intros (Hwf & Hown & Hpat) g1 g2.
  destruct (retire_draw_source supp _ g Hwf Hown)
    as (Hwf1 & Hown1 & Hns1 & Hnp1 & Hpat1).
  fold g1 in Hwf1, Hown1, Hns1, Hnp1, Hpat1.
  rewrite <- Hpat1 in Hpat.
  destruct (retire_pattern _ _ g1 Hwf1 Hpat)
    as (Hwf2 & Hpat2 & Hsrc2 & Hns2 & Hnp2).
  fold g2 in Hwf2, Hpat2, Hsrc2, Hns2, Hnp2.
  split; [assumption|]. split.
  - eapply owned_sources_same; [exact Hsrc2 | exact Hown1].
  - split; [assumption|]. split; congruence.
Qed.

Lemma White_on_draw_inv (supp w : Z) (d : White.data_t) (g : glib) :
  White_inv supp d g -> 0 < w <= GINT_MAX ->
  exists d' g',
    White.on_draw w d g = Done ((d', true), g') /\
    White_inv supp d' g' /\
    White.last_width d' = w /\
    White.x d' = White.x d mod w.
Proof.
  intros Hinv Hw. destruct (Z.eq_dec (White.last_width d) w) as [Heq|Hne].
  - rewrite White_on_draw_same by assumption.
    eexists. eexists. split; [reflexivity|].
    split; [|split; reflexivity].
    destruct Hinv as (Hwf & Hown & Hpat).
    split; [exact Hwf|]. split; [exact Hown|].
    cbn. rewrite <- Heq. exact Hpat.
  - rewrite White_on_draw_changed by assumption.
    destruct (White_retire supp d g Hinv) as (Hwf2 & Hown2 & Hpat2 & Hns & Hnp).
    destruct (White_rebuild_facts w d g)
      as (d1 & g1 & Hrun & Hd1 & Hsrc & Hpat & Hwf & _); [lia|].
    rewrite Hrun. eexists. eexists. split; [reflexivity|].
    subst d1. split; [|split; reflexivity].
    split; [|split].
    + apply Hwf, Hwf2.
    + cbn [White.draw_timeout_id White.with_x White.with_last_width].
      eapply owned_sources_same;
        [|apply (owned_sources_added supp (PERIOD_MS / w) _ Hwf2 Hown2)].
      cbn [sources push]. rewrite Hsrc. reflexivity.
    + cbn [White.pattern White.last_width White.with_x White.with_last_width
           patterns push].
      rewrite Hpat, Hpat2.
      destruct Hwf2 as [_ (Hpos & _)]. cbn in Hpos.
      destruct (Z.eqb_spec (next_pattern
        (if White.pattern d =? 0
         then if White.draw_timeout_id d =? 0 then g
              else source_removed (White.draw_timeout_id d) g
         else pattern_destroyed (White.pattern d)
                (if White.draw_timeout_id d =? 0 then g
                 else source_removed (White.draw_timeout_id d) g))) 0) as [H0|_];
        [lia | reflexivity].
Qed.

Lemma White_press_inv (supp : Z) (d : White.data_t) (g : glib) :
  White_inv supp d g ->
  exists d' g',
    White.on_button_or_key_press d g = Done ((d', true), g') /\
    White_inv supp d' g' /\
    White.draw_timeout_id d' = 0 /\
    White.pattern d' = 0.
Proof.
  intros Hinv.
  unfold White.on_button_or_key_press, White.gtk_widget_destroy,
    White.on_destroy, bind, log.
  rewrite White_free_exec.
  assert (Hinv1 : White_inv supp d (push (c_widget_destroy (White.window d)) g))
    by exact Hinv.
  destruct (White_retire supp d _ Hinv1) as (Hwf2 & Hown2 & Hpat2 & _).
  eexists. eexists. split; [reflexivity|].
  split; [|split; reflexivity].
  split; [exact Hwf2|]. split; [exact Hown2 | exact Hpat2].
Qed.

Lemma White_dispatch_inv (supp : Z) (ev : event) (d : White.data_t) (g : glib) :
  White_inv supp d g -> plausible_event ev ->
  exists d' g',
    White.dispatch ev d g = Done ((d', is_press ev), g') /\
    White_inv supp d' g' /\
    (is_press ev = true ->
     White.draw_timeout_id d' = 0 /\ White.pattern d' = 0).
Proof.
  intros Hinv Hev. destruct ev as [w|id display|]; cbn [plausible_event] in Hev.
  - destruct (White_on_draw_inv supp w d g Hinv Hev)
      as (d' & g' & Hrun & Hinv' & _).
    exists d', g'. rewrite (White_dispatch_handler _ d d' g g')
      by (unfold White.handler, bind; rewrite Hrun; reflexivity).
    rewrite (quit_requested_same g g')
      by exact (White_on_draw_quit _ _ _ _ _ Hev Hrun).
    split; [reflexivity|]. split; [assumption | discriminate].
  - cbn [is_press].
    destruct (find_source id g) as [s|] eqn:Hf.
    + destruct Hinv as (Hwf & Hown & Hpat).
      destruct (find_source_owned _ _ _ _ _ Hown Hf) as [[_ Hcb]|[_ [Hid Hcb]]].
      * apply Z.eqb_neq in Hev.
        exists d. eexists.
        rewrite (White_dispatch_handler _ d d g (push (c_warp_pointer display) g))
          by (unfold White.handler, bind; rewrite Hf, Hcb, suppression_timer_exec,
                Hev; reflexivity).
        rewrite quit_requested_same by reflexivity.
        split; [reflexivity|].
        split; [|discriminate].
        exact (conj Hwf (conj Hown Hpat)).
      * eexists. eexists.
        rewrite (White_dispatch_handler _ d _ g _)
          by (unfold White.handler, bind;
              rewrite Hf, Hcb, White_on_draw_timer_exec; reflexivity).
        rewrite quit_requested_same by reflexivity.
        split; [reflexivity|].
        split; [|discriminate].
        exact (conj Hwf (conj Hown Hpat)).
    + exists d, g.
      rewrite (White_dispatch_handler _ d d g g)
        by (unfold White.handler; rewrite Hf; reflexivity).
      rewrite quit_requested_same by reflexivity.
      split; [reflexivity|]. split; [assumption | discriminate].
  - destruct (White_press_inv supp d g Hinv) as (d' & g' & Hrun & Hinv' & Hid & Hp).
    exists d', g'. rewrite (White_dispatch_handler _ d d' g g')
      by (unfold White.handler, bind; rewrite Hrun; reflexivity).
    rewrite (quit_requested_more g g') by exact (White_press_quit _ _ _ _ Hrun).
    split; [reflexivity|]. split; [assumption|].
    intros _. now split.
Qed.

Lemma White_gtk_main_inv (supp : Z) (evs : list event) :
  Forall plausible_event evs ->
  forall (d : White.data_t) (g : glib),
    White_inv supp d g ->
    exists d' g',
      White.gtk_main evs d g = Done ((d', existsb is_press evs), g') /\
      White_inv supp d' g' /\
      (existsb is_press evs = true ->
       White.draw_timeout_id d' = 0 /\ White.pattern d' = 0).
Proof.
  induction 1 as [|ev evs Hev _ IH]; intros d g Hinv.
  - exists d, g. cbn. split; [reflexivity|]. split; [assumption | discriminate].
  - destruct (White_dispatch_inv supp ev d g Hinv Hev)
      as (d1 & g1 & Hrun & Hinv1 & Hq1).
    cbn [White.gtk_main existsb]. unfold bind. rewrite Hrun. cbn [fst snd].
    destruct (is_press ev) eqn:Hpress; cbn [orb].
    + exists d1, g1. split; [reflexivity|]. split; [assumption|].
      intros _. now apply Hq1.
    + destruct (IH d1 g1 Hinv1) as (d' & g' & Hrun' & Hinv' & Hq').
      exists d', g'. split; [assumption|]. split; assumption.
Qed.

(** A run of the white version on plausible events. *)
Lemma White_main_run (window cursor : Z) (evs : list event) :
  window <> 0 -> cursor <> 0 -> Forall plausible_event evs ->
  exists d g,
    White.main window cursor evs glib_init =
      Done ((d, if existsb is_press evs then Exited 0 else Running), g) /\
    wf g /\
    (if existsb is_press evs
     then sources g = [] /\ patterns g = [] /\
          exists g', g = source_removed 1 g'
     else White_inv 1 d g).
Proof.
  intros Hwin Hcur Hevs.
  unfold White.main, bind, assert.
  apply Z.eqb_neq in Hwin, Hcur. rewrite Hwin, Hcur. cbn [negb].
  unfold g_timeout_add. cbn [next_source_id glib_init].
  set (d0 := White.mk_data window 0 0 0 0).
  set (g0 := source_added _ _ glib_init).
  assert (Hinv0 : White_inv 1 d0 g0).
  { split; [|split].
    - apply wf_source_added, glib_init_wf.
    - unfold owned_sources; cbn. repeat split; try lia; try tauto.
      intros s [<-|[]]. left. now split.
    - reflexivity. }
  destruct (White_gtk_main_inv 1 evs Hevs _ _ Hinv0)
    as (d' & g' & Hrun & Hinv' & Hq).
  rewrite Hrun. cbn [fst snd].
  destruct Hinv' as (Hwf' & Hown' & Hpat').
  destruct (existsb is_press evs).
  - unfold g_source_remove, ret.
    eexists. eexists. split; [reflexivity|].
    destruct (Hq eq_refl) as [Hid Hp].
    rewrite Hid in Hown'. rewrite Hp in Hpat'.
    split; [|split].
    + apply wf_source_removed; [assumption|]. apply Hown'.
    + unfold source_removed; cbn [sources].
      now apply owned_sources_only_supp.
    + split; [exact Hpat'|]. exists g'. reflexivity.
  - exists d', g'. split; [reflexivity|]. split; [assumption|].
    exact (conj Hwf' (conj Hown' Hpat')).
Qed.

(** ** Runs that go on *)

Lemma Blue_gtk_main_app (evs l : list event) :
  forall (d : Blue.data_t) (g : glib),
    Blue.gtk_main (evs ++ l) d g =
    match Blue.gtk_main evs d g with
    | Done ((d', false), g') => Blue.gtk_main l d' g'
    | r => r
    end.
Proof.
  induction evs as [|ev evs IH]; intros d g; [reflexivity|].
  cbn [app Blue.gtk_main]. unfold bind.
  destruct (Blue.dispatch ev d g) as [[[d1 q] g1]| |]; try reflexivity.
  cbn [fst snd]. destruct q; [reflexivity | apply IH].
Qed.

Lemma White_gtk_main_app (evs l : list event) :
  forall (d : White.data_t) (g : glib),
    White.gtk_main (evs ++ l) d g =
    match White.gtk_main evs d g with
    | Done ((d', false), g') => White.gtk_main l d' g'
    | r => r
    end.
Proof.
  induction evs as [|ev evs IH]; intros d g; [reflexivity|].
  cbn [app White.gtk_main]. unfold bind.
  destruct (White.dispatch ev d g) as [[[d1 q] g1]| |]; try reflexivity.
  cbn [fst snd]. destruct q; [reflexivity | apply IH].
Qed.

Lemma find_source_supp (supp draw : Z) (g : glib) :
  owned_sources supp draw g ->
  exists s, find_source supp g = Some s /\
            source_callback s = cb_on_screensaver_suppression_timer.
Proof.
  intros Hown. pose proof Hown as (Hin & _ & Hne & _ & _).
  unfold source_ids in Hin. apply in_map_iff in Hin.
  destruct Hin as (s0 & Hid & Hin0).
  destruct (find_source supp g) as [s|] eqn:Hf.
  - exists s. split; [reflexivity|].
    destruct (find_source_owned _ _ _ _ _ Hown Hf) as [[_ H]|[H _]];
      [assumption | contradiction].
  - unfold find_source in Hf.
    pose proof (find_none _ _ Hf s0 Hin0) as Hn. cbn in Hn.
    rewrite Hid, Z.eqb_refl in Hn. discriminate.
Qed.

(** Without an X display a firing of the idle-suppression timer aborts the
    main loop, whatever happened before. *)
Lemma Blue_no_display_aborts (evs : list event) (d : Blue.data_t) (g : glib) :
  Blue_inv 1 d g -> Forall plausible_event evs ->
  existsb is_press evs = false ->
  Blue.gtk_main (evs ++ [Timeout 1 0]) d g = AssertionFailed.
Proof.
  intros Hinv Hevs Hnp.
  destruct (Blue_gtk_main_inv 1 evs Hevs d g Hinv)
    as (d' & g' & Hrun & (_ & _ & Hown & _) & _).
  rewrite Blue_gtk_main_app, Hrun, Hnp.
  cbn [Blue.gtk_main]. unfold bind, Blue.dispatch, Blue.handler.
  destruct (find_source_supp _ _ _ Hown) as (s & -> & ->).
  reflexivity.
Qed.

Lemma White_no_display_aborts (evs : list event) (d : White.data_t) (g : glib) :
  White_inv 1 d g -> Forall plausible_event evs ->
  existsb is_press evs = false ->
  White.gtk_main (evs ++ [Timeout 1 0]) d g = AssertionFailed.
Proof.
  intros Hinv Hevs Hnp.
  destruct (White_gtk_main_inv 1 evs Hevs d g Hinv)
    as (d' & g' & Hrun & (_ & Hown & _) & _).
  rewrite White_gtk_main_app, Hrun, Hnp.
  cbn [White.gtk_main]. unfold bind, White.dispatch, White.handler.
  destruct (find_source_supp _ _ _ Hown) as (s & -> & ->).
  reflexivity.
Qed.

(** The state in which the main loop starts. *)
Lemma Blue_main_start (window cursor : Z) :
  window <> 0 -> cursor <> 0 ->
  exists d0 g0,
    Blue_inv 1 d0 g0 /\
    forall evs,
      Blue.main window cursor evs glib_init =
      match Blue.gtk_main evs d0 g0 with
      | Done ((d, true), g) =>
          Done ((d, Exited 0),
                pattern_destroyed (Blue.pattern d) (source_removed 1 g))
      | Done ((d, false), g) => Done ((d, Running), g)
      | AssertionFailed => AssertionFailed
      | UndefinedBehaviour => UndefinedBehaviour
      end.
Proof.
  intros Hwin Hcur.
  destruct (Blue_create_pattern_facts glib_init)
    as (gp & Hcreate & Hpat & Hsrc & Hnext & Hwfp).
  exists (Blue.mk_data window 1 0 0 0 0).
  exists (source_added SCREENSAVER_SUPPRESSION_PERIOD_MS
            cb_on_screensaver_suppression_timer gp).
  split.
  - split; [|split; [|split]].
    + apply wf_source_added, Hwfp, glib_init_wf.
    + unfold Blue_num, GINT_MAX; cbn. repeat split; lia.
    + unfold owned_sources, source_ids, source_added; cbn [sources].
      rewrite Hsrc, Hnext. cbn.
      repeat split; try lia; try tauto.
      intros s [<-|[]]. left. now split.
    + exact Hpat.
  - intros evs. unfold Blue.main, bind, assert.
    apply Z.eqb_neq in Hwin, Hcur. rewrite Hwin, Hcur. cbn [negb].
    rewrite Hcreate. unfold g_timeout_add. rewrite Hnext.
    unfold Blue.with_pattern.
    cbn [next_pattern next_source_id glib_init Blue.window
         Blue.draw_timeout_id Blue.draw_timeout_interval Blue.x Blue.width].
    destruct (Blue.gtk_main evs _ _) as [[[d q] g]| |]; try reflexivity.
    destruct q; reflexivity.
Qed.

Lemma White_main_start (window cursor : Z) :
  window <> 0 -> cursor <> 0 ->
  exists d0 g0,
    White_inv 1 d0 g0 /\
    forall evs,
      White.main window cursor evs glib_init =
      match White.gtk_main evs d0 g0 with
      | Done ((d, true), g) => Done ((d, Exited 0), source_removed 1 g)
      | Done ((d, false), g) => Done ((d, Running), g)
      | AssertionFailed => AssertionFailed
      | UndefinedBehaviour => UndefinedBehaviour
      end.
Proof.
  intros Hwin Hcur.
  exists (White.mk_data window 0 0 0 0).
  exists (source_added SCREENSAVER_SUPPRESSION_PERIOD_MS
            cb_on_screensaver_suppression_timer glib_init).
  split.
  - split; [|split].
    + apply wf_source_added, glib_init_wf.
    + unfold owned_sources; cbn. repeat split; try lia; try tauto.
      intros s [<-|[]]. left. now split.
    + reflexivity.
  - intros evs. unfold White.main, bind, assert.
    apply Z.eqb_neq in Hwin, Hcur. rewrite Hwin, Hcur. cbn [negb].
    unfold g_timeout_add. cbn [next_source_id glib_init].
    destruct (White.gtk_main evs _ _) as [[[d q] g]| |]; try reflexivity.
    destruct q; reflexivity.
Qed.


(** ** The last steps of a run *)

Lemma White_press_exec (d : White.data_t) (g : glib) :
  White.gtk_main [Press] d g =
  Done ((White.with_pattern (White.with_draw_timeout_id d 0) 0, true),
        push c_main_quit
          (let g0 := push (c_widget_destroy (White.window d)) g in
           let g1 := if White.draw_timeout_id d =? 0 then g0
                     else source_removed (White.draw_timeout_id d) g0 in
           if White.pattern d =? 0 then g1
           else pattern_destroyed (White.pattern d) g1)).
Proof.
  cbn [White.gtk_main].
  unfold bind, White.dispatch, White.handler, bind,
    White.on_button_or_key_press, White.gtk_widget_destroy,
    White.on_destroy, bind, gtk_main_quit, log.
  rewrite White_free_exec. cbv zeta. cbn [fst snd ret].
  rewrite quit_requested_more; [reflexivity|].
  destruct (White.draw_timeout_id d =? 0), (White.pattern d =? 0); reflexivity.
Qed.

Lemma Blue_press_exec (d : Blue.data_t) (g : glib) :
  Blue.gtk_main [Press] d g =
  if Blue.draw_timeout_id d =? 0
  then Done ((d, true),
             push c_main_quit (push (c_widget_destroy (Blue.window d)) g))
  else Done ((Blue.with_draw_timeout_id d 0, true),
             push c_main_quit
               (source_removed (Blue.draw_timeout_id d)
                  (push (c_widget_destroy (Blue.window d)) g))).
Proof.
  cbn [Blue.gtk_main].
  unfold bind, Blue.dispatch, Blue.handler, bind,
    Blue.on_button_or_key_press, Blue.gtk_widget_destroy,
    Blue.on_destroy, bind, gtk_main_quit, log.
  rewrite Blue_free_draw_timeout_exec.
  destruct (Blue.draw_timeout_id d =? 0); cbn [fst snd ret];
    (rewrite quit_requested_more; reflexivity).
Qed.

(** While the main loop goes on, [gtk_main_quit] has not been called. *)
Lemma quit_calls_none (g : glib) :
  quit_calls g = 0%nat -> ~ In c_main_quit (trace g).
Proof.
  unfold quit_calls. intros H Hin.
  assert (Hf : In c_main_quit (filter is_main_quit (trace g)))
    by (apply filter_In; now split).
  destruct (filter is_main_quit (trace g)); [contradiction | discriminate].
Qed.

Lemma White_gtk_main_quiet (evs : list event) :
  forall (d d' : White.data_t) (g g' : glib),
    White.gtk_main evs d g = Done ((d', false), g') ->
    (quit_calls g' <= quit_calls g)%nat.
Proof.
  induction evs as [|ev evs IH]; intros d d' g g' H.
  - injection H as _ <-. apply Nat.le_refl.
  - cbn [White.gtk_main] in H. unfold bind in H.
    destruct (White.dispatch ev d g) as [[[d1 q] g1]| |] eqn:Hd;
      try discriminate.
    cbn [fst snd] in H. destruct q; [discriminate|].
    apply IH in H. unfold White.dispatch in Hd.
    destruct (White.handler ev d g) as [[d2 g2]| |]; try discriminate.
    injection Hd as _ Hq <-. apply Nat.ltb_ge in Hq. lia.
Qed.

Lemma Blue_gtk_main_quiet (evs : list event) :
  forall (d d' : Blue.data_t) (g g' : glib),
    Blue.gtk_main evs d g = Done ((d', false), g') ->
    (quit_calls g' <= quit_calls g)%nat.
Proof.
  induction evs as [|ev evs IH]; intros d d' g g' H.
  - injection H as _ <-. apply Nat.le_refl.
  - cbn [Blue.gtk_main] in H. unfold bind in H.
    destruct (Blue.dispatch ev d g) as [[[d1 q] g1]| |] eqn:Hd;
      try discriminate.
    cbn [fst snd] in H. destruct q; [discriminate|].
    apply IH in H. unfold Blue.dispatch in Hd.
    destruct (Blue.handler ev d g) as [[d2 g2]| |]; try discriminate.
    injection Hd as _ Hq <-. apply Nat.ltb_ge in Hq. lia.
Qed.

Lemma White_main_quiet (window cursor : Z) (evs : list event)
    (d : White.data_t) (g : glib) :
  White.main window cursor evs glib_init = Done ((d, Running), g) ->
  ~ In c_main_quit (trace g).
Proof.
  unfold White.main, bind, assert.
  destruct (negb (window =? 0)); [|discriminate].
  destruct (negb (cursor =? 0)); [|discriminate].
  unfold g_timeout_add.
  destruct (White.gtk_main evs _ _) as [[[d1 q] g1]| |] eqn:Hrun;
    try discriminate.
  cbn [fst snd]. destruct q; [discriminate|].
  intros H. injection H as _ <-.
  apply quit_calls_none. apply White_gtk_main_quiet in Hrun.
  cbn in Hrun. lia.
Qed.

Lemma Blue_main_quiet (window cursor : Z) (evs : list event)
    (d : Blue.data_t) (g : glib) :
  Blue.main window cursor evs glib_init = Done ((d, Running), g) ->
  ~ In c_main_quit (trace g).
Proof.
  unfold Blue.main, bind, assert.
  destruct (negb (window =? 0)); [|discriminate].
  destruct (negb (cursor =? 0)); [|discriminate].
  rewrite Blue_create_pattern_exec. cbv zeta. unfold g_timeout_add.
  destruct (Blue.gtk_main evs _ _) as [[[d1 q] g1]| |] eqn:Hrun;
    try discriminate.
  cbn [fst snd]. destruct q; [discriminate|].
  intros H. injection H as _ <-.
  apply quit_calls_none. apply Blue_gtk_main_quiet in Hrun.
  cbn in Hrun. lia.
Qed.

Lemma all_released (l : ledger) :
  ledger_ok l -> l_live l = [] ->
  forall h, In h (l_acquired l) -> In h (l_released l).
Proof.
  intros (_ & _ & _ & _ & _ & Hacq) Hlive h Hh.
  destruct (Hacq h Hh) as [H|H]; [assumption|].
  rewrite Hlive in H. contradiction.
Qed.

Lemma plausible_then_press (evs : list event) :
  Forall plausible_event evs ->
  Forall plausible_event (evs ++ [Press]) /\
  existsb is_press (evs ++ [Press]) = true.
Proof.
  intros H. split.
  - apply Forall_app. split; [assumption|]. repeat constructor.
  - rewrite existsb_app. cbn. apply orb_true_r.
Qed.

(** ** Further facts used below *)

Lemma Blue_on_draw_total (w : Z) (d : Blue.data_t) (g : glib) :
  0 < w <= GINT_MAX ->
  exists d1 g1,
    Blue.register_draw_timeout (PERIOD_MS / w) d g = Done (d1, g1) /\
    Blue.on_draw w d g =
      Done ((Blue.scale_x w d1, true),
            push c_paint
              (push (c_set_source (Blue.pattern (Blue.scale_x w d1)))
                 (push (c_scale w)
                    (push (c_translate (Blue.x (Blue.scale_x w d1))) g1)))) /\
    Blue.x d1 = Blue.x d /\ Blue.width d1 = Blue.width d /\
    Blue.pattern d1 = Blue.pattern d /\
    Blue.draw_timeout_interval d1 = PERIOD_MS / w.
Proof.
  intros Hw. rewrite Blue_on_draw_exec by lia.
  rewrite (to_guint_small w) by lia.
  destruct (Z.eq_dec (Blue.draw_timeout_interval d) (PERIOD_MS / w)) as [Heq|Hne].
  - rewrite Blue_register_same by assumption.
    exists d, g. repeat split; assumption.
  - rewrite Blue_register_changed by assumption.
    eexists. eexists. repeat split.
Qed.

Lemma lookup_pattern_head (p : Z) (v : pattern_t) (rest : list (Z * pattern_t)) :
  lookup_pattern p ((p, v) :: rest) = Some v.
Proof. cbn. now rewrite Z.eqb_refl. Qed.

(** The quotient of [PERIOD_MS] by a width, when it is not an integer, is
    at least [1 / w] below the next integer: the rounding of the [double]
    division in the white version cannot reach it. *)
Lemma draw_interval_margin (w : Z) :
  0 < w -> PERIOD_MS mod w <> 0 ->
  1 <= (PERIOD_MS / w + 1) * w - PERIOD_MS.
Proof.
  intros Hw Hr.
  pose proof (Z.div_mod PERIOD_MS w) as Hdm.
  pose proof (Z.mod_pos_bound PERIOD_MS w Hw) as Hb.
  nia.
Qed.

(** The state on which the overflow of the rescaling shows is the state of
    a run of the blue version: a draw at width 800, 799 ticks, a draw at
    width 65537, 81 ticks. *)
Lemma overflow_state_is_reached :
  exists g,
    Blue.main 1 1
      (Draw 800 :: repeat (Timeout 2 1) 799 ++
       Draw 65537 :: repeat (Timeout 3 1) 81) glib_init =
    Done ((Blue.mk_data 1 1 3 0 65536 65537, Running), g).
Proof. eexists. vm_compute. reflexivity. Qed.

(** * The properties of the description *)

(** ** C1: the offset cycles *)

(** C1.  For every width [w > 0] and every start offset, repeating the
    increment-and-wrap step [offset := (offset + 1) mod w] gives a sequence
    that goes through every value of [0 .. w-1] exactly once before it
    repeats: its period is exactly [w] steps, and from a start offset below
    [w] it is back at the start after [w] steps.  In the blue version the
    step is the draw timer; in the white version it is the draw timer
    followed by a redraw. *)
Theorem C1_increment_and_wrap_has_period_w :
  forall (w : Z) (d : Blue.data_t) (dw : White.data_t) (g : glib),
    0 < w <= GINT_MAX ->
    cycles_through w (Blue.offset_after (Blue.with_width d w) g) /\
    cycles_through w (White.offset_after w dw g) /\
    (0 <= Blue.x d < w ->
     Blue.offset_after (Blue.with_width d w) g (Z.to_nat w) = Some (Blue.x d)) /\
    (0 <= White.x dw < w ->
     White.offset_after w dw g (Z.to_nat w) = Some (White.x dw)).
Proof.
  intros w d dw g Hw.
  assert (Hback : forall v, 0 <= v < w ->
            (((v + 1) mod GUINT_MODULUS) mod w + Z.of_nat (Z.to_nat w - 1)) mod w = v).
  { intros v Hv. rewrite incr_wrap_small by assumption.
    rewrite Z.add_mod_idemp_l by lia.
    replace (v + 1 + Z.of_nat (Z.to_nat w - 1)) with (v + 1 * w) by lia.
    rewrite Z.mod_add by lia. apply Z.mod_small. assumption. }
  assert (Hsucc : Z.to_nat w = S (Z.to_nat w - 1)) by lia.
  split; [|split; [|split]].
  - apply (closed_form_cycles w (((Blue.x d + 1) mod GUINT_MODULUS) mod w)); [lia|].
    intros n. exact (Blue_offset_closed w (Blue.with_width d w) g n Hw eq_refl).
  - apply (closed_form_cycles w (((White.x dw + 1) mod GUINT_MODULUS) mod w)); [lia|].
    intros n. now apply White_offset_closed.
  - intros Hx. rewrite Hsucc.
    rewrite (Blue_offset_closed w (Blue.with_width d w) g _ Hw eq_refl).
    f_equal. now apply Hback.
  - intros Hx. rewrite Hsucc.
    rewrite (White_offset_closed w) by assumption.
    f_equal. now apply Hback.
Qed.

Lemma C1_increment_and_wrap_witness :
  cycles_through 800
    (Blue.offset_after (Blue.with_width (Blue.mk_data 1 1 2 5 0 800) 800) glib_init) /\
  cycles_through 800 (White.offset_after 800 (White.mk_data 1 1 2 0 800) glib_init) /\
  (0 <= 0 < 800 ->
   Blue.offset_after (Blue.with_width (Blue.mk_data 1 1 2 5 0 800) 800) glib_init
     (Z.to_nat 800) = Some 0) /\
  (0 <= 0 < 800 ->
   White.offset_after 800 (White.mk_data 1 1 2 0 800) glib_init (Z.to_nat 800) =
   Some 0).
Proof.
  apply (C1_increment_and_wrap_has_period_w 800 (Blue.mk_data 1 1 2 5 0 800)
           (White.mk_data 1 1 2 0 800) glib_init).
  unfold GINT_MAX. lia.
Defined.

(** ** C2: rescaling on a width change *)

(** The claim C2 fails in the blue version when [x * w2] does not fit a
    [guint] (the offset 65536 at width 65537 becomes 0 at width 65536, not
    65535), and in the white version, which does not rescale (the offset 400
    at width 800 stays 400 at width 1600). *)
Lemma C2_counterexample :
  (exists d' g',
     Blue.on_draw 65536 (Blue.mk_data 1 1 3 0 65536 65537) glib_init =
       Done ((d', true), g') /\
     Blue.x d' = 0 /\
     Blue.x d' <> 65536 * 65536 / 65537) /\
  (exists d' g',
     White.on_draw 1600 (White.mk_data 1 1 2 400 800) glib_init =
       Done ((d', true), g') /\
     White.x d' = 400 /\
     White.x d' <> 400 * 1600 / 800).
Proof.
  split; eexists; eexists; (split; [vm_compute; reflexivity|]);
    split; [reflexivity | vm_compute; discriminate
           | reflexivity | vm_compute; discriminate].
Qed.

(** C2, amended.  On a width change from [w1 > 0] to [w2 > 0] with the
    offset [x0 < w1], the new offset is in [0 .. w2-1].  In the blue version
    it is [floor (x0 * w2 / w1)] provided [x0 * w2] fits a [guint], that is
    [x0 * w2 < 2^32]; in the white version it is [x0 mod w2]. *)
Theorem C2_offset_after_width_change :
  forall (w1 w2 x0 : Z) (d : Blue.data_t) (dw : White.data_t) (g : glib),
    0 < w1 <= GINT_MAX -> 0 < w2 <= GINT_MAX -> 0 <= x0 < w1 ->
    (exists d' g',
       Blue.on_draw w2 (Blue.with_x (Blue.with_width d w1) x0) g =
         Done ((d', true), g') /\
       Blue.width d' = w2 /\
       0 <= Blue.x d' < w2 /\
       (x0 * w2 < GUINT_MODULUS -> Blue.x d' = x0 * w2 / w1)) /\
    (exists d' g',
       White.on_draw w2 (White.with_x (White.with_last_width dw w1) x0) g =
         Done ((d', true), g') /\
       White.last_width d' = w2 /\
       White.x d' = x0 mod w2 /\
       0 <= White.x d' < w2).
Proof.
  intros w1 w2 x0 d dw g Hw1 Hw2 Hx. split.
  - destruct (Blue_on_draw_total w2 (Blue.with_x (Blue.with_width d w1) x0) g Hw2)
      as (d1 & g1 & _ & Hrun & Hx1 & Hwd1 & _).
    rewrite Hrun. eexists. eexists. split; [reflexivity|].
    split; [apply Blue_scale_x_width|].
    cbn in Hx1, Hwd1.
    destruct (Blue_scale_x_offset w1 w2 d1 Hw1 Hw2 Hwd1) as [Hr Hf]; [lia|].
    rewrite Hx1 in Hf. split; assumption.
  - destruct (White_on_draw_offset w2
                (White.with_x (White.with_last_width dw w1) x0) g Hw2)
      as (d' & g' & Hrun & Hx' & Hlw & _).
    exists d', g'. cbn in Hx'. split; [assumption|]. split; [assumption|].
    split; [assumption|]. rewrite Hx'. apply Z.mod_pos_bound. lia.
Qed.

Lemma C2_offset_after_width_change_witness :
  (exists d' g',
     Blue.on_draw 1600
       (Blue.with_x (Blue.with_width (Blue.mk_data 1 1 2 5 0 0) 800) 400)
       glib_init = Done ((d', true), g') /\
     Blue.width d' = 1600 /\
     0 <= Blue.x d' < 1600 /\
     (400 * 1600 < GUINT_MODULUS -> Blue.x d' = 400 * 1600 / 800)) /\
  (exists d' g',
     White.on_draw 1600
       (White.with_x (White.with_last_width (White.mk_data 1 1 2 0 0) 800) 400)
       glib_init = Done ((d', true), g') /\
     White.last_width d' = 1600 /\
     White.x d' = 400 mod 1600 /\
     0 <= White.x d' < 1600).
Proof.
  apply (C2_offset_after_width_change 800 1600 400 (Blue.mk_data 1 1 2 5 0 0)
           (White.mk_data 1 1 2 0 0) glib_init);
    unfold GINT_MAX; lia.
Defined.

(** ** C3: the repaint interval *)

(** The claim C3 fails for a window wider than 4000 pixels: the interval is
    0, not 1.  The white version registers the draw timer with interval 0;
    so does the blue version when the interval was not 0 before. *)
Lemma C3_counterexample :
  (exists d g,
     White.main 1 1 [Draw 5000] glib_init = Done ((d, Running), g) /\
     find_source (White.draw_timeout_id d) g =
       Some (mk_source 2 0 cb_on_draw_timer)) /\
  (exists d g,
     Blue.main 1 1 [Draw 800; Draw 5000] glib_init = Done ((d, Running), g) /\
     Blue.draw_timeout_interval d = 0 /\
     find_source (Blue.draw_timeout_id d) g =
       Some (mk_source 3 0 cb_on_draw_timer)).
Proof.
  split; eexists; eexists; (split; [vm_compute; reflexivity|]).
  - reflexivity.
  - split; reflexivity.
Qed.

(** C3, amended.  For every new width [w > 0] the repaint interval is the
    truncated quotient [PERIOD_MS / w] with [PERIOD_MS = 4000], not clamped:
    it is 0 exactly when [w > PERIOD_MS].  The blue version stores it and
    registers a draw timer with it when it differs from the stored interval;
    the white version registers a draw timer with it when the width differs
    from the stored width.  For the width 800 the interval is 5 ms. *)
Theorem C3_repaint_interval_is_truncated_quotient :
  forall (w : Z) (d : Blue.data_t) (dw : White.data_t) (g : glib),
    0 < w <= GINT_MAX ->
    (exists d' g',
       Blue.on_draw w d g = Done ((d', true), g') /\
       Blue.draw_timeout_interval d' = PERIOD_MS / w /\
       (Blue.draw_timeout_interval d <> PERIOD_MS / w ->
        hd_error (sources g') =
          Some (mk_source (Blue.draw_timeout_id d') (PERIOD_MS / w)
                  cb_on_draw_timer)) /\
       (Blue.draw_timeout_interval d = PERIOD_MS / w ->
        sources g' = sources g)) /\
    (exists d' g',
       White.on_draw w dw g = Done ((d', true), g') /\
       (White.last_width dw <> w ->
        hd_error (sources g') =
          Some (mk_source (White.draw_timeout_id d') (PERIOD_MS / w)
                  cb_on_draw_timer)) /\
       (White.last_width dw = w -> sources g' = sources g)) /\
    (PERIOD_MS / w = 0 <-> PERIOD_MS < w) /\
    PERIOD_MS / 800 = 5.
Proof.
  intros w d dw g Hw. split; [|split; [|split]].
  - rewrite Blue_on_draw_exec by lia.
    rewrite (to_guint_small w) by lia.
    destruct (Z.eq_dec (Blue.draw_timeout_interval d) (PERIOD_MS / w)) as [Heq|Hne].
    + rewrite Blue_register_same by assumption.
      eexists. eexists. split; [reflexivity|].
      destruct (Blue_scale_x_fields w d) as (_ & _ & _ & Hi).
      split; [congruence|]. split; [intros H; now contradiction H|].
      intros _. reflexivity.
    + rewrite Blue_register_changed by assumption.
      eexists. eexists. split; [reflexivity|].
      match goal with
      | |- context [Blue.scale_x w ?d1] =>
          destruct (Blue_scale_x_fields w d1) as (_ & _ & Hid & Hi)
      end.
      split; [exact Hi|]. split; [|intros H; now contradiction Hne].
      intros _. rewrite Hid. cbn.
      destruct (Blue.draw_timeout_id d =? 0); reflexivity.
  - destruct (Z.eq_dec (White.last_width dw) w) as [Heq|Hne].
    + rewrite White_on_draw_same by assumption.
      eexists. eexists. split; [reflexivity|].
      split; [intros H; now contradiction H|]. intros _. reflexivity.
    + rewrite White_on_draw_changed by assumption.
      destruct (White_rebuild_facts w dw g)
        as (d1 & g1 & Hrun & Hd1 & Hsrc & _); [lia|].
      rewrite Hrun. eexists. eexists. split; [reflexivity|].
      split; [|intros H; now contradiction Hne].
      intros _. cbn [sources push]. rewrite Hsrc. subst d1. reflexivity.
  - unfold PERIOD_MS. split.
    + intros H. apply Z.div_small_iff in H; lia.
    + intros H. apply Z.div_small. lia.
  - reflexivity.
Qed.

Lemma C3_repaint_interval_witness :
  (exists d' g',
     Blue.on_draw 800 (Blue.mk_data 1 1 0 0 0 0) glib_init = Done ((d', true), g') /\
     Blue.draw_timeout_interval d' = PERIOD_MS / 800 /\
     (Blue.draw_timeout_interval (Blue.mk_data 1 1 0 0 0 0) <> PERIOD_MS / 800 ->
      hd_error (sources g') =
        Some (mk_source (Blue.draw_timeout_id d') (PERIOD_MS / 800)
                cb_on_draw_timer)) /\
     (Blue.draw_timeout_interval (Blue.mk_data 1 1 0 0 0 0) = PERIOD_MS / 800 ->
      sources g' = sources glib_init)) /\
  (exists d' g',
     White.on_draw 800 (White.mk_data 1 0 0 0 0) glib_init = Done ((d', true), g') /\
     (White.last_width (White.mk_data 1 0 0 0 0) <> 800 ->
      hd_error (sources g') =
        Some (mk_source (White.draw_timeout_id d') (PERIOD_MS / 800)
                cb_on_draw_timer)) /\
     (White.last_width (White.mk_data 1 0 0 0 0) = 800 ->
      sources g' = sources glib_init)) /\
  (PERIOD_MS / 800 = 0 <-> PERIOD_MS < 800) /\
  PERIOD_MS / 800 = 5.
Proof.
  apply (C3_repaint_interval_is_truncated_quotient 800 (Blue.mk_data 1 1 0 0 0 0)
           (White.mk_data 1 0 0 0 0) glib_init).
  unfold GINT_MAX. lia.
Defined.

(** ** C4: the offset stays below the width *)

(** The claim C4 fails in the white version: its draw timer does not wrap,
    so after a draw at width 800 and 800 firings of the timer the offset is
    800, at the width. *)
Lemma C4_counterexample :
  exists d g,
    White.main 1 1 (Draw 800 :: repeat (Timeout 2 1) 800) glib_init =
      Done ((d, Running), g) /\
    0 < White.last_width d /\
    ~ White.x d < White.last_width d.
Proof.
  eexists. eexists. split; [vm_compute; reflexivity|].
  split; [reflexivity|]. vm_compute. discriminate.
Qed.

(** C4, amended.  In the blue version [x < width] holds whenever
    [width > 0], at every point of every run: the draw timer, the redraw and
    the width change keep it.  In the white version the draw timer only
    increments the offset, and every redraw leaves the offset below the
    width it has drawn at. *)
Theorem C4_offset_below_width :
  forall (window cursor w : Z) (evs : list event) (dw : White.data_t) (g : glib),
    window <> 0 -> cursor <> 0 -> Forall plausible_event evs ->
    0 < w <= GINT_MAX ->
    (exists d st g',
       Blue.main window cursor evs glib_init = Done ((d, st), g') /\
       (0 < Blue.width d -> 0 <= Blue.x d < Blue.width d)) /\
    (exists d' g',
       White.on_draw w dw g = Done ((d', true), g') /\
       White.last_width d' = w /\
       0 <= White.x d' < White.last_width d').
Proof.
  intros window cursor w evs dw g Hwin Hcur Hevs Hw. split.
  - destruct (Blue_main_run window cursor evs Hwin Hcur Hevs)
      as (d & g' & Hrun & _ & (_ & _ & Hpos) & _).
    exists d. eexists. exists g'. split; [exact Hrun|].
    intros H. apply Hpos, H.
  - destruct (White_on_draw_offset w dw g Hw) as (d' & g' & Hrun & Hx & Hlw & _).
    exists d', g'. split; [assumption|]. split; [assumption|].
    rewrite Hx, Hlw. apply Z.mod_pos_bound. lia.
Qed.

Lemma C4_offset_below_width_witness :
  (exists d st g',
     Blue.main 1 1 [Draw 800; Timeout 2 1; Draw 1600; Press] glib_init =
       Done ((d, st), g') /\
     (0 < Blue.width d -> 0 <= Blue.x d < Blue.width d)) /\
  (exists d' g',
     White.on_draw 800 (White.mk_data 1 1 2 800 800) glib_init =
       Done ((d', true), g') /\
     White.last_width d' = 800 /\
     0 <= White.x d' < White.last_width d').
Proof.
  apply (C4_offset_below_width 1 1 800 [Draw 800; Timeout 2 1; Draw 1600; Press]
           (White.mk_data 1 1 2 800 800) glib_init).
  - lia.
  - lia.
  - repeat constructor; unfold GINT_MAX; cbn; lia.
  - unfold GINT_MAX. lia.
Defined.

(** ** C5: the draw timer *)

(** The claim C5 fails in the white version: its draw timer does not wrap
    the offset (799 at width 800 becomes 800, not 0) and has no assertion
    (it returns at a stored width of 0). *)
Lemma C5_counterexample :
  (exists d',
     White.on_draw_timer (White.mk_data 1 1 2 799 800) glib_init =
       Done ((d', true), push (c_widget_queue_draw 1) glib_init) /\
     White.x d' = 800 /\
     White.x d' <> (799 + 1) mod 800) /\
  (exists r g',
     White.on_draw_timer (White.mk_data 1 0 0 0 0) glib_init = Done (r, g')).
Proof.
  split.
  - eexists. split; [reflexivity|]. split; [reflexivity|]. vm_compute. discriminate.
  - eexists. eexists. reflexivity.
Qed.

(** C5, amended.  In the blue version the draw timer sets the offset to
    [(x + 1) mod width] and asks for a redraw; it fails its assertion when
    the width is 0 and cannot fail when the width is positive.  In the white
    version the draw timer only increments the offset (modulo [2^32]) and
    cannot fail; the offset is reduced modulo the width by [on_draw], which
    returns for every positive width, and whose modulo by a width of 0 is
    not guarded by an assertion. *)
Theorem C5_draw_timer_step :
  forall (w : Z) (d : Blue.data_t) (dw : White.data_t) (g : glib),
    0 < w <= GINT_MAX ->
    Blue.on_draw_timer (Blue.with_width d 0) g = AssertionFailed /\
    Blue.on_draw_timer (Blue.with_width d w) g =
      Done ((Blue.with_x (Blue.with_width d w)
               (((Blue.x d + 1) mod GUINT_MODULUS) mod w), true),
            push (c_widget_queue_draw (Blue.window d)) g) /\
    White.on_draw_timer dw g =
      Done ((White.with_x dw ((White.x dw + 1) mod GUINT_MODULUS), true),
            push (c_widget_queue_draw (White.window dw)) g) /\
    (exists d' g',
       White.on_draw w dw g = Done ((d', true), g') /\
       White.x d' = White.x dw mod w) /\
    White.on_draw 0 dw g = UndefinedBehaviour.
Proof.
  intros w d dw g Hw. split; [|split; [|split; [|split]]].
  - apply Blue_on_draw_timer_assert. reflexivity.
  - rewrite Blue_on_draw_timer_exec by (cbn; lia).
    cbn [Blue.width Blue.with_width Blue.x Blue.window].
    rewrite (to_guint_small w) by lia. reflexivity.
  - reflexivity.
  - destruct (White_on_draw_offset w dw g Hw) as (d' & g' & Hrun & Hx & _).
    exists d', g'. split; assumption.
  - unfold White.on_draw, bind. change (to_guint 0) with 0.
    destruct (White.last_width dw =? 0); [reflexivity|].
    unfold White.rebuild, bind. rewrite White_free_exec. reflexivity.
Qed.

Lemma C5_draw_timer_step_witness :
  Blue.on_draw_timer (Blue.with_width (Blue.mk_data 1 1 2 5 799 800) 0) glib_init =
    AssertionFailed /\
  Blue.on_draw_timer (Blue.with_width (Blue.mk_data 1 1 2 5 799 800) 800) glib_init =
    Done ((Blue.with_x (Blue.with_width (Blue.mk_data 1 1 2 5 799 800) 800)
             (((Blue.x (Blue.mk_data 1 1 2 5 799 800) + 1) mod GUINT_MODULUS)
              mod 800), true),
          push (c_widget_queue_draw (Blue.window (Blue.mk_data 1 1 2 5 799 800)))
            glib_init) /\
  White.on_draw_timer (White.mk_data 1 1 2 799 800) glib_init =
    Done ((White.with_x (White.mk_data 1 1 2 799 800)
             ((White.x (White.mk_data 1 1 2 799 800) + 1) mod GUINT_MODULUS),
           true),
          push (c_widget_queue_draw (White.window (White.mk_data 1 1 2 799 800)))
            glib_init) /\
  (exists d' g',
     White.on_draw 800 (White.mk_data 1 1 2 799 800) glib_init =
       Done ((d', true), g') /\
     White.x d' = White.x (White.mk_data 1 1 2 799 800) mod 800) /\
  White.on_draw 0 (White.mk_data 1 1 2 799 800) glib_init = UndefinedBehaviour.
Proof.
  apply (C5_draw_timer_step 800 (Blue.mk_data 1 1 2 5 799 800)
           (White.mk_data 1 1 2 799 800) glib_init).
  unfold GINT_MAX. lia.
Defined.

(** ** C6: a redraw at the same width *)

(** C6.  When the stored width is the width of the redraw, the redraw
    touches neither the pattern nor the draw timer: the data keeps its
    pattern and its timer, the live sources and the live patterns are the
    same, and the only calls made are drawing calls.  For the blue version
    this is stated of the states of its runs. *)
Theorem C6_same_width_is_noop :
  forall (window cursor w : Z) (evs : list event) (dw : White.data_t) (gw : glib),
    window <> 0 -> cursor <> 0 -> Forall plausible_event evs ->
    0 < w <= GINT_MAX -> White.last_width dw = w ->
    (exists d' g' calls,
       White.on_draw w dw gw = Done ((d', true), g') /\
       White.pattern d' = White.pattern dw /\
       White.draw_timeout_id d' = White.draw_timeout_id dw /\
       sources g' = sources gw /\
       patterns g' = patterns gw /\
       trace g' = calls ++ trace gw /\
       forallb drawing_call calls = true) /\
    (forall d g,
       Blue.main window cursor evs glib_init = Done ((d, Running), g) ->
       Blue.width d = w ->
       exists g' calls,
         Blue.on_draw w d g = Done ((d, true), g') /\
         sources g' = sources g /\
         patterns g' = patterns g /\
         trace g' = calls ++ trace g /\
         forallb drawing_call calls = true).
Proof.
  intros window cursor w evs dw gw Hwin Hcur Hevs Hw Hlw. split.
  - rewrite White_on_draw_same by assumption.
    eexists. eexists.
    exists [c_paint; c_set_source (White.pattern dw);
            c_translate (White.x dw mod w)].
    split; [reflexivity|]. repeat split.
  - intros d g Hrun Hwd.
    destruct (Blue_main_run window cursor evs Hwin Hcur Hevs)
      as (d1 & g1 & Hrun1 & _ & _ & Hcase).
    rewrite Hrun in Hrun1.
    destruct (existsb is_press evs); [discriminate|].
    injection Hrun1 as <- <-.
    destruct Hcase as (_ & (_ & _ & Hpos) & _ & _).
    assert (Hint : Blue.draw_timeout_interval d = PERIOD_MS / w).
    { rewrite <- Hwd. apply Hpos. lia. }
    rewrite Blue_on_draw_exec by lia.
    rewrite (to_guint_small w) by lia.
    rewrite Blue_register_same by assumption.
    assert (Hsame : Blue.scale_x w d = d).
    { unfold Blue.scale_x. apply Z.eqb_eq in Hwd. now rewrite Hwd. }
    rewrite Hsame.
    eexists.
    exists [c_paint; c_set_source (Blue.pattern d); c_scale w;
            c_translate (Blue.x d)].
    split; [reflexivity|]. repeat split.
Qed.

Lemma C6_same_width_is_noop_witness :
  (exists d' g' calls,
     White.on_draw 800 (White.mk_data 1 1 2 17 800) glib_init =
       Done ((d', true), g') /\
     White.pattern d' = White.pattern (White.mk_data 1 1 2 17 800) /\
     White.draw_timeout_id d' = White.draw_timeout_id (White.mk_data 1 1 2 17 800) /\
     sources g' = sources glib_init /\
     patterns g' = patterns glib_init /\
     trace g' = calls ++ trace glib_init /\
     forallb drawing_call calls = true) /\
  (forall d g,
     Blue.main 1 1 [Draw 800; Timeout 2 1] glib_init = Done ((d, Running), g) ->
     Blue.width d = 800 ->
     exists g' calls,
       Blue.on_draw 800 d g = Done ((d, true), g') /\
       sources g' = sources g /\
       patterns g' = patterns g /\
       trace g' = calls ++ trace g /\
       forallb drawing_call calls = true).
Proof.
  apply (C6_same_width_is_noop 1 1 800 [Draw 800; Timeout 2 1]
           (White.mk_data 1 1 2 17 800) glib_init).
  - lia.
  - lia.
  - repeat constructor; unfold GINT_MAX; cbn; lia.
  - unfold GINT_MAX. lia.
  - reflexivity.
Defined.

(** ** C7: the gradient *)

(** C7.  For any width the gradient pattern that the program builds has
    exactly four colour stops, at the positions 0, [BAR_FRACTION],
    [BAR_FRACTION], 1 in this order, with [BAR_FRACTION = 3/8] between 0 and
    1; the first two stops carry the colour of the bar (white in the white
    version, the blue tint in the blue version) and the last two carry
    black, so that the two bands meet at [BAR_FRACTION].  The white version
    builds the pattern in [on_draw] when the width changes; the blue version
    builds it once in [main] and keeps it through every run. *)
Theorem C7_gradient_has_four_stops :
  forall (window cursor w : Z) (evs : list event) (dw : White.data_t) (gw : glib),
    window <> 0 -> cursor <> 0 -> Forall plausible_event evs ->
    existsb is_press evs = false ->
    0 < w <= GINT_MAX -> White.last_width dw <> w ->
    (exists d' g' v,
       White.on_draw w dw gw = Done ((d', true), g') /\
       lookup_pattern (White.pattern d') (patterns g') = Some v /\
       pat_stops v =
         [mk_stop 0 (mk_rgb 1 1 1); mk_stop BAR_FRACTION (mk_rgb 1 1 1);
          mk_stop BAR_FRACTION (mk_rgb 0 0 0); mk_stop 1 (mk_rgb 0 0 0)] /\
       pat_extend v = CAIRO_EXTEND_REPEAT) /\
    (exists d g v,
       Blue.main window cursor evs glib_init = Done ((d, Running), g) /\
       lookup_pattern (Blue.pattern d) (patterns g) = Some v /\
       pat_stops v =
         [mk_stop 0 (mk_rgb Blue.BAR_COLOUR_R Blue.BAR_COLOUR_G Blue.BAR_COLOUR_B);
          mk_stop BAR_FRACTION
            (mk_rgb Blue.BAR_COLOUR_R Blue.BAR_COLOUR_G Blue.BAR_COLOUR_B);
          mk_stop BAR_FRACTION (mk_rgb 0 0 0); mk_stop 1 (mk_rgb 0 0 0)] /\
       pat_extend v = CAIRO_EXTEND_REPEAT) /\
    BAR_FRACTION = 3 # 8 /\
    (0 <= BAR_FRACTION)%Q /\ (BAR_FRACTION <= 1)%Q.
Proof.
  intros window cursor w evs dw gw Hwin Hcur Hevs Hnp Hw Hlw.
  split; [|split; [|split; [|split]]].
  - rewrite White_on_draw_changed by assumption.
    destruct (White_rebuild_facts w dw gw)
      as (d1 & g1 & Hrun & Hd1 & _ & Hpat & _); [lia|].
    rewrite Hrun. eexists. eexists. exists (White.gradient w).
    split; [reflexivity|]. subst d1.
    cbn [White.pattern White.with_x White.with_last_width patterns push].
    rewrite Hpat. split; [apply lookup_pattern_head|]. split; reflexivity.
  - destruct (Blue_main_run window cursor evs Hwin Hcur Hevs)
      as (d & g & Hrun & _ & _ & Hcase).
    rewrite Hnp in Hrun, Hcase.
    destruct Hcase as (_ & _ & _ & Hpat).
    exists d, g, Blue.gradient. split; [exact Hrun|].
    rewrite Hpat. split; [apply lookup_pattern_head|]. split; reflexivity.
  - reflexivity.
  - unfold BAR_FRACTION, Qle; cbn. lia.
  - unfold BAR_FRACTION, Qle; cbn. lia.
Qed.

Lemma C7_gradient_has_four_stops_witness :
  (exists d' g' v,
     White.on_draw 800 (White.mk_data 1 0 0 0 0) glib_init = Done ((d', true), g') /\
     lookup_pattern (White.pattern d') (patterns g') = Some v /\
     pat_stops v =
       [mk_stop 0 (mk_rgb 1 1 1); mk_stop BAR_FRACTION (mk_rgb 1 1 1);
        mk_stop BAR_FRACTION (mk_rgb 0 0 0); mk_stop 1 (mk_rgb 0 0 0)] /\
     pat_extend v = CAIRO_EXTEND_REPEAT) /\
  (exists d g v,
     Blue.main 1 1 [Draw 800; Timeout 2 1; Draw 1600] glib_init =
       Done ((d, Running), g) /\
     lookup_pattern (Blue.pattern d) (patterns g) = Some v /\
     pat_stops v =
       [mk_stop 0 (mk_rgb Blue.BAR_COLOUR_R Blue.BAR_COLOUR_G Blue.BAR_COLOUR_B);
        mk_stop BAR_FRACTION
          (mk_rgb Blue.BAR_COLOUR_R Blue.BAR_COLOUR_G Blue.BAR_COLOUR_B);
        mk_stop BAR_FRACTION (mk_rgb 0 0 0); mk_stop 1 (mk_rgb 0 0 0)] /\
     pat_extend v = CAIRO_EXTEND_REPEAT) /\
  BAR_FRACTION = 3 # 8 /\
  (0 <= BAR_FRACTION)%Q /\ (BAR_FRACTION <= 1)%Q.
Proof.
  apply (C7_gradient_has_four_stops 1 1 800 [Draw 800; Timeout 2 1; Draw 1600]
           (White.mk_data 1 0 0 0 0) glib_init).
  - lia.
  - lia.
  - repeat constructor; unfold GINT_MAX; cbn; lia.
  - reflexivity.
  - unfold GINT_MAX. lia.
  - cbn. lia.
Defined.

(** ** C8: shutdown *)

(** C8.  A key press or a button press, at whatever point of a run, ends
    the program with status 0: until then [gtk_main_quit] has not been
    called and the main loop goes on; the callback of the press destroys the
    window, whose "destroy" callback calls [gtk_main_quit], so that
    [gtk_main] returns to [main].  The idle-suppression timer (the source 1,
    alive until then) is removed, the draw timer of the moment, if there is
    one, is removed, the pattern of the moment is destroyed; no timeout
    source and no pattern is left alive: every source that was added has
    been removed and every pattern that was created has been destroyed. *)
Theorem C8_press_shuts_down :
  forall (window cursor : Z) (evs : list event),
    window <> 0 -> cursor <> 0 ->
    Forall plausible_event evs -> existsb is_press evs = false ->
    (exists d g d' g',
       White.main window cursor evs glib_init = Done ((d, Running), g) /\
       White.main window cursor (evs ++ [Press]) glib_init =
         Done ((d', Exited 0), g') /\
       ~ In c_main_quit (trace g) /\ In c_main_quit (trace g') /\
       (exists s, find_source 1 g = Some s /\
                  source_callback s = cb_on_screensaver_suppression_timer) /\
       In 1 (removed_sources (trace g')) /\
       (White.draw_timeout_id d <> 0 ->
        In (White.draw_timeout_id d) (removed_sources (trace g'))) /\
       (White.pattern d <> 0 ->
        In (White.pattern d) (destroyed_patterns (trace g'))) /\
       sources g' = [] /\ patterns g' = [] /\
       (forall id, In id (added_sources (trace g')) ->
                   In id (removed_sources (trace g'))) /\
       (forall p, In p (created_patterns (trace g')) ->
                  In p (destroyed_patterns (trace g')))) /\
    (exists d g d' g',
       Blue.main window cursor evs glib_init = Done ((d, Running), g) /\
       Blue.main window cursor (evs ++ [Press]) glib_init =
         Done ((d', Exited 0), g') /\
       ~ In c_main_quit (trace g) /\ In c_main_quit (trace g') /\
       (exists s, find_source 1 g = Some s /\
                  source_callback s = cb_on_screensaver_suppression_timer) /\
       In 1 (removed_sources (trace g')) /\
       (Blue.draw_timeout_id d <> 0 ->
        In (Blue.draw_timeout_id d) (removed_sources (trace g'))) /\
       In (Blue.pattern d) (destroyed_patterns (trace g')) /\
       sources g' = [] /\ patterns g' = [] /\
       (forall id, In id (added_sources (trace g')) ->
                   In id (removed_sources (trace g'))) /\
       (forall p, In p (created_patterns (trace g')) ->
                  In p (destroyed_patterns (trace g')))).
Proof.
  intros window cursor evs Hwin Hcur Hevs Hnp.
  destruct (plausible_then_press evs Hevs) as [Hall Hpress]. split.
  - destruct (White_main_start window cursor Hwin Hcur) as (d0 & g0 & Hinv & Hmain).
    destruct (White_gtk_main_inv 1 evs Hevs d0 g0 Hinv)
      as (d & g & Hrun & (_ & Hown & _) & _).
    rewrite Hnp in Hrun.
    destruct (White_main_run window cursor _ Hwin Hcur Hall)
      as (d2 & g2 & Hrun2 & [Hws Hwp] & Hcase).
    rewrite Hpress in Hrun2, Hcase. destruct Hcase as (Hsrc & Hpat & _).
    pose proof Hrun2 as Hform.
    rewrite Hmain, White_gtk_main_app, Hrun, White_press_exec in Hform.
    injection Hform as Hd2 Hg2.
    exists d, g, d2, g2.
    assert (Hrun1 : White.main window cursor evs glib_init = Done ((d, Running), g))
      by (rewrite Hmain, Hrun; reflexivity).
    split; [exact Hrun1|].
    split; [exact Hrun2|].
    split; [exact (White_main_quiet _ _ _ _ _ Hrun1)|].
    split; [rewrite <- Hg2; right; now left|].
    split; [exact (find_source_supp _ _ _ Hown)|].
    split; [rewrite <- Hg2; now left|].
    split; [|split].
    + intros Hid. rewrite <- Hg2. cbn. right.
      destruct (White.pattern d =? 0);
        destruct (Z.eqb_spec (White.draw_timeout_id d) 0);
        try contradiction; cbn; now left.
    + intros Hp. rewrite <- Hg2. cbn.
      destruct (Z.eqb_spec (White.pattern d) 0); [contradiction|].
      cbn. now left.
    + split; [assumption|]. split; [assumption|]. split.
      * apply (all_released _ Hws). cbn. unfold source_ids. now rewrite Hsrc.
      * apply (all_released _ Hwp). cbn. unfold pattern_ids. now rewrite Hpat.
  - destruct (Blue_main_start window cursor Hwin Hcur) as (d0 & g0 & Hinv & Hmain).
    destruct (Blue_gtk_main_inv 1 evs Hevs d0 g0 Hinv)
      as (d & g & Hrun & (_ & _ & Hown & _) & _).
    rewrite Hnp in Hrun.
    destruct (Blue_main_run window cursor _ Hwin Hcur Hall)
      as (d2 & g2 & Hrun2 & [Hws Hwp] & _ & Hcase).
    rewrite Hpress in Hrun2, Hcase. destruct Hcase as (Hsrc & Hpat & _).
    pose proof Hrun2 as Hform.
    rewrite Hmain, Blue_gtk_main_app, Hrun, Blue_press_exec in Hform.
    exists d, g, d2, g2.
    assert (Hrun1 : Blue.main window cursor evs glib_init = Done ((d, Running), g))
      by (rewrite Hmain, Hrun; reflexivity).
    split; [exact Hrun1|].
    split; [exact Hrun2|].
    split; [exact (Blue_main_quiet _ _ _ _ _ Hrun1)|].
    assert (Hquit : In c_main_quit (trace g2)).
    { destruct (Blue.draw_timeout_id d =? 0);
        injection Hform as _ <-; right; right; now left. }
    split; [exact Hquit|].
    split; [exact (find_source_supp _ _ _ Hown)|].
    destruct (Z.eqb_spec (Blue.draw_timeout_id d) 0) as [Hz|Hnz];
      injection Hform as Hd2 Hg2; rewrite <- Hg2.
    + split; [cbn; now left|]. split; [intros H; contradiction|].
      split; [cbn; now left|].
      rewrite Hg2. split; [assumption|]. split; [assumption|]. split.
      * apply (all_released _ Hws). cbn. unfold source_ids. now rewrite Hsrc.
      * apply (all_released _ Hwp). cbn. unfold pattern_ids. now rewrite Hpat.
    + split; [cbn; now left|]. split; [intros _; cbn; right; now left|].
      split; [cbn; now left|].
      rewrite Hg2. split; [assumption|]. split; [assumption|]. split.
      * apply (all_released _ Hws). cbn. unfold source_ids. now rewrite Hsrc.
      * apply (all_released _ Hwp). cbn. unfold pattern_ids. now rewrite Hpat.
Qed.

Lemma C8_press_shuts_down_witness :
  (exists d g d' g',
     White.main 1 1 [Draw 800; Timeout 2 1; Draw 1600] glib_init =
       Done ((d, Running), g) /\
     White.main 1 1 ([Draw 800; Timeout 2 1; Draw 1600] ++ [Press]) glib_init =
       Done ((d', Exited 0), g') /\
     ~ In c_main_quit (trace g) /\ In c_main_quit (trace g') /\
     (exists s, find_source 1 g = Some s /\
                source_callback s = cb_on_screensaver_suppression_timer) /\
     In 1 (removed_sources (trace g')) /\
     (White.draw_timeout_id d <> 0 ->
      In (White.draw_timeout_id d) (removed_sources (trace g'))) /\
     (White.pattern d <> 0 ->
      In (White.pattern d) (destroyed_patterns (trace g'))) /\
     sources g' = [] /\ patterns g' = [] /\
     (forall id, In id (added_sources (trace g')) ->
                 In id (removed_sources (trace g'))) /\
     (forall p, In p (created_patterns (trace g')) ->
                In p (destroyed_patterns (trace g')))) /\
  (exists d g d' g',
     Blue.main 1 1 [Draw 800; Timeout 2 1; Draw 1600] glib_init =
       Done ((d, Running), g) /\
     Blue.main 1 1 ([Draw 800; Timeout 2 1; Draw 1600] ++ [Press]) glib_init =
       Done ((d', Exited 0), g') /\
     ~ In c_main_quit (trace g) /\ In c_main_quit (trace g') /\
     (exists s, find_source 1 g = Some s /\
                source_callback s = cb_on_screensaver_suppression_timer) /\
     In 1 (removed_sources (trace g')) /\
     (Blue.draw_timeout_id d <> 0 ->
      In (Blue.draw_timeout_id d) (removed_sources (trace g'))) /\
     In (Blue.pattern d) (destroyed_patterns (trace g')) /\
     sources g' = [] /\ patterns g' = [] /\
     (forall id, In id (added_sources (trace g')) ->
                 In id (removed_sources (trace g'))) /\
     (forall p, In p (created_patterns (trace g')) ->
                In p (destroyed_patterns (trace g')))).
Proof.
  apply (C8_press_shuts_down 1 1 [Draw 800; Timeout 2 1; Draw 1600]).
  - lia.
  - lia.
  - repeat constructor; unfold GINT_MAX; cbn; lia.
  - reflexivity.
Defined.

(** ** C9: idle suppression *)

(** The claim C9 fails when there is no X display: the callback fails its
    assertion and the program is aborted, in both versions. *)
Lemma C9_counterexample :
  on_screensaver_suppression_timer 0 glib_init = AssertionFailed /\
  White.main 1 1 [Timeout 1 0] glib_init = AssertionFailed /\
  Blue.main 1 1 [Timeout 1 0] glib_init = AssertionFailed.
Proof. repeat split. Qed.

(** C9, amended.  Each firing of the idle-suppression timer asserts that
    the X display exists: with a display the callback warps the pointer by
    zero pixels, ignores the result, and keeps the timer; without a display
    it fails the assertion, and the program is aborted at whatever point of
    a run this happens, in both versions. *)
Theorem C9_idle_suppression_asserts_display :
  forall (display window cursor : Z) (g : glib) (evs : list event),
    window <> 0 -> cursor <> 0 ->
    Forall plausible_event evs -> existsb is_press evs = false ->
    on_screensaver_suppression_timer display g =
      (if display =? 0 then AssertionFailed
       else Done (true, push (c_warp_pointer display) g)) /\
    White.main window cursor (evs ++ [Timeout 1 0]) glib_init = AssertionFailed /\
    Blue.main window cursor (evs ++ [Timeout 1 0]) glib_init = AssertionFailed.
Proof.
  intros display window cursor g evs Hwin Hcur Hevs Hnp.
  split; [apply suppression_timer_exec|]. split.
  - destruct (White_main_start window cursor Hwin Hcur) as (d0 & g0 & Hinv & Hmain).
    rewrite Hmain, (White_no_display_aborts evs d0 g0 Hinv Hevs Hnp). reflexivity.
  - destruct (Blue_main_start window cursor Hwin Hcur) as (d0 & g0 & Hinv & Hmain).
    rewrite Hmain, (Blue_no_display_aborts evs d0 g0 Hinv Hevs Hnp). reflexivity.
Qed.

Lemma C9_idle_suppression_witness :
  on_screensaver_suppression_timer 7 glib_init =
    (if 7 =? 0 then AssertionFailed
     else Done (true, push (c_warp_pointer 7) glib_init)) /\
  White.main 1 1 ([Draw 800; Timeout 2 7; Timeout 1 7] ++ [Timeout 1 0]) glib_init =
    AssertionFailed /\
  Blue.main 1 1 ([Draw 800; Timeout 2 7; Timeout 1 7] ++ [Timeout 1 0]) glib_init =
    AssertionFailed.
Proof.
  apply (C9_idle_suppression_asserts_display 7 1 1 glib_init
           [Draw 800; Timeout 2 7; Timeout 1 7]).
  - lia.
  - lia.
  - repeat constructor; unfold GINT_MAX; cbn; lia.
  - reflexivity.
Defined.

(** ** C10: releasing twice *)

(** C10.  The helper that releases the draw timer and the pattern is
    idempotent.  After one call of [free_draw_timeout_and_pattern] (white
    version) the timer handle is 0 and the pattern is null, and a second
    call changes nothing and makes no call; the same holds for the timer
    handle and [free_draw_timeout] (blue version).  Along every run no
    timeout source is removed twice and no pattern is destroyed twice. *)
Theorem C10_release_is_idempotent :
  forall (window cursor : Z) (evs : list event) (dw : White.data_t)
         (db : Blue.data_t) (g : glib),
    window <> 0 -> cursor <> 0 -> Forall plausible_event evs ->
    (exists d1 g1,
       White.free_draw_timeout_and_pattern dw g = Done (d1, g1) /\
       White.draw_timeout_id d1 = 0 /\ White.pattern d1 = 0 /\
       White.free_draw_timeout_and_pattern d1 g1 = Done (d1, g1)) /\
    (exists d1 g1,
       Blue.free_draw_timeout db g = Done (d1, g1) /\
       Blue.draw_timeout_id d1 = 0 /\
       Blue.free_draw_timeout d1 g1 = Done (d1, g1)) /\
    (exists d st g',
       White.main window cursor evs glib_init = Done ((d, st), g') /\
       NoDup (removed_sources (trace g')) /\
       NoDup (destroyed_patterns (trace g'))) /\
    (exists d st g',
       Blue.main window cursor evs glib_init = Done ((d, st), g') /\
       NoDup (removed_sources (trace g')) /\
       NoDup (destroyed_patterns (trace g'))).
Proof.
  intros window cursor evs dw db g Hwin Hcur Hevs.
  split; [|split; [|split]].
  - rewrite White_free_exec. eexists. eexists.
    split; [reflexivity|]. split; [reflexivity|]. split; [reflexivity|].
    rewrite White_free_exec. reflexivity.
  - rewrite Blue_free_draw_timeout_exec.
    destruct (Z.eqb_spec (Blue.draw_timeout_id db) 0) as [H0|Hn].
    + exists db, g. split; [reflexivity|]. split; [assumption|].
      rewrite Blue_free_draw_timeout_exec. apply Z.eqb_eq in H0.
      now rewrite H0.
    + eexists. eexists. split; [reflexivity|]. split; [reflexivity|].
      rewrite Blue_free_draw_timeout_exec. reflexivity.
  - destruct (White_main_run window cursor evs Hwin Hcur Hevs)
      as (d & g' & Hrun & [Hws Hwp] & _).
    exists d. eexists. exists g'. split; [exact Hrun|].
    split; [apply Hws | apply Hwp].
  - destruct (Blue_main_run window cursor evs Hwin Hcur Hevs)
      as (d & g' & Hrun & [Hws Hwp] & _).
    exists d. eexists. exists g'. split; [exact Hrun|].
    split; [apply Hws | apply Hwp].
Qed.

Lemma C10_release_is_idempotent_witness :
  (exists d1 g1,
     White.free_draw_timeout_and_pattern (White.mk_data 1 1 2 17 800) glib_init =
       Done (d1, g1) /\
     White.draw_timeout_id d1 = 0 /\ White.pattern d1 = 0 /\
     White.free_draw_timeout_and_pattern d1 g1 = Done (d1, g1)) /\
  (exists d1 g1,
     Blue.free_draw_timeout (Blue.mk_data 1 1 2 5 17 800) glib_init = Done (d1, g1) /\
     Blue.draw_timeout_id d1 = 0 /\
     Blue.free_draw_timeout d1 g1 = Done (d1, g1)) /\
  (exists d st g',
     White.main 1 1 [Draw 800; Draw 1600; Draw 800; Press; Press] glib_init =
       Done ((d, st), g') /\
     NoDup (removed_sources (trace g')) /\
     NoDup (destroyed_patterns (trace g'))) /\
  (exists d st g',
     Blue.main 1 1 [Draw 800; Draw 1600; Draw 800; Press; Press] glib_init =
       Done ((d, st), g') /\
     NoDup (removed_sources (trace g')) /\
     NoDup (destroyed_patterns (trace g'))).
Proof.
  apply (C10_release_is_idempotent 1 1 [Draw 800; Draw 1600; Draw 800; Press; Press]
           (White.mk_data 1 1 2 17 800) (Blue.mk_data 1 1 2 5 17 800) glib_init).
  - lia.
  - lia.
  - repeat constructor; unfold GINT_MAX; cbn; lia.
Defined.

(** * Further properties of the code *)

(** ** Which timeout does what *)

Lemma find_source_draw (supp draw : Z) (g : glib) :
  owned_sources supp draw g -> draw <> 0 ->
  exists s, find_source draw g = Some s /\
            source_callback s = cb_on_draw_timer.
Proof.
  intros Hown Hd. pose proof Hown as (_ & _ & Hne & Hin & _).
  specialize (Hin Hd). unfold source_ids in Hin. apply in_map_iff in Hin.
  destruct Hin as (s0 & Hid & Hin0).
  destruct (find_source draw g) as [s|] eqn:Hf.
  - exists s. split; [reflexivity|].
    destruct (find_source_owned _ _ _ _ _ Hown Hf) as [[H _]|[_ [_ H]]];
      [congruence | assumption].
  - unfold find_source in Hf.
    pose proof (find_none _ _ Hf s0 Hin0) as Hn. cbn in Hn.
    rewrite Hid, Z.eqb_refl in Hn. discriminate.
Qed.

Lemma find_source_other (supp draw id : Z) (g : glib) :
  owned_sources supp draw g -> id <> supp -> (id <> draw \/ draw = 0) ->
  find_source id g = None.
Proof.
  intros Hown Hs Hd. destruct (find_source id g) as [s|] eqn:Hf; [|reflexivity].
  destruct (find_source_owned _ _ _ _ _ Hown Hf) as [[H _]|[H [H0 _]]];
    [contradiction | destruct Hd; contradiction].
Qed.

(** A timeout of the blue version: the source 1 warps the pointer, the draw
    source of the moment advances the offset, any other identifier is the
    identifier of no live source and nothing happens. *)
Lemma Blue_dispatch_timeout (id display : Z) (d : Blue.data_t) (g : glib) :
  Blue_inv 1 d g -> display <> 0 ->
  Blue.dispatch (Timeout id display) d g =
  if id =? 1 then Done ((d, false), push (c_warp_pointer display) g)
  else if negb (Blue.draw_timeout_id d =? 0) && (id =? Blue.draw_timeout_id d)
  then Done ((Blue.with_x d
                (((Blue.x d + 1) mod GUINT_MODULUS) mod Blue.width d), false),
             push (c_widget_queue_draw (Blue.window d)) g)
  else Done ((d, false), g).
Proof.
  intros (Hwf & (Hwd & Hz & Hpos) & Hown & Hpat) Hdisp.
  destruct (Z.eqb_spec id 1) as [->|Hn1].
  - apply Blue_dispatch_quiet; [|reflexivity]. unfold Blue.handler.
    destruct (find_source_supp _ _ _ Hown) as (s & -> & ->).
    unfold bind. rewrite suppression_timer_exec.
    apply Z.eqb_neq in Hdisp. rewrite Hdisp. reflexivity.
  - destruct (Z.eqb_spec (Blue.draw_timeout_id d) 0) as [H0|Hn0]; cbn [negb andb].
    + apply Blue_dispatch_quiet; [|reflexivity]. unfold Blue.handler.
      rewrite (find_source_other 1 _ id g Hown Hn1); [reflexivity|]. now right.
    + destruct (Z.eqb_spec id (Blue.draw_timeout_id d)) as [->|Hnd].
      * apply Blue_dispatch_quiet; [|reflexivity]. unfold Blue.handler.
        destruct (find_source_draw _ _ _ Hown Hn0) as (s & -> & ->).
        assert (Hw : 0 < Blue.width d).
        { destruct (Z.eq_dec (Blue.width d) 0) as [H|H]; [|lia].
          apply Hz in H. tauto. }
        unfold bind. rewrite Blue_on_draw_timer_exec by lia.
        rewrite (to_guint_small (Blue.width d)) by lia. reflexivity.
      * apply Blue_dispatch_quiet; [|reflexivity]. unfold Blue.handler.
        rewrite (find_source_other 1 _ id g Hown Hn1); [reflexivity|]. now left.
Qed.

Lemma White_dispatch_timeout (id display : Z) (d : White.data_t) (g : glib) :
  White_inv 1 d g -> display <> 0 ->
  White.dispatch (Timeout id display) d g =
  if id =? 1 then Done ((d, false), push (c_warp_pointer display) g)
  else if negb (White.draw_timeout_id d =? 0) && (id =? White.draw_timeout_id d)
  then Done ((White.with_x d ((White.x d + 1) mod GUINT_MODULUS), false),
             push (c_widget_queue_draw (White.window d)) g)
  else Done ((d, false), g).
Proof.
  intros (Hwf & Hown & Hpat) Hdisp.
  destruct (Z.eqb_spec id 1) as [->|Hn1].
  - apply White_dispatch_quiet; [|reflexivity]. unfold White.handler.
    destruct (find_source_supp _ _ _ Hown) as (s & -> & ->).
    unfold bind. rewrite suppression_timer_exec.
    apply Z.eqb_neq in Hdisp. rewrite Hdisp. reflexivity.
  - destruct (Z.eqb_spec (White.draw_timeout_id d) 0) as [H0|Hn0]; cbn [negb andb].
    + apply White_dispatch_quiet; [|reflexivity]. unfold White.handler.
      rewrite (find_source_other 1 _ id g Hown Hn1); [reflexivity|]. now right.
    + destruct (Z.eqb_spec id (White.draw_timeout_id d)) as [->|Hnd].
      * apply White_dispatch_quiet; [|reflexivity]. unfold White.handler.
        destruct (find_source_draw _ _ _ Hown Hn0) as (s & -> & ->).
        reflexivity.
      * apply White_dispatch_quiet; [|reflexivity]. unfold White.handler.
        rewrite (find_source_other 1 _ id g Hown Hn1); [reflexivity|]. now left.
Qed.

(** A redraw of the blue version, call by call. *)
Lemma Blue_dispatch_draw (w : Z) (d : Blue.data_t) (g : glib) :
  0 < w <= GINT_MAX ->
  let changed := negb (Blue.draw_timeout_interval d =? PERIOD_MS / w) in
  let d1 := if changed
            then Blue.with_draw_timeout_interval
                   (Blue.with_draw_timeout_id d (next_source_id g)) (PERIOD_MS / w)
            else d in
  let g1 := if changed
            then source_added (PERIOD_MS / w) cb_on_draw_timer
                   (if Blue.draw_timeout_id d =? 0 then g
                    else source_removed (Blue.draw_timeout_id d) g)
            else g in
  Blue.dispatch (Draw w) d g =
  Done ((Blue.scale_x w d1, false),
        push c_paint
          (push (c_set_source (Blue.pattern d))
             (push (c_scale w)
                (push (c_translate (Blue.x (Blue.scale_x w d1))) g1)))).
Proof.
  intros Hw. cbv zeta. apply Blue_dispatch_quiet.
  - unfold Blue.handler, bind.
    rewrite Blue_on_draw_exec by lia. rewrite (to_guint_small w) by lia.
    destruct (Z.eqb_spec (Blue.draw_timeout_interval d) (PERIOD_MS / w))
      as [Heq|Hne]; cbn [negb].
    + rewrite Blue_register_same by assumption. cbn [fst].
      destruct (Blue_scale_x_fields w d) as (_ & -> & _). reflexivity.
    + rewrite Blue_register_changed by assumption. cbn [fst].
      match goal with
      | |- context [Blue.pattern (Blue.scale_x w ?d1)] =>
          destruct (Blue_scale_x_fields w d1) as (_ & -> & _)
      end.
      reflexivity.
  - destruct (Blue.draw_timeout_interval d =? PERIOD_MS / w),
      (Blue.draw_timeout_id d =? 0); reflexivity.
Qed.

(** A redraw of the white version, call by call. *)
Lemma White_dispatch_draw_same (w : Z) (d : White.data_t) (g : glib) :
  0 < w <= GINT_MAX -> White.last_width d = w ->
  White.dispatch (Draw w) d g =
  Done ((White.with_x (White.with_last_width d w) (White.x d mod w), false),
        push c_paint
          (push (c_set_source (White.pattern d))
             (push (c_translate (White.x d mod w)) g))).
Proof.
  intros Hw Hlw. apply White_dispatch_quiet; [|reflexivity].
  unfold White.handler, bind.
  rewrite White_on_draw_same by assumption. reflexivity.
Qed.

Lemma White_dispatch_draw_changed (w : Z) (d : White.data_t) (g : glib) :
  0 < w <= GINT_MAX -> White.last_width d <> w ->
  exists d' g' g2,
    White.dispatch (Draw w) d g = Done ((d', false), g') /\
    g2 = (let g1 := if White.draw_timeout_id d =? 0 then g
                    else source_removed (White.draw_timeout_id d) g in
          if White.pattern d =? 0 then g1
          else pattern_destroyed (White.pattern d) g1) /\
    d' = White.mk_data (White.window d) (next_pattern g2) (next_source_id g2)
           (White.x d mod w) w /\
    sources g' =
      mk_source (next_source_id g2) (PERIOD_MS / w) cb_on_draw_timer :: sources g2 /\
    patterns g' = (next_pattern g2, White.gradient w) :: patterns g2 /\
    filter is_warp (trace g') = filter is_warp (trace g) /\
    exists t, trace g' =
              c_paint :: c_set_source (next_pattern g2)
                :: c_translate (White.x d mod w) :: t.
Proof.
  intros Hw Hlw.
  eexists. eexists. eexists. split.
  { apply White_dispatch_quiet.
    - unfold White.handler, bind.
      rewrite White_on_draw_changed by assumption.
      rewrite White_rebuild_exec by lia. cbv zeta. reflexivity.
    - destruct (White.draw_timeout_id d =? 0), (White.pattern d =? 0);
        reflexivity. }
  split; [reflexivity|].
  split; [reflexivity|]. split; [reflexivity|]. split; [|split].
  - cbn [patterns push].
    unfold pattern_changed at 1; cbn [patterns].
    unfold pattern_changed at 1; cbn [patterns].
    unfold pattern_changed at 1; cbn [patterns].
    unfold pattern_changed at 1; cbn [patterns].
    unfold pattern_changed at 1; cbn [patterns].
    unfold pattern_created; cbn [patterns].
    rewrite !update_pattern_head. reflexivity.
  - cbn. destruct (White.pattern d =? 0); destruct (White.draw_timeout_id d =? 0);
      reflexivity.
  - eexists. reflexivity.
Qed.

(** ** Invariants of the runs that have not ended *)

Lemma Blue_main_start_state (window cursor : Z) :
  window <> 0 -> cursor <> 0 ->
  exists g0,
    Blue_inv 1 (Blue.mk_data window 1 0 0 0 0) g0 /\
    sources g0 = [suppression_source] /\
    filter is_warp (trace g0) = [] /\
    forall evs,
      Blue.main window cursor evs glib_init =
      match Blue.gtk_main evs (Blue.mk_data window 1 0 0 0 0) g0 with
      | Done ((d, true), g) =>
          Done ((d, Exited 0),
                pattern_destroyed (Blue.pattern d) (source_removed 1 g))
      | Done ((d, false), g) => Done ((d, Running), g)
      | AssertionFailed => AssertionFailed
      | UndefinedBehaviour => UndefinedBehaviour
      end.
Proof.
  intros Hwin Hcur.
  destruct (Blue_create_pattern_facts glib_init)
    as (gp & Hcreate & Hpat & Hsrc & Hnext & Hwfp).
  pose proof Hcreate as Hexec. rewrite Blue_create_pattern_exec in Hexec.
  cbv zeta in Hexec. injection Hexec as Hgp.
  exists (source_added SCREENSAVER_SUPPRESSION_PERIOD_MS
            cb_on_screensaver_suppression_timer gp).
  split; [|split; [|split]].
  - split; [|split; [|split]].
    + apply wf_source_added, Hwfp, glib_init_wf.
    + unfold Blue_num, GINT_MAX; cbn. repeat split; lia.
    + unfold owned_sources, source_ids, source_added; cbn [sources].
      rewrite Hsrc, Hnext. cbn.
      repeat split; try lia; try tauto.
      intros s [<-|[]]. left. now split.
    + exact Hpat.
  - unfold source_added; cbn [sources]. rewrite Hsrc, Hnext. reflexivity.
  - rewrite <- Hgp. reflexivity.
  - intros evs. unfold Blue.main, bind, assert.
    apply Z.eqb_neq in Hwin, Hcur. rewrite Hwin, Hcur. cbn [negb].
    rewrite Hcreate. unfold g_timeout_add. rewrite Hnext.
    unfold Blue.with_pattern.
    cbn [next_pattern next_source_id glib_init Blue.window
         Blue.draw_timeout_id Blue.draw_timeout_interval Blue.x Blue.width].
    destruct (Blue.gtk_main evs _ _) as [[[d q] g]| |]; try reflexivity.
    destruct q; reflexivity.
Qed.

Lemma White_main_start_state (window cursor : Z) :
  window <> 0 -> cursor <> 0 ->
  exists g0,
    White_inv 1 (White.mk_data window 0 0 0 0) g0 /\
    sources g0 = [suppression_source] /\
    filter is_warp (trace g0) = [] /\
    forall evs,
      White.main window cursor evs glib_init =
      match White.gtk_main evs (White.mk_data window 0 0 0 0) g0 with
      | Done ((d, true), g) => Done ((d, Exited 0), source_removed 1 g)
      | Done ((d, false), g) => Done ((d, Running), g)
      | AssertionFailed => AssertionFailed
      | UndefinedBehaviour => UndefinedBehaviour
      end.
Proof.
  intros Hwin Hcur.
  exists (source_added SCREENSAVER_SUPPRESSION_PERIOD_MS
            cb_on_screensaver_suppression_timer glib_init).
  split; [|split; [|split]].
  - split; [|split].
    + apply wf_source_added, glib_init_wf.
    + unfold owned_sources; cbn. repeat split; try lia; try tauto.
      intros s [<-|[]]. left. now split.
    + reflexivity.
  - reflexivity.
  - reflexivity.
  - intros evs. unfold White.main, bind, assert.
    apply Z.eqb_neq in Hwin, Hcur. rewrite Hwin, Hcur. cbn [negb].
    unfold g_timeout_add. cbn [next_source_id glib_init].
    destruct (White.gtk_main evs _ _) as [[[d q] g]| |]; try reflexivity.
    destruct q; reflexivity.
Qed.

(** A property [P] of the events handled so far, the data and the
    environment, that holds when the main loop starts and that every
    callback other than a press keeps, holds at every point of a run. *)
Section BlueRuns.

Variable P : list event -> Blue.data_t -> glib -> Prop.

Hypothesis P_start :
  forall window g0,
    Blue_inv 1 (Blue.mk_data window 1 0 0 0 0) g0 ->
    sources g0 = [suppression_source] ->
    filter is_warp (trace g0) = [] ->
    P [] (Blue.mk_data window 1 0 0 0 0) g0.

Hypothesis P_step :
  forall done ev d g d' g',
    Blue_inv 1 d g -> P done d g ->
    plausible_event ev -> is_press ev = false ->
    Blue.dispatch ev d g = Done ((d', false), g') ->
    Blue_inv 1 d' g' ->
    P (done ++ [ev]) d' g'.

Lemma Blue_gtk_main_running (evs : list event) :
  Forall plausible_event evs -> existsb is_press evs = false ->
  forall done d g,
    Blue_inv 1 d g -> P done d g ->
    exists d' g',
      Blue.gtk_main evs d g = Done ((d', false), g') /\
      Blue_inv 1 d' g' /\ P (done ++ evs) d' g'.
Proof.
  induction 1 as [|ev evs Hev _ IH]; intros Hnp done d g Hinv HP.
  - exists d, g. rewrite app_nil_r. cbn. auto.
  - cbn [existsb] in Hnp. apply orb_false_iff in Hnp. destruct Hnp as [Hp Hnp].
    destruct (Blue_dispatch_inv 1 ev d g Hinv Hev)
      as (d1 & g1 & Hrun & Hinv1 & _).
    rewrite Hp in Hrun.
    pose proof (P_step done ev d g d1 g1 Hinv HP Hev Hp Hrun Hinv1) as HP1.
    destruct (IH Hnp (done ++ [ev]) d1 g1 Hinv1 HP1)
      as (d' & g' & Hrun' & Hinv' & HP').
    exists d', g'. cbn [Blue.gtk_main]. unfold bind. rewrite Hrun. cbn [fst snd].
    split; [assumption|]. split; [assumption|].
    rewrite <- app_assoc in HP'. exact HP'.
Qed.

Lemma Blue_main_running (window cursor : Z) (evs : list event) :
  window <> 0 -> cursor <> 0 ->
  Forall plausible_event evs -> existsb is_press evs = false ->
  exists d g,
    Blue.main window cursor evs glib_init = Done ((d, Running), g) /\
    Blue_inv 1 d g /\ P evs d g.
Proof.
  intros Hwin Hcur Hevs Hnp.
  destruct (Blue_main_start_state window cursor Hwin Hcur)
    as (g0 & Hinv0 & Hsrc0 & Hwarp0 & Hmain).
  destruct (Blue_gtk_main_running evs Hevs Hnp [] _ g0 Hinv0
              (P_start window g0 Hinv0 Hsrc0 Hwarp0))
    as (d & g & Hrun & Hinv & HP).
  exists d, g. rewrite Hmain, Hrun. auto.
Qed.

End BlueRuns.

Section WhiteRuns.

Variable P : list event -> White.data_t -> glib -> Prop.

Hypothesis P_start :
  forall window g0,
    White_inv 1 (White.mk_data window 0 0 0 0) g0 ->
    sources g0 = [suppression_source] ->
    filter is_warp (trace g0) = [] ->
    P [] (White.mk_data window 0 0 0 0) g0.

Hypothesis P_step :
  forall done ev d g d' g',
    White_inv 1 d g -> P done d g ->
    plausible_event ev -> is_press ev = false ->
    White.dispatch ev d g = Done ((d', false), g') ->
    White_inv 1 d' g' ->
    P (done ++ [ev]) d' g'.

Lemma White_gtk_main_running (evs : list event) :
  Forall plausible_event evs -> existsb is_press evs = false ->
  forall done d g,
    White_inv 1 d g -> P done d g ->
    exists d' g',
      White.gtk_main evs d g = Done ((d', false), g') /\
      White_inv 1 d' g' /\ P (done ++ evs) d' g'.
Proof.
  induction 1 as [|ev evs Hev _ IH]; intros Hnp done d g Hinv HP.
  - exists d, g. rewrite app_nil_r. cbn. auto.
  - cbn [existsb] in Hnp. apply orb_false_iff in Hnp. destruct Hnp as [Hp Hnp].
    destruct (White_dispatch_inv 1 ev d g Hinv Hev)
      as (d1 & g1 & Hrun & Hinv1 & _).
    rewrite Hp in Hrun.
    pose proof (P_step done ev d g d1 g1 Hinv HP Hev Hp Hrun Hinv1) as HP1.
    destruct (IH Hnp (done ++ [ev]) d1 g1 Hinv1 HP1)
      as (d' & g' & Hrun' & Hinv' & HP').
    exists d', g'. cbn [White.gtk_main]. unfold bind. rewrite Hrun. cbn [fst snd].
    split; [assumption|]. split; [assumption|].
    rewrite <- app_assoc in HP'. exact HP'.
Qed.

Lemma White_main_running (window cursor : Z) (evs : list event) :
  window <> 0 -> cursor <> 0 ->
  Forall plausible_event evs -> existsb is_press evs = false ->
  exists d g,
    White.main window cursor evs glib_init = Done ((d, Running), g) /\
    White_inv 1 d g /\ P evs d g.
Proof.
  intros Hwin Hcur Hevs Hnp.
  destruct (White_main_start_state window cursor Hwin Hcur)
    as (g0 & Hinv0 & Hsrc0 & Hwarp0 & Hmain).
  destruct (White_gtk_main_running evs Hevs Hnp [] _ g0 Hinv0
              (P_start window g0 Hinv0 Hsrc0 Hwarp0))
    as (d & g & Hrun & Hinv & HP).
  exists d, g. rewrite Hmain, Hrun. auto.
Qed.

End WhiteRuns.

(** ** The timers that are alive *)

Lemma Blue_sources_step (ev : event) (d d' : Blue.data_t) (g g' : glib) :
  Blue_inv 1 d g -> sources g = Blue_sources d ->
  plausible_event ev -> is_press ev = false ->
  Blue.dispatch ev d g = Done ((d', false), g') ->
  sources g' = Blue_sources d'.
Proof.
  intros Hinv Hsrc Hev Hp Hrun.
  pose proof Hinv as (Hwf & (Hwd & Hz & Hpos) & Hown & Hpat).
  destruct ev as [w|id display|]; [| |discriminate]; cbn [plausible_event] in Hev.
  - rewrite Blue_dispatch_draw in Hrun by assumption. cbv zeta in Hrun.
    injection Hrun as <- <-. cbn [sources push].
    unfold Blue_sources. rewrite Blue_scale_x_width.
    destruct (Z.eqb_spec (Blue.draw_timeout_interval d) (PERIOD_MS / w))
      as [Heq|Hne]; cbn [negb].
    + destruct (Blue_scale_x_fields w d) as (_ & _ & -> & _).
      rewrite Hsrc. unfold Blue_sources.
      destruct (Z.eqb_spec (Blue.draw_timeout_id d) 0) as [H0|Hn0]; [reflexivity|].
      assert (Hw : 0 < Blue.width d).
      { destruct (Z.eq_dec (Blue.width d) 0) as [H|H]; [|lia].
        apply Hz in H. tauto. }
      destruct (Hpos Hw) as [_ Hi]. rewrite <- Hi, Heq. reflexivity.
    + match goal with
      | |- context [Blue.draw_timeout_id (Blue.scale_x w ?d1)] =>
          destruct (Blue_scale_x_fields w d1) as (_ & _ & -> & _)
      end.
      cbn [Blue.draw_timeout_id Blue.with_draw_timeout_interval
           Blue.with_draw_timeout_id sources source_added].
      destruct Hwf as [(Hnext & _) _]. cbn in Hnext.
      destruct (Z.eqb_spec (next_source_id g) 0) as [H|_]; [lia|].
      assert (Hrest : sources (if Blue.draw_timeout_id d =? 0 then g
                               else source_removed (Blue.draw_timeout_id d) g) =
                      [suppression_source]).
      { destruct (Z.eqb_spec (Blue.draw_timeout_id d) 0) as [H0|Hn0].
        - rewrite Hsrc. unfold Blue_sources.
          apply Z.eqb_eq in H0. now rewrite H0.
        - cbn [sources source_removed]. rewrite Hsrc. unfold Blue_sources.
          apply Z.eqb_neq in Hn0. rewrite Hn0.
          destruct Hown as (_ & _ & Hsd & _).
          apply Z.eqb_neq in Hsd.
          unfold drop_source, suppression_source.
          cbn [app filter source_id]. rewrite Z.eqb_refl, Hsd. reflexivity. }
      destruct (Blue.draw_timeout_id d =? 0); rewrite Hrest; reflexivity.
  - rewrite (Blue_dispatch_timeout id display d g Hinv Hev) in Hrun.
    destruct (id =? 1); [injection Hrun as <- <-; exact Hsrc|].
    destruct (negb (Blue.draw_timeout_id d =? 0) && (id =? Blue.draw_timeout_id d));
      injection Hrun as <- <-; exact Hsrc.
Qed.

(** X1.  At every point of a run of the blue version that has not ended,
    the timeout sources alive are the idle-suppression timer, with the
    interval [SCREENSAVER_SUPPRESSION_PERIOD_MS], and at most one draw timer,
    the one of [draw_timeout_id], whose interval is [PERIOD_MS / width] for
    the stored width: a width change never leaves a second draw timer or a
    timer of the old width behind. *)
Theorem X1_blue_live_timers :
  forall (window cursor : Z) (evs : list event),
    window <> 0 -> cursor <> 0 ->
    Forall plausible_event evs -> existsb is_press evs = false ->
    exists d g,
      Blue.main window cursor evs glib_init = Done ((d, Running), g) /\
      sources g =
        (if Blue.draw_timeout_id d =? 0 then []
         else [mk_source (Blue.draw_timeout_id d) (PERIOD_MS / Blue.width d)
                 cb_on_draw_timer])
        ++ [mk_source 1 SCREENSAVER_SUPPRESSION_PERIOD_MS
              cb_on_screensaver_suppression_timer].
Proof.
  intros window cursor evs Hwin Hcur Hevs Hnp.
  destruct (Blue_main_running (fun _ d g => sources g = Blue_sources d))
    with (window := window) (cursor := cursor) (evs := evs)
    as (d & g & Hrun & _ & HP); try assumption.
  - intros w g0 _ Hsrc _. exact Hsrc.
  - intros done ev d g d' g' Hinv HP Hev Hp Hrun _.
    exact (Blue_sources_step ev d d' g g' Hinv HP Hev Hp Hrun).
  - exists d, g. split; assumption.
Qed.

Lemma X1_blue_live_timers_witness :
  exists d g,
    Blue.main 1 1 [Draw 800; Timeout 2 1; Draw 1600; Draw 5000; Draw 1600]
      glib_init = Done ((d, Running), g) /\
    sources g =
      (if Blue.draw_timeout_id d =? 0 then []
       else [mk_source (Blue.draw_timeout_id d) (PERIOD_MS / Blue.width d)
               cb_on_draw_timer])
      ++ [mk_source 1 SCREENSAVER_SUPPRESSION_PERIOD_MS
            cb_on_screensaver_suppression_timer].
Proof.
  apply (X1_blue_live_timers 1 1
           [Draw 800; Timeout 2 1; Draw 1600; Draw 5000; Draw 1600]).
  - lia.
  - lia.
  - repeat constructor; unfold GINT_MAX; cbn; lia.
  - reflexivity.
Defined.

Lemma White_retired_sources (d : White.data_t) (g : glib) :
  White_inv 1 d g -> sources g = White_sources d ->
  let g2 := (let g1 := if White.draw_timeout_id d =? 0 then g
                       else source_removed (White.draw_timeout_id d) g in
             if White.pattern d =? 0 then g1
             else pattern_destroyed (White.pattern d) g1) in
  sources g2 = [suppression_source] /\
  0 < next_source_id g2 /\ 0 < next_pattern g2.
Proof.
  intros Hinv Hsrc. cbv zeta.
  destruct (White_retire 1 d g Hinv) as ([(Hns & _) (Hnp & _)] & Hown & _).
  cbn in Hns, Hnp. cbv zeta in Hns, Hnp. split; [|split; assumption].
  assert (Hg1 : sources (if White.draw_timeout_id d =? 0 then g
                         else source_removed (White.draw_timeout_id d) g) =
                [suppression_source]).
  { destruct (Z.eqb_spec (White.draw_timeout_id d) 0) as [H0|Hn0].
    - rewrite Hsrc. unfold White_sources.
      apply Z.eqb_eq in H0. now rewrite H0.
    - cbn [sources source_removed]. rewrite Hsrc. unfold White_sources.
      destruct Hinv as (_ & (_ & _ & Hsd & _) & _).
      apply Z.eqb_neq in Hn0, Hsd. rewrite Hn0.
      unfold drop_source, suppression_source.
      cbn [app filter source_id]. rewrite Z.eqb_refl, Hsd. reflexivity. }
  destruct (White.pattern d =? 0); exact Hg1.
Qed.

Lemma White_sources_step (ev : event) (d d' : White.data_t) (g g' : glib) :
  White_inv 1 d g -> sources g = White_sources d /\ White_drawn d ->
  plausible_event ev -> is_press ev = false ->
  White.dispatch ev d g = Done ((d', false), g') ->
  sources g' = White_sources d' /\ White_drawn d'.
Proof.
  intros Hinv [Hsrc Hdrawn] Hev Hp Hrun.
  destruct ev as [w|id display|]; [| |discriminate]; cbn [plausible_event] in Hev.
  - destruct (Z.eq_dec (White.last_width d) w) as [Heq|Hne].
    + rewrite White_dispatch_draw_same in Hrun by assumption.
      injection Hrun as <- <-. split.
      * cbn [sources push]. rewrite Hsrc. unfold White_sources. cbn.
        now rewrite Heq.
      * unfold White_drawn in *. rewrite Heq in Hdrawn. exact Hdrawn.
    + destruct (White_dispatch_draw_changed w d g Hev Hne)
        as (d2 & g2' & g2 & Hrun2 & Hg2 & Hd2 & Hsrc2 & _).
      rewrite Hrun in Hrun2. injection Hrun2 as <- <-.
      destruct (White_retired_sources d g Hinv Hsrc) as (Hrest & Hns & Hnp).
      cbv zeta in Hrest, Hns, Hnp. cbv zeta in Hg2. rewrite <- Hg2 in Hrest, Hns, Hnp.
      subst d'. split.
      * rewrite Hsrc2, Hrest. unfold White_sources. cbn.
        destruct (Z.eqb_spec (next_source_id g2) 0); [lia | reflexivity].
      * unfold White_drawn.
        cbn [White.last_width White.pattern White.draw_timeout_id].
        split; [lia|]. intros _. split; lia.
  - rewrite (White_dispatch_timeout id display d g Hinv Hev) in Hrun.
    destruct (id =? 1); [injection Hrun as <- <-; now split|].
    destruct (negb (White.draw_timeout_id d =? 0) && (id =? White.draw_timeout_id d));
      injection Hrun as <- <-; now split.
Qed.

Lemma White_running_state (window cursor : Z) (evs : list event) :
  window <> 0 -> cursor <> 0 ->
  Forall plausible_event evs -> existsb is_press evs = false ->
  exists d g,
    White.main window cursor evs glib_init = Done ((d, Running), g) /\
    White_inv 1 d g /\ sources g = White_sources d /\ White_drawn d.
Proof.
  intros Hwin Hcur Hevs Hnp.
  destruct (White_main_running
              (fun _ d g => sources g = White_sources d /\ White_drawn d))
    with (window := window) (cursor := cursor) (evs := evs)
    as (d & g & Hrun & Hinv & HP); try assumption.
  - intros w g0 _ Hsrc _. split; [exact Hsrc|].
    unfold White_drawn, GINT_MAX; cbn. split; [lia|]. intros H. now contradiction H.
  - intros done ev d g d' g' Hinv HP Hev Hp Hrun _.
    exact (White_sources_step ev d d' g g' Hinv HP Hev Hp Hrun).
  - exists d, g. tauto.
Qed.

(** X2.  At every point of a run of the white version that has not ended,
    the timeout sources alive are the idle-suppression timer and at most
    one draw timer, the one of [draw_timeout_id], whose interval is
    [PERIOD_MS / last_width]; once a width has been stored there is such a
    draw timer and there is a pattern. *)
Theorem X2_white_live_timers :
  forall (window cursor : Z) (evs : list event),
    window <> 0 -> cursor <> 0 ->
    Forall plausible_event evs -> existsb is_press evs = false ->
    exists d g,
      White.main window cursor evs glib_init = Done ((d, Running), g) /\
      sources g =
        (if White.draw_timeout_id d =? 0 then []
         else [mk_source (White.draw_timeout_id d)
                 (PERIOD_MS / White.last_width d) cb_on_draw_timer])
        ++ [mk_source 1 SCREENSAVER_SUPPRESSION_PERIOD_MS
              cb_on_screensaver_suppression_timer] /\
      (White.last_width d <> 0 ->
       White.draw_timeout_id d <> 0 /\ White.pattern d <> 0).
Proof.
  intros window cursor evs Hwin Hcur Hevs Hnp.
  destruct (White_running_state window cursor evs Hwin Hcur Hevs Hnp)
    as (d & g & Hrun & _ & Hsrc & _ & Hdrawn).
  exists d, g. split; [assumption|]. split; [exact Hsrc|].
  intros H. destruct (Hdrawn H). now split.
Qed.

Lemma X2_white_live_timers_witness :
  exists d g,
    White.main 1 1 [Draw 800; Timeout 2 1; Draw 1600; Draw 5000; Draw 800]
      glib_init = Done ((d, Running), g) /\
    sources g =
      (if White.draw_timeout_id d =? 0 then []
       else [mk_source (White.draw_timeout_id d)
               (PERIOD_MS / White.last_width d) cb_on_draw_timer])
      ++ [mk_source 1 SCREENSAVER_SUPPRESSION_PERIOD_MS
            cb_on_screensaver_suppression_timer] /\
    (White.last_width d <> 0 ->
     White.draw_timeout_id d <> 0 /\ White.pattern d <> 0).
Proof.
  apply (X2_white_live_timers 1 1
           [Draw 800; Timeout 2 1; Draw 1600; Draw 5000; Draw 800]).
  - lia.
  - lia.
  - repeat constructor; unfold GINT_MAX; cbn; lia.
  - reflexivity.
Defined.

(** ** What a redraw paints *)

(** X3.  Every redraw of the blue version, at whatever point of a run,
    paints the pattern built in [main], which is alive, has unit length and
    repeats; the drawing origin is moved by the offset, which is inside the
    window ([0 <= x < width]), and the pattern is scaled by the width of the
    window. *)
Theorem X3_blue_redraw_paints_inside_window :
  forall (window cursor w : Z) (evs : list event),
    window <> 0 -> cursor <> 0 ->
    Forall plausible_event evs -> existsb is_press evs = false ->
    0 < w <= GINT_MAX ->
    exists d g t v,
      Blue.main window cursor (evs ++ [Draw w]) glib_init =
        Done ((d, Running), g) /\
      trace g =
        c_paint :: c_set_source (Blue.pattern d) :: c_scale w
          :: c_translate (Blue.x d) :: t /\
      Blue.width d = w /\ 0 <= Blue.x d < w /\
      lookup_pattern (Blue.pattern d) (patterns g) = Some v /\
      pat_x0 v = 0%Q /\ pat_x1 v = 1%Q /\ pat_extend v = CAIRO_EXTEND_REPEAT.
Proof.
  intros window cursor w evs Hwin Hcur Hevs Hnp Hw.
  destruct (Blue_main_start window cursor Hwin Hcur) as (d0 & g0 & Hinv0 & Hmain).
  destruct (Blue_gtk_main_inv 1 evs Hevs d0 g0 Hinv0)
    as (d1 & g1 & Hrun1 & Hinv1 & _).
  rewrite Hnp in Hrun1.
  destruct (Blue_dispatch_inv 1 (Draw w) d1 g1 Hinv1 Hw)
    as (d & g & Hrun & Hinv & Hp & _).
  pose proof Hrun as Hform. rewrite Blue_dispatch_draw in Hform by assumption.
  cbv zeta in Hform. injection Hform as Hd Hg.
  exists d, g. eexists. exists Blue.gradient.
  split.
  - rewrite Hmain, Blue_gtk_main_app, Hrun1.
    cbn [Blue.gtk_main]. unfold bind. rewrite Hrun. reflexivity.
  - assert (Hwd : Blue.width d = w) by (rewrite <- Hd; apply Blue_scale_x_width).
    destruct Hinv as (_ & (_ & _ & Hpos) & _ & Hpat).
    split; [|split; [exact Hwd|split]].
    + rewrite <- Hg. cbn [trace push]. rewrite Hp, Hd. reflexivity.
    + rewrite <- Hwd. apply Hpos. lia.
    + rewrite Hpat. split; [apply lookup_pattern_head|]. repeat split.
Qed.

Lemma X3_blue_redraw_witness :
  exists d g t v,
    Blue.main 1 1 ([Draw 800; Timeout 2 1; Timeout 2 1] ++ [Draw 1600]) glib_init =
      Done ((d, Running), g) /\
    trace g =
      c_paint :: c_set_source (Blue.pattern d) :: c_scale 1600
        :: c_translate (Blue.x d) :: t /\
    Blue.width d = 1600 /\ 0 <= Blue.x d < 1600 /\
    lookup_pattern (Blue.pattern d) (patterns g) = Some v /\
    pat_x0 v = 0%Q /\ pat_x1 v = 1%Q /\ pat_extend v = CAIRO_EXTEND_REPEAT.
Proof.
  apply (X3_blue_redraw_paints_inside_window 1 1 1600
           [Draw 800; Timeout 2 1; Timeout 2 1]).
  - lia.
  - lia.
  - repeat constructor; unfold GINT_MAX; cbn; lia.
  - reflexivity.
  - unfold GINT_MAX. lia.
Defined.

Lemma White_gtk_main_state (evs : list event) (d0 : White.data_t) (g0 : glib) :
  Forall plausible_event evs -> existsb is_press evs = false ->
  White_inv 1 d0 g0 -> sources g0 = White_sources d0 -> White_drawn d0 ->
  exists d g,
    White.gtk_main evs d0 g0 = Done ((d, false), g) /\
    White_inv 1 d g /\ sources g = White_sources d /\ White_drawn d.
Proof.
  intros Hevs Hnp Hinv0 Hsrc0 Hdrawn0.
  destruct (White_gtk_main_running
              (fun _ d g => sources g = White_sources d /\ White_drawn d))
    with (evs := evs) (done := @nil event) (d := d0) (g := g0)
    as (d & g & Hrun & Hinv & HP); try assumption.
  - intros done ev d g d' g' Hinv HP Hev Hp Hrun _.
    exact (White_sources_step ev d d' g g' Hinv HP Hev Hp Hrun).
  - now split.
  - exists d, g. tauto.
Qed.

(** X4.  Every redraw of the white version, at whatever point of a run,
    paints a pattern that is alive and was built for the width of this
    redraw (it spans [0 .. width] and repeats): a pattern of another width
    is never painted.  The drawing origin is moved by the offset, which is
    inside the window. *)
Theorem X4_white_redraw_paints_current_pattern :
  forall (window cursor w : Z) (evs : list event),
    window <> 0 -> cursor <> 0 ->
    Forall plausible_event evs -> existsb is_press evs = false ->
    0 < w <= GINT_MAX ->
    exists d g t v,
      White.main window cursor (evs ++ [Draw w]) glib_init =
        Done ((d, Running), g) /\
      trace g =
        c_paint :: c_set_source (White.pattern d)
          :: c_translate (White.x d) :: t /\
      White.last_width d = w /\ 0 <= White.x d < w /\
      lookup_pattern (White.pattern d) (patterns g) = Some v /\
      pat_x0 v = 0%Q /\ pat_x1 v = inject_Z w /\
      pat_extend v = CAIRO_EXTEND_REPEAT.
Proof.
  intros window cursor w evs Hwin Hcur Hevs Hnp Hw.
  destruct (White_main_start_state window cursor Hwin Hcur)
    as (g0 & Hinv0 & Hsrc0 & _ & Hmain).
  destruct (White_gtk_main_state evs _ g0 Hevs Hnp Hinv0 Hsrc0)
    as (d1 & g1 & Hrun1 & Hinv1 & _ & Hdrawn1).
  { unfold White_drawn, GINT_MAX; cbn. split; [lia|]. intros H. now contradiction H. }
  assert (Hmain' : forall d g,
            White.dispatch (Draw w) d1 g1 = Done ((d, false), g) ->
            White.main window cursor (evs ++ [Draw w]) glib_init =
              Done ((d, Running), g)).
  { intros d g Hrun. rewrite Hmain, White_gtk_main_app, Hrun1.
    cbn [White.gtk_main]. unfold bind. rewrite Hrun. reflexivity. }
  destruct (Z.eq_dec (White.last_width d1) w) as [Heq|Hne].
  - pose proof (White_dispatch_draw_same w d1 g1 Hw Heq) as Hrun.
    eexists. eexists. eexists. exists (White.gradient w).
    split; [exact (Hmain' _ _ Hrun)|].
    cbn [trace push White.pattern White.x White.last_width White.with_x
         White.with_last_width patterns].
    split; [reflexivity|]. split; [reflexivity|].
    split; [apply Z.mod_pos_bound; lia|].
    destruct Hinv1 as (_ & _ & Hpat). destruct Hdrawn1 as [_ Hd].
    destruct Hd as [Hp _]; [lia|].
    apply Z.eqb_neq in Hp. rewrite Hp, Heq in Hpat. rewrite Hpat.
    split; [apply lookup_pattern_head|]. repeat split.
  - destruct (White_dispatch_draw_changed w d1 g1 Hw Hne)
      as (d & g & g2 & Hrun & _ & Hd & _ & Hpat & _ & t & Htrace).
    exists d, g, t, (White.gradient w).
    split; [exact (Hmain' _ _ Hrun)|].
    subst d. cbn [White.pattern White.x White.last_width].
    split; [exact Htrace|]. split; [reflexivity|].
    split; [apply Z.mod_pos_bound; lia|].
    rewrite Hpat. split; [apply lookup_pattern_head|]. repeat split.
Qed.

Lemma X4_white_redraw_witness :
  exists d g t v,
    White.main 1 1 ([Draw 800; Timeout 2 1; Draw 1600] ++ [Draw 1600]) glib_init =
      Done ((d, Running), g) /\
    trace g =
      c_paint :: c_set_source (White.pattern d)
        :: c_translate (White.x d) :: t /\
    White.last_width d = 1600 /\ 0 <= White.x d < 1600 /\
    lookup_pattern (White.pattern d) (patterns g) = Some v /\
    pat_x0 v = 0%Q /\ pat_x1 v = inject_Z 1600 /\
    pat_extend v = CAIRO_EXTEND_REPEAT.
Proof.
  apply (X4_white_redraw_paints_current_pattern 1 1 1600
           [Draw 800; Timeout 2 1; Draw 1600]).
  - lia.
  - lia.
  - repeat constructor; unfold GINT_MAX; cbn; lia.
  - reflexivity.
  - unfold GINT_MAX. lia.
Defined.

(** ** A window wider than [PERIOD_MS] pixels *)

Lemma wide_event_plausible (ev : event) :
  wide_event ev -> plausible_event ev /\ is_press ev = false.
Proof.
  destruct ev as [w|id display|]; cbn; unfold PERIOD_MS; intros H;
    [split; [lia | reflexivity] | split; [assumption | reflexivity] | contradiction].
Qed.

Lemma wide_events_plausible (evs : list event) :
  Forall wide_event evs ->
  Forall plausible_event evs /\ existsb is_press evs = false.
Proof.
  induction 1 as [|ev evs Hev _ [IH1 IH2]]; [split; [constructor | reflexivity]|].
  destruct (wide_event_plausible ev Hev) as [H1 H2].
  split; [constructor; assumption|]. cbn. now rewrite H2.
Qed.

(** X5.  In the blue version, as long as every redraw is at a width above
    [PERIOD_MS] (4000 pixels), no draw timer is ever registered and the
    offset stays 0: the interval computed for such a width is 0, the
    interval stored at the start, so [on_draw] sees no change of interval
    and the bar does not move. *)
Theorem X5_blue_wide_window_never_animates :
  forall (window cursor : Z) (evs : list event),
    window <> 0 -> cursor <> 0 -> Forall wide_event evs ->
    exists d g,
      Blue.main window cursor evs glib_init = Done ((d, Running), g) /\
      Blue.x d = 0 /\ Blue.draw_timeout_id d = 0 /\
      Blue.draw_timeout_interval d = 0 /\
      sources g = [mk_source 1 SCREENSAVER_SUPPRESSION_PERIOD_MS
                     cb_on_screensaver_suppression_timer].
Proof.
  intros window cursor evs Hwin Hcur Hwide.
  destruct (wide_events_plausible evs Hwide) as [Hevs Hnp].
  destruct (Blue_main_running
              (fun done d g =>
                 Forall wide_event done ->
                 Blue.x d = 0 /\ Blue.draw_timeout_id d = 0 /\
                 Blue.draw_timeout_interval d = 0 /\
                 sources g = [suppression_source]))
    with (window := window) (cursor := cursor) (evs := evs)
    as (d & g & Hrun & _ & HP); try assumption.
  - intros w g0 _ Hsrc _ _. cbn. auto.
  - intros done ev d g d' g' Hinv HP Hev Hp Hrun _ Hall.
    apply Forall_app in Hall. destruct Hall as [Hdone Hlast].
    destruct (HP Hdone) as (Hx & Hid & Hint & Hsrc).
    inversion Hlast as [|? ? Hwev _]; subst.
    destruct ev as [w|id display|]; [| |discriminate]; cbn in Hwev.
    + rewrite Blue_dispatch_draw in Hrun by (cbn in Hev; exact Hev).
      cbv zeta in Hrun.
      assert (Hq : PERIOD_MS / w = 0) by (apply Z.div_small; unfold PERIOD_MS in *; lia).
      rewrite Hint, Hq in Hrun. cbn [Z.eqb negb] in Hrun.
      injection Hrun as <- <-.
      destruct (Blue_scale_x_fields w d) as (_ & _ & -> & ->).
      split; [|split; [assumption|split; [assumption|exact Hsrc]]].
      unfold Blue.scale_x.
      destruct (Blue.width d =? w); [assumption|].
      destruct (Blue.width d =? 0); cbn [Blue.x Blue.with_width Blue.with_x];
        [assumption|].
      rewrite Hx, Z.mul_0_l. reflexivity.
    + rewrite (Blue_dispatch_timeout id display d g Hinv Hwev) in Hrun.
      rewrite Hid in Hrun. cbn [Z.eqb negb andb] in Hrun.
      destruct (id =? 1); injection Hrun as <- <-; auto.
  - exists d, g. split; [assumption|]. apply HP, Hwide.
Qed.

Lemma X5_blue_wide_window_witness :
  exists d g,
    Blue.main 1 1 [Draw 5000; Timeout 1 1; Timeout 2 1; Draw 6000] glib_init =
      Done ((d, Running), g) /\
    Blue.x d = 0 /\ Blue.draw_timeout_id d = 0 /\
    Blue.draw_timeout_interval d = 0 /\
    sources g = [mk_source 1 SCREENSAVER_SUPPRESSION_PERIOD_MS
                   cb_on_screensaver_suppression_timer].
Proof.
  apply (X5_blue_wide_window_never_animates 1 1
           [Draw 5000; Timeout 1 1; Timeout 2 1; Draw 6000]).
  - lia.
  - lia.
  - repeat constructor; unfold GINT_MAX, PERIOD_MS; cbn; lia.
Defined.

(** ** The two versions draw at the same offset *)

Lemma White_fire_closed (n : nat) :
  forall (d : White.data_t) (g : glib),
    0 <= White.x d < GUINT_MODULUS ->
    exists d' g',
      White_fire_draw_timer n d g = Done (d', g') /\
      White.x d' = (White.x d + Z.of_nat n) mod GUINT_MODULUS /\
      White.last_width d' = White.last_width d.
Proof.
  induction n as [|n IH]; intros d g Hx.
  - exists d, g. cbn. split; [reflexivity|]. split; [|reflexivity].
    rewrite Z.add_0_r. symmetry. apply Z.mod_small. assumption.
  - cbn [White_fire_draw_timer]. unfold bind.
    rewrite White_on_draw_timer_exec. cbn [fst].
    set (d1 := White.with_x d _).
    destruct (IH d1 (push (c_widget_queue_draw (White.window d)) g))
      as (d' & g' & Hrun & Hx' & Hlw).
    + subst d1. cbn. apply Z.mod_pos_bound. unfold GUINT_MODULUS. lia.
    + exists d', g'. split; [assumption|]. split; [|exact Hlw].
      rewrite Hx'. subst d1. cbn [White.x White.with_x].
      rewrite Z.add_mod_idemp_l by (unfold GUINT_MODULUS; lia).
      f_equal. lia.
Qed.

(** X6.  From the same offset below the width, [k] firings of the draw
    timer followed by a redraw at that width leave the same offset in the
    two versions, [(x0 + k) mod w], as long as [x0 + k] fits a [guint]: the
    white version, which wraps only when it draws, shows what the blue
    version, which wraps at every firing, shows. *)
Theorem X6_versions_draw_at_same_offset :
  forall (w x0 : Z) (k : nat) (dw : White.data_t) (db : Blue.data_t) (g : glib),
    0 < w <= GINT_MAX -> 0 <= x0 < w -> x0 + Z.of_nat k < GUINT_MODULUS ->
    exists dw1 gw1 dw2 gw2 db1 gb1 db2 gb2,
      White_fire_draw_timer k
        (White.with_x (White.with_last_width dw w) x0) g = Done (dw1, gw1) /\
      White.on_draw w dw1 gw1 = Done ((dw2, true), gw2) /\
      Blue.fire_draw_timer k (Blue.with_x (Blue.with_width db w) x0) g =
        Done (db1, gb1) /\
      Blue.on_draw w db1 gb1 = Done ((db2, true), gb2) /\
      White.x dw2 = (x0 + Z.of_nat k) mod w /\
      Blue.x db2 = (x0 + Z.of_nat k) mod w.
Proof.
  intros w x0 k dw db g Hw Hx Hfit.
  destruct (White_fire_closed k (White.with_x (White.with_last_width dw w) x0) g)
    as (dw1 & gw1 & Hwf & Hwx & _).
  { cbn. unfold GUINT_MODULUS, GINT_MAX in *. lia. }
  cbn [White.x White.with_x] in Hwx.
  rewrite Z.mod_small in Hwx by lia.
  destruct (White_on_draw_offset w dw1 gw1 Hw) as (dw2 & gw2 & Hwd & Hwx2 & _).
  destruct (Blue_fire_closed w Hw k (Blue.with_x (Blue.with_width db w) x0) g)
    as (db1 & gb1 & Hbf & Hbw & Hbx); [reflexivity | exact Hx |].
  cbn [Blue.x Blue.with_x] in Hbx.
  destruct (Blue_on_draw_total w db1 gb1 Hw)
    as (db' & gb' & _ & Hbd & Hbx' & Hbw' & _).
  exists dw1, gw1, dw2, gw2, db1, gb1. eexists. eexists.
  split; [exact Hwf|]. split; [exact Hwd|]. split; [exact Hbf|].
  split; [exact Hbd|]. split; [congruence|].
  unfold Blue.scale_x. rewrite Hbw', Hbw, Z.eqb_refl. congruence.
Qed.

Lemma X6_versions_draw_at_same_offset_witness :
  exists dw1 gw1 dw2 gw2 db1 gb1 db2 gb2,
    White_fire_draw_timer 1000
      (White.with_x (White.with_last_width (White.mk_data 1 1 2 0 0) 800) 17)
      glib_init = Done (dw1, gw1) /\
    White.on_draw 800 dw1 gw1 = Done ((dw2, true), gw2) /\
    Blue.fire_draw_timer 1000
      (Blue.with_x (Blue.with_width (Blue.mk_data 1 1 2 5 0 0) 800) 17)
      glib_init = Done (db1, gb1) /\
    Blue.on_draw 800 db1 gb1 = Done ((db2, true), gb2) /\
    White.x dw2 = (17 + Z.of_nat 1000) mod 800 /\
    Blue.x db2 = (17 + Z.of_nat 1000) mod 800.
Proof.
  apply (X6_versions_draw_at_same_offset 800 17 1000 (White.mk_data 1 1 2 0 0)
           (Blue.mk_data 1 1 2 5 0 0) glib_init);
    unfold GINT_MAX, GUINT_MODULUS; lia.
Defined.

(** ** Resizing and back *)

Lemma rescale_back (w1 w2 x0 : Z) :
  0 < w1 -> 0 < w2 -> 0 <= x0 ->
  let x1 := x0 * w2 / w1 in
  let x2 := x1 * w1 / w2 in
  0 <= x1 * w1 <= x0 * w2 /\
  x2 <= x0 /\ (x0 - x2) * w2 < w1 + w2 /\
  (x2 = x0 <-> (x0 * w2) mod w1 = 0) /\
  (w2 mod w1 = 0 -> x2 = x0).
Proof.
  intros Hw1 Hw2 Hx. cbv zeta.
  pose proof (Z.div_mod (x0 * w2) w1 ltac:(lia)) as H1.
  pose proof (Z.mod_pos_bound (x0 * w2) w1 Hw1) as B1.
  set (x1 := x0 * w2 / w1) in *.
  assert (Hx1 : 0 <= x1) by (apply Z.div_pos; nia).
  pose proof (Z.div_mod (x1 * w1) w2 ltac:(lia)) as H2.
  pose proof (Z.mod_pos_bound (x1 * w1) w2 Hw2) as B2.
  set (x2 := x1 * w1 / w2) in *.
  split; [nia|]. split; [nia|]. split; [nia|]. split.
  { split.
    - intros Heq. nia.
    - intros Hz. rewrite Hz, Z.add_0_r in H1.
      subst x2. rewrite (Z.mul_comm x1 w1), <- H1. apply Z.div_mul. lia. }
  intros Hdiv. apply Z.mod_divide in Hdiv; [|lia].
  destruct Hdiv as [q Hq].
  assert (Hx1q : x1 = x0 * q).
  { subst x1. rewrite Hq, Z.mul_assoc. apply Z.div_mul. lia. }
  subst x2. rewrite Hx1q, Hq.
  replace (x0 * q * w1) with (x0 * (q * w1)) by ring.
  apply Z.div_mul. nia.
Qed.

(** X7.  In the blue version a redraw at another width [w2] followed by a
    redraw at the first width [w1] brings the offset back to where it was or
    a little before it, never past it: it falls short by less than
    [1 + w1 / w2] pixels, and it is back at [x0] if and only if [w1] divides
    [x0 * w2]; in particular it is whenever [w2] is a multiple of [w1] (the
    product [x0 * w2] is assumed to fit a [guint]). *)
Theorem X7_blue_resize_and_back :
  forall (w1 w2 x0 : Z) (d : Blue.data_t) (g : glib),
    0 < w1 <= GINT_MAX -> 0 < w2 <= GINT_MAX -> 0 <= x0 < w1 ->
    x0 * w2 < GUINT_MODULUS ->
    exists d1 g1 d2 g2,
      Blue.on_draw w2 (Blue.with_x (Blue.with_width d w1) x0) g =
        Done ((d1, true), g1) /\
      Blue.on_draw w1 d1 g1 = Done ((d2, true), g2) /\
      Blue.width d2 = w1 /\
      0 <= Blue.x d2 <= x0 /\
      (x0 - Blue.x d2) * w2 < w1 + w2 /\
      (Blue.x d2 = x0 <-> (x0 * w2) mod w1 = 0) /\
      (w2 mod w1 = 0 -> Blue.x d2 = x0).
Proof.
  intros w1 w2 x0 d g Hw1 Hw2 Hx Hfit.
  destruct (Blue_on_draw_total w2 (Blue.with_x (Blue.with_width d w1) x0) g Hw2)
    as (da & ga & _ & Hrun1 & Hxa & Hwa & _).
  cbn in Hxa, Hwa.
  destruct (Blue_scale_x_offset w1 w2 da Hw1 Hw2 Hwa) as [Hr1 Hf1]; [lia|].
  rewrite Hxa in Hf1. specialize (Hf1 Hfit).
  set (d1 := Blue.scale_x w2 da) in *.
  assert (Hwd1 : Blue.width d1 = w2) by apply Blue_scale_x_width.
  match type of Hrun1 with _ = Done (_, ?e) => set (g1 := e) in * end.
  destruct (Blue_on_draw_total w1 d1 g1 Hw1)
    as (db & gb & _ & Hrun2 & Hxb & Hwb & _).
  rewrite Hwd1 in Hwb.
  destruct (rescale_back w1 w2 x0) as (Hprod & Hle & Hshort & Hiff & Hexact);
    try lia.
  cbv zeta in Hprod, Hle, Hshort, Hiff, Hexact.
  rewrite <- Hf1 in Hprod, Hle, Hshort, Hiff, Hexact.
  destruct (Blue_scale_x_offset w2 w1 db Hw2 Hw1 Hwb) as [Hr2 Hf2]; [lia|].
  rewrite Hxb in Hf2.
  assert (Hx2 : Blue.x (Blue.scale_x w1 db) = Blue.x d1 * w1 / w2)
    by (apply Hf2; lia).
  exists d1, g1. eexists. eexists.
  split; [exact Hrun1|]. split; [exact Hrun2|].
  split; [apply Blue_scale_x_width|].
  rewrite Hx2. split; [split; [|exact Hle]|split; [|split]; assumption].
  apply Z.div_pos; lia.
Qed.

Lemma X7_blue_resize_and_back_witness :
  exists d1 g1 d2 g2,
    Blue.on_draw 1600
      (Blue.with_x (Blue.with_width (Blue.mk_data 1 1 2 5 0 0) 800) 401)
      glib_init = Done ((d1, true), g1) /\
    Blue.on_draw 800 d1 g1 = Done ((d2, true), g2) /\
    Blue.width d2 = 800 /\
    0 <= Blue.x d2 <= 401 /\
    (401 - Blue.x d2) * 1600 < 800 + 1600 /\
    (Blue.x d2 = 401 <-> (401 * 1600) mod 800 = 0) /\
    (1600 mod 800 = 0 -> Blue.x d2 = 401).
Proof.
  apply (X7_blue_resize_and_back 800 1600 401 (Blue.mk_data 1 1 2 5 0 0) glib_init);
    unfold GINT_MAX, GUINT_MODULUS; lia.
Defined.

(** ** The idle-suppression timer is independent of the drawing *)

Lemma count_fires_snoc (id : Z) (done : list event) (ev : event) :
  length (filter (fires id) (done ++ [ev])) =
  (length (filter (fires id) done) + (if fires id ev then 1 else 0))%nat.
Proof.
  rewrite filter_app, length_app. cbn.
  destruct (fires id ev); reflexivity.
Qed.

Lemma Blue_warp_step (done : list event) (ev : event) (d d' : Blue.data_t)
    (g g' : glib) :
  Blue_inv 1 d g ->
  length (filter is_warp (trace g)) = length (filter (fires 1) done) ->
  plausible_event ev -> is_press ev = false ->
  Blue.dispatch ev d g = Done ((d', false), g') ->
  length (filter is_warp (trace g')) = length (filter (fires 1) (done ++ [ev])).
Proof.
  intros Hinv Hcount Hev Hp Hrun. rewrite count_fires_snoc, <- Hcount.
  destruct ev as [w|id display|]; [| |discriminate]; cbn [plausible_event] in Hev.
  - rewrite Blue_dispatch_draw in Hrun by assumption. cbv zeta in Hrun.
    injection Hrun as _ <-. cbn [fires]. rewrite Nat.add_0_r.
    destruct (negb (Blue.draw_timeout_interval d =? PERIOD_MS / w));
      [destruct (Blue.draw_timeout_id d =? 0)|]; reflexivity.
  - rewrite (Blue_dispatch_timeout id display d g Hinv Hev) in Hrun.
    cbn [fires].
    destruct (id =? 1).
    + injection Hrun as _ <-. cbn. lia.
    + destruct (negb (Blue.draw_timeout_id d =? 0) && (id =? Blue.draw_timeout_id d));
        injection Hrun as _ <-; cbn; lia.
Qed.

Lemma White_warp_step (done : list event) (ev : event) (d d' : White.data_t)
    (g g' : glib) :
  White_inv 1 d g ->
  length (filter is_warp (trace g)) = length (filter (fires 1) done) ->
  plausible_event ev -> is_press ev = false ->
  White.dispatch ev d g = Done ((d', false), g') ->
  length (filter is_warp (trace g')) = length (filter (fires 1) (done ++ [ev])).
Proof.
  intros Hinv Hcount Hev Hp Hrun. rewrite count_fires_snoc, <- Hcount.
  destruct ev as [w|id display|]; [| |discriminate]; cbn [plausible_event] in Hev.
  - cbn [fires]. rewrite Nat.add_0_r.
    destruct (Z.eq_dec (White.last_width d) w) as [Heq|Hne].
    + rewrite White_dispatch_draw_same in Hrun by assumption.
      injection Hrun as _ <-. reflexivity.
    + destruct (White_dispatch_draw_changed w d g Hev Hne)
        as (d2 & g2' & g2 & Hrun2 & _ & _ & _ & _ & Hwarp & _).
      rewrite Hrun in Hrun2. injection Hrun2 as _ <-. now rewrite Hwarp.
  - rewrite (White_dispatch_timeout id display d g Hinv Hev) in Hrun.
    cbn [fires].
    destruct (id =? 1).
    + injection Hrun as _ <-. cbn. lia.
    + destruct (negb (White.draw_timeout_id d =? 0) && (id =? White.draw_timeout_id d));
        injection Hrun as _ <-; cbn; lia.
Qed.

(** X8.  In a run of the blue version that has not ended, the pointer has
    been warped exactly once for every firing of the idle-suppression timer
    (the source 1): redraws, width changes and firings of the draw timer
    neither warp the pointer nor stop the idle-suppression timer. *)
Theorem X8_blue_one_warp_per_suppression_firing :
  forall (window cursor : Z) (evs : list event),
    window <> 0 -> cursor <> 0 ->
    Forall plausible_event evs -> existsb is_press evs = false ->
    exists d g s,
      Blue.main window cursor evs glib_init = Done ((d, Running), g) /\
      length (filter is_warp (trace g)) = length (filter (fires 1) evs) /\
      find_source 1 g = Some s /\
      source_callback s = cb_on_screensaver_suppression_timer.
Proof.
  intros window cursor evs Hwin Hcur Hevs Hnp.
  destruct (Blue_main_running
              (fun done d g =>
                 length (filter is_warp (trace g)) =
                 length (filter (fires 1) done)))
    with (window := window) (cursor := cursor) (evs := evs)
    as (d & g & Hrun & (_ & _ & Hown & _) & HP); try assumption.
  - intros w g0 _ _ Hwarp. now rewrite Hwarp.
  - intros done ev d g d' g' Hinv HP Hev Hp Hrun _.
    exact (Blue_warp_step done ev d d' g g' Hinv HP Hev Hp Hrun).
  - destruct (find_source_supp _ _ _ Hown) as (s & Hf & Hcb).
    exists d, g, s. auto.
Qed.

Lemma X8_blue_one_warp_witness :
  exists d g s,
    Blue.main 1 1 [Draw 800; Timeout 1 7; Timeout 2 7; Draw 1600; Timeout 1 7]
      glib_init = Done ((d, Running), g) /\
    length (filter is_warp (trace g)) =
      length (filter (fires 1)
                [Draw 800; Timeout 1 7; Timeout 2 7; Draw 1600; Timeout 1 7]) /\
    find_source 1 g = Some s /\
    source_callback s = cb_on_screensaver_suppression_timer.
Proof.
  apply (X8_blue_one_warp_per_suppression_firing 1 1
           [Draw 800; Timeout 1 7; Timeout 2 7; Draw 1600; Timeout 1 7]).
  - lia.
  - lia.
  - repeat constructor; unfold GINT_MAX; cbn; lia.
  - reflexivity.
Defined.

(** X9.  In a run of the white version that has not ended, the pointer has
    been warped exactly once for every firing of the idle-suppression timer
    (the source 1): redraws, the rebuilding of the timer and the pattern on
    a width change, and firings of the draw timer neither warp the pointer
    nor stop the idle-suppression timer. *)
Theorem X9_white_one_warp_per_suppression_firing :
  forall (window cursor : Z) (evs : list event),
    window <> 0 -> cursor <> 0 ->
    Forall plausible_event evs -> existsb is_press evs = false ->
    exists d g s,
      White.main window cursor evs glib_init = Done ((d, Running), g) /\
      length (filter is_warp (trace g)) = length (filter (fires 1) evs) /\
      find_source 1 g = Some s /\
      source_callback s = cb_on_screensaver_suppression_timer.
Proof.
  intros window cursor evs Hwin Hcur Hevs Hnp.
  destruct (White_main_running
              (fun done d g =>
                 length (filter is_warp (trace g)) =
                 length (filter (fires 1) done)))
    with (window := window) (cursor := cursor) (evs := evs)
    as (d & g & Hrun & (_ & Hown & _) & HP); try assumption.
  - intros w g0 _ _ Hwarp. now rewrite Hwarp.
  - intros done ev d g d' g' Hinv HP Hev Hp Hrun _.
    exact (White_warp_step done ev d d' g g' Hinv HP Hev Hp Hrun).
  - destruct (find_source_supp _ _ _ Hown) as (s & Hf & Hcb).
    exists d, g, s. auto.
Qed.

Lemma X9_white_one_warp_witness :
  exists d g s,
    White.main 1 1 [Draw 800; Timeout 1 7; Timeout 2 7; Draw 1600; Timeout 1 7]
      glib_init = Done ((d, Running), g) /\
    length (filter is_warp (trace g)) =
      length (filter (fires 1)
                [Draw 800; Timeout 1 7; Timeout 2 7; Draw 1600; Timeout 1 7]) /\
    find_source 1 g = Some s /\
    source_callback s = cb_on_screensaver_suppression_timer.
Proof.
  apply (X9_white_one_warp_per_suppression_firing 1 1
           [Draw 800; Timeout 1 7; Timeout 2 7; Draw 1600; Timeout 1 7]).
  - lia.
  - lia.
  - repeat constructor; unfold GINT_MAX; cbn; lia.
  - reflexivity.
Defined.

(** ** A redraw at width 0 *)

Lemma White_on_draw_zero (d : White.data_t) (g : glib) :
  White.on_draw 0 d g = UndefinedBehaviour.
Proof.
  unfold White.on_draw, bind. change (to_guint 0) with 0.
  destruct (White.last_width d =? 0); [reflexivity|].
  unfold White.rebuild, bind. rewrite White_free_exec. reflexivity.
Qed.

(** X10.  A redraw that finds an allocated width of 0, at whatever point of
    a run and whatever follows, ends the run: the blue version fails the
    assertion of [on_draw] before it touches the timer or the offset; the
    white version has no such assertion and runs into an undefined
    conversion or division by zero. *)
Theorem X10_redraw_at_width_zero :
  forall (window cursor : Z) (evs rest : list event),
    window <> 0 -> cursor <> 0 ->
    Forall plausible_event evs -> existsb is_press evs = false ->
    Blue.main window cursor (evs ++ Draw 0 :: rest) glib_init = AssertionFailed /\
    White.main window cursor (evs ++ Draw 0 :: rest) glib_init =
      UndefinedBehaviour.
Proof.
  intros window cursor evs rest Hwin Hcur Hevs Hnp. split.
  - destruct (Blue_main_start window cursor Hwin Hcur) as (d0 & g0 & Hinv0 & Hmain).
    destruct (Blue_gtk_main_inv 1 evs Hevs d0 g0 Hinv0) as (d & g & Hrun & _).
    rewrite Hnp in Hrun.
    rewrite Hmain, Blue_gtk_main_app, Hrun. reflexivity.
  - destruct (White_main_start window cursor Hwin Hcur) as (d0 & g0 & Hinv0 & Hmain).
    destruct (White_gtk_main_inv 1 evs Hevs d0 g0 Hinv0) as (d & g & Hrun & _).
    rewrite Hnp in Hrun.
    rewrite Hmain, White_gtk_main_app, Hrun.
    cbn [White.gtk_main]. unfold bind, White.dispatch, White.handler, bind.
    rewrite White_on_draw_zero. reflexivity.
Qed.

Lemma X10_redraw_at_width_zero_witness :
  Blue.main 1 1 ([Draw 800; Timeout 2 1] ++ Draw 0 :: [Draw 800; Press]) glib_init =
    AssertionFailed /\
  White.main 1 1 ([Draw 800; Timeout 2 1] ++ Draw 0 :: [Draw 800; Press]) glib_init =
    UndefinedBehaviour.
Proof.
  apply (X10_redraw_at_width_zero 1 1 [Draw 800; Timeout 2 1] [Draw 800; Press]).
  - lia.
  - lia.
  - repeat constructor; unfold GINT_MAX; cbn; lia.
  - reflexivity.
Defined.

(** ** Nothing is leaked while the program runs *)

Lemma acquired_sources_owned (supp draw : Z) (g : glib) :
  wf g -> owned_sources supp draw g ->
  forall id, In id (added_sources (trace g)) ->
    id = supp \/ (id = draw /\ draw <> 0) \/ In id (removed_sources (trace g)).
Proof.
  intros [(_ & _ & _ & _ & _ & Hacq) _] (_ & _ & _ & _ & Hall) id Hid.
  destruct (Hacq id Hid) as [H|H]; [right; now right|].
  cbn in H. unfold source_ids in H. apply in_map_iff in H.
  destruct H as (s & Hs & Hin).
  destruct (Hall s Hin) as [[H1 _]|[H1 [H2 _]]].
  - left. congruence.
  - right. left. split; [congruence | assumption].
Qed.

(** X11.  While the blue version runs, every timeout source it has ever
    added is the idle-suppression timer, the draw timer it holds in
    [draw_timeout_id], or a source it has removed; the only pattern alive
    is the one it holds in [pattern], and every pattern it has created is
    that one or has been destroyed.  Re-registering the draw timer leaks
    nothing. *)
Theorem X11_blue_leaks_nothing_while_running :
  forall (window cursor : Z) (evs : list event),
    window <> 0 -> cursor <> 0 ->
    Forall plausible_event evs -> existsb is_press evs = false ->
    exists d g,
      Blue.main window cursor evs glib_init = Done ((d, Running), g) /\
      (forall id, In id (added_sources (trace g)) ->
         id = 1 \/
         (id = Blue.draw_timeout_id d /\ Blue.draw_timeout_id d <> 0) \/
         In id (removed_sources (trace g))) /\
      map fst (patterns g) = [Blue.pattern d] /\
      (forall p, In p (created_patterns (trace g)) ->
         p = Blue.pattern d \/ In p (destroyed_patterns (trace g))).
Proof.
  intros window cursor evs Hwin Hcur Hevs Hnp.
  destruct (Blue_main_run window cursor evs Hwin Hcur Hevs)
    as (d & g & Hrun & _ & _ & Hcase).
  rewrite Hnp in Hrun, Hcase. destruct Hcase as (Hwf & _ & Hown & Hpat).
  exists d, g. split; [exact Hrun|].
  split; [exact (acquired_sources_owned _ _ _ Hwf Hown)|].
  split; [rewrite Hpat; reflexivity|].
  intros p Hp. destruct Hwf as [_ (_ & _ & _ & _ & _ & Hacq)].
  destruct (Hacq p Hp) as [H|H]; [now right|].
  cbn in H. unfold pattern_ids in H. rewrite Hpat in H.
  destruct H as [H|[]]. left. now symmetry.
Qed.

Lemma X11_blue_leaks_nothing_witness :
  exists d g,
    Blue.main 1 1 [Draw 800; Draw 1600; Timeout 3 1; Draw 800] glib_init =
      Done ((d, Running), g) /\
    (forall id, In id (added_sources (trace g)) ->
       id = 1 \/
       (id = Blue.draw_timeout_id d /\ Blue.draw_timeout_id d <> 0) \/
       In id (removed_sources (trace g))) /\
    map fst (patterns g) = [Blue.pattern d] /\
    (forall p, In p (created_patterns (trace g)) ->
       p = Blue.pattern d \/ In p (destroyed_patterns (trace g))).
Proof.
  apply (X11_blue_leaks_nothing_while_running 1 1
           [Draw 800; Draw 1600; Timeout 3 1; Draw 800]).
  - lia.
  - lia.
  - repeat constructor; unfold GINT_MAX; cbn; lia.
  - reflexivity.
Defined.

(** X12.  While the white version runs, every timeout source it has ever
    added is the idle-suppression timer, the draw timer it holds in
    [draw_timeout_id], or a source it has removed; at most one pattern is
    alive, the one it holds in [pattern], and every pattern it has created
    is that one or has been destroyed.  Rebuilding the timer and the pattern
    on every width change leaks nothing. *)
Theorem X12_white_leaks_nothing_while_running :
  forall (window cursor : Z) (evs : list event),
    window <> 0 -> cursor <> 0 ->
    Forall plausible_event evs -> existsb is_press evs = false ->
    exists d g,
      White.main window cursor evs glib_init = Done ((d, Running), g) /\
      (forall id, In id (added_sources (trace g)) ->
         id = 1 \/
         (id = White.draw_timeout_id d /\ White.draw_timeout_id d <> 0) \/
         In id (removed_sources (trace g))) /\
      map fst (patterns g) =
        (if White.pattern d =? 0 then [] else [White.pattern d]) /\
      (forall p, In p (created_patterns (trace g)) ->
         (p = White.pattern d /\ White.pattern d <> 0) \/
         In p (destroyed_patterns (trace g))).
Proof.
  intros window cursor evs Hwin Hcur Hevs Hnp.
  destruct (White_main_run window cursor evs Hwin Hcur Hevs)
    as (d & g & Hrun & _ & Hcase).
  rewrite Hnp in Hrun, Hcase. destruct Hcase as (Hwf & Hown & Hpat).
  exists d, g. split; [exact Hrun|].
  split; [exact (acquired_sources_owned _ _ _ Hwf Hown)|].
  split; [rewrite Hpat; destruct (White.pattern d =? 0); reflexivity|].
  intros p Hp. destruct Hwf as [_ (_ & _ & _ & _ & _ & Hacq)].
  destruct (Hacq p Hp) as [H|H]; [now right|].
  cbn in H. unfold pattern_ids in H. rewrite Hpat in H.
  destruct (Z.eqb_spec (White.pattern d) 0) as [H0|Hn0]; [contradiction|].
  destruct H as [H|[]]. left. split; [now symmetry | assumption].
Qed.

Lemma X12_white_leaks_nothing_witness :
  exists d g,
    White.main 1 1 [Draw 800; Draw 1600; Timeout 3 1; Draw 800] glib_init =
      Done ((d, Running), g) /\
    (forall id, In id (added_sources (trace g)) ->
       id = 1 \/
       (id = White.draw_timeout_id d /\ White.draw_timeout_id d <> 0) \/
       In id (removed_sources (trace g))) /\
    map fst (patterns g) =
      (if White.pattern d =? 0 then [] else [White.pattern d]) /\
    (forall p, In p (created_patterns (trace g)) ->
       (p = White.pattern d /\ White.pattern d <> 0) \/
       In p (destroyed_patterns (trace g))).
Proof.
  apply (X12_white_leaks_nothing_while_running 1 1
           [Draw 800; Draw 1600; Timeout 3 1; Draw 800]).
  - lia.
  - lia.
  - repeat constructor; unfold GINT_MAX; cbn; lia.
  - reflexivity.
Defined.
